(** * FinAdvisor: the staged recommendation pipeline

    A shallow embedding of [agent/functions.py], [agent/models.py],
    [agent/selected_investments.py] and the routing table of
    [agent/agent_code4.py], followed by the properties of the pipeline
    that are stated about them.

    Conventions of the embedding.
    - The graph state and every nested Python [dict] is a [gmap] from
      field name to [value]; [{**state, k: v}] is an insertion.
    - A stage is a function from [env] (what the collaborators answer:
      the two tools, the clock, the language model, the data base, and
      the texts the interpreter attaches to its own exceptions) and a
      state to an [outcome]: the [dict] it returns, or the exception that
      leaves it.
    - Python [float] is IEEE 754 binary64.  All arithmetic goes through
      the interface [PyFloat], which has two instances: [binary64]
      (Rocq's primitive floats, what the interpreter computes) and
      [exact] (rationals, the arithmetic on paper).
    - Console output ([print]) is not part of the state and is left out. *)

From Stdlib Require Import ZArith QArith Qround Qabs Floats Lia Lqa.
From Stdlib Require Import Ascii String List Sorted Permutation.
From Stdlib Require OrderedTypeEx.
From stdpp Require Import gmap strings.

Set Warnings "-register-all".
Local Open Scope string_scope.
Local Open Scope list_scope.

(** ** Exceptions and outcomes *)

Inductive exn_class : Set :=
| ValueError | TypeError | AttributeError | KeyError | IndexError
| OverflowError | ZeroDivisionError | UnboundLocalError
| CollaboratorError.

(** ** Python values *)

Inductive value (F : Type) : Type :=
| VNone
| VBool (b : bool)
| VInt (z : Z)
| VFloat (f : F)
| VStr (s : string)
| VList (l : list (value F))
| VDict (d : gmap string (value F)).

Arguments VNone {F}.
Arguments VBool {F} b.
Arguments VInt {F} z.
Arguments VFloat {F} f.
Arguments VStr {F} s.
Arguments VList {F} l.
Arguments VDict {F} d.

Abbreviation dict F := (gmap string (value F)).

(** Where the text of an exception comes from: the source names it
    ([raise ValueError("...")]), the interpreter makes it up for a failed
    operation on some operands, or a collaborator supplies it. *)
Inductive exn_origin (F : Type) : Type :=
| FromSource (text : string)
| FromInterpreter (op : string) (args : list (value F))
| FromCollaborator (text : string).

Arguments FromSource {F} text.
Arguments FromInterpreter {F} op args.
Arguments FromCollaborator {F} text.

Record exn (F : Type) : Type := Exn {
  exn_cls : exn_class;
  exn_origin_of : exn_origin F
}.

Arguments Exn {F} _ _.
Arguments exn_cls {F} _.
Arguments exn_origin_of {F} _.

(** [Unmodelled] marks the few corners of the language the embedding does
    not describe (the order [sorted] leaves NaN keys in, comparison of
    nested lists, sequence repetition); nothing is proved about them. *)
Inductive outcome (F A : Type) : Type :=
| Returned (a : A)
| Raised (e : exn F)
| Unmodelled.

Arguments Returned {F A} a.
Arguments Raised {F A} e.
Arguments Unmodelled {F A}.

Definition bind {F A B} (m : outcome F A) (k : A -> outcome F B) : outcome F B :=
  match m with
  | Returned a => k a
  | Raised e => Raised e
  | Unmodelled => Unmodelled
  end.

#[global] Instance outcome_ret {F} : MRet (outcome F) := fun A a => Returned a.
#[global] Instance outcome_bind {F} : MBind (outcome F) := fun A B k m => bind m k.
#[global] Instance outcome_fmap {F} : FMap (outcome F) :=
  fun A B f m => bind m (fun a => Returned (f a)).

Definition raise_src {F A} (c : exn_class) (text : string) : outcome F A :=
  Raised (Exn c (FromSource text)).

Definition raise_interp {F A} (c : exn_class) (op : string)
    (args : list (value F)) : outcome F A :=
  Raised (Exn c (FromInterpreter op args)).

(** ** The arithmetic interface *)

(** What [int(x)] does with a float. *)
Inductive trunc_result : Set :=
| TruncTo (z : Z)
| TruncInfinite
| TruncNaN.

Class PyFloat (F : Type) : Type := {
  f_add : F -> F -> F;
  f_sub : F -> F -> F;
  f_mul : F -> F -> F;
  (** IEEE quotient; the Python operator raises on a zero divisor first. *)
  f_div : F -> F -> F;
  (** [None] when an operand is NaN. *)
  f_cmp : F -> F -> option comparison;
  (** Exact comparison of a float with an integer, as Python does it. *)
  f_cmp_int : F -> Z -> option comparison;
  f_is_zero : F -> bool;
  (** [float(n)]; [None] is the [OverflowError] of an integer too large. *)
  f_of_int : Z -> option F;
  (** [a / b] for two integers, [b] not zero; [None] is the
      [OverflowError] of a quotient too large. *)
  f_quot : Z -> Z -> option F;
  (** The literal [m * 10^e], correctly rounded. *)
  f_dec : Z -> Z -> F;
  (** [round(x, 2)]. *)
  f_round2 : F -> F;
  (** [int(x)]. *)
  f_trunc : F -> trunc_result
}.

(** *** binary64: what the interpreter computes *)

Module Binary64.

(** The double nearest to the rational [num / den] ([0 <= num],
    [0 < den]), ties to even, with sign [neg]: the conversion a decimal
    literal and the last step of [round] both go through. *)
Definition nearest (neg : bool) (num den : Z) : spec_float :=
  match num with
  | Z0 => S754_zero neg
  | Zpos _ =>
      let '(mz, ez, lz) := SFdiv_core_binary prec emax num 0 den 0 in
      binary_round_aux prec emax neg mz ez lz
  | Zneg _ => S754_nan
  end.

Definition dec (m e : Z) : float :=
  let neg := (m <? 0)%Z in
  if (0 <=? e)%Z then SF2Prim (nearest neg (Z.abs m * 10 ^ e) 1)
  else SF2Prim (nearest neg (Z.abs m) (10 ^ (- e))).

(** The integer nearest to [num / den], ties to even ([0 < den]). *)
Definition half_even (num den : Z) : Z :=
  let q := (num / den)%Z in
  let r := (num mod den)%Z in
  match (2 * r ?= den)%Z with
  | Lt => q
  | Gt => (q + 1)%Z
  | Eq => if Z.even q then q else (q + 1)%Z
  end.

(** The number of hundredths nearest to the magnitude [m * 2^e]. *)
Definition cents (m : positive) (e : Z) : Z :=
  if (0 <=? e)%Z then (100 * Z.pos m * 2 ^ e)%Z
  else half_even (100 * Z.pos m) (2 ^ (- e)).

(** [round(x, 2)]: the decimal with two places nearest to the exact
    value of [x], ties to even, converted back to the nearest double;
    NaN and the infinities round to themselves. *)
Definition round2 (x : float) : float :=
  match Prim2SF x with
  | S754_finite s m e => SF2Prim (nearest s (cents m e) 100)
  | _ => x
  end.

Definition cmp (x y : float) : option comparison :=
  match PrimFloat.compare x y with
  | FEq => Some Eq
  | FLt => Some Lt
  | FGt => Some Gt
  | FNotComparable => None
  end.

Definition cmp_int (x : float) (z : Z) : option comparison :=
  match Prim2SF x with
  | S754_nan => None
  | S754_infinity s => Some (if s then Lt else Gt)
  | S754_zero _ => Some (0 ?= z)%Z
  | S754_finite s m e =>
      let v := if s then Z.neg m else Z.pos m in
      if (0 <=? e)%Z then Some (v * 2 ^ e ?= z)%Z
      else Some (v ?= z * 2 ^ (- e))%Z
  end.

Definition of_int (z : Z) : option float :=
  match binary_normalize prec emax z 0 false with
  | S754_infinity _ => None
  | sf => Some (SF2Prim sf)
  end.

Definition quot (a b : Z) : option float :=
  match nearest (xorb (a <? 0)%Z (b <? 0)%Z) (Z.abs a) (Z.abs b) with
  | S754_infinity _ => None
  | sf => Some (SF2Prim sf)
  end.

Definition trunc (x : float) : trunc_result :=
  match Prim2SF x with
  | S754_nan => TruncNaN
  | S754_infinity _ => TruncInfinite
  | S754_zero _ => TruncTo 0
  | S754_finite s m e =>
      let a := if (0 <=? e)%Z then (Z.pos m * 2 ^ e)%Z
               else (Z.pos m / 2 ^ (- e))%Z in
      TruncTo (if s then (- a)%Z else a)
  end.

End Binary64.

#[global] Instance binary64 : PyFloat float := {|
  f_add := PrimFloat.add;
  f_sub := PrimFloat.sub;
  f_mul := PrimFloat.mul;
  f_div := PrimFloat.div;
  f_cmp := Binary64.cmp;
  f_cmp_int := Binary64.cmp_int;
  f_is_zero := PrimFloat.is_zero;
  f_of_int := Binary64.of_int;
  f_quot := Binary64.quot;
  f_dec := Binary64.dec;
  f_round2 := Binary64.round2;
  f_trunc := Binary64.trunc
|}.

(** *** exact: the same operations on rationals *)

Module Exact.

Definition half_even (q : Q) : Z :=
  let f := Qfloor q in
  match (q - inject_Z f ?= 1 # 2)%Q with
  | Lt => f
  | Gt => (f + 1)%Z
  | Eq => if Z.even f then f else (f + 1)%Z
  end.

Definition round2 (q : Q) : Q := Qred (half_even (q * 100) # 100).

Definition dec (m e : Z) : Q :=
  if (0 <=? e)%Z then inject_Z (m * 10 ^ e)
  else Qred (Qmake m (Z.to_pos (10 ^ (- e)))).

Definition trunc (q : Q) : Z :=
  if Qle_bool 0 q then Qfloor q else Qceiling q.

End Exact.

#[global] Instance exact : PyFloat Q := {|
  f_add := fun a b => Qred (a + b);
  f_sub := fun a b => Qred (a - b);
  f_mul := fun a b => Qred (a * b);
  f_div := fun a b => Qred (a / b);
  f_cmp := fun a b => Some (a ?= b)%Q;
  f_cmp_int := fun a z => Some (a ?= inject_Z z)%Q;
  f_is_zero := fun a => Qeq_bool a 0;
  f_of_int := fun z => Some (inject_Z z);
  f_quot := fun a b => Some (Qred (inject_Z a / inject_Z b));
  f_dec := Exact.dec;
  f_round2 := Exact.round2;
  f_trunc := fun a => TruncTo (Exact.trunc a)
|}.

(** ** Text

    Text is a Rocq [string]; case mapping and white space are those of
    ASCII, on which Python's [str.lower], [str.strip] and [str.split]
    agree with the functions below. *)

Definition is_upper (c : ascii) : bool :=
  let n := nat_of_ascii c in (65 <=? n)%nat && (n <=? 90)%nat.

Definition lower_char (c : ascii) : ascii :=
  if is_upper c then ascii_of_nat (nat_of_ascii c + 32) else c.

Fixpoint lower (s : string) : string :=
  match s with
  | EmptyString => EmptyString
  | String c t => String (lower_char c) (lower t)
  end.

(** [str.isspace] on one ASCII character: tab to carriage return, the
    four separators 0x1c to 0x1f, and the blank. *)
Definition is_space (c : ascii) : bool :=
  let n := nat_of_ascii c in
  ((9 <=? n)%nat && (n <=? 13)%nat) || ((28 <=? n)%nat && (n <=? 32)%nat).

Fixpoint lstrip (s : string) : string :=
  match s with
  | EmptyString => EmptyString
  | String c t => if is_space c then lstrip t else s
  end.

Fixpoint rstrip (s : string) : string :=
  match s with
  | EmptyString => EmptyString
  | String c t =>
      match rstrip t with
      | EmptyString => if is_space c then EmptyString else String c EmptyString
      | t' => String c t'
      end
  end.

Definition strip (s : string) : string := rstrip (lstrip s).

(** [sep.join(l)]. *)
Definition join (sep : string) (l : list string) : string := String.concat sep l.

(** [needle in hay] for two strings. *)
Fixpoint contains (needle hay : string) : bool :=
  if String.prefix needle hay then true
  else match hay with
       | EmptyString => false
       | String _ t => contains needle t
       end.

(** [s.split()]: the maximal runs of characters that are not white space.
    [cur] is the run being read, kept reversed. *)
Fixpoint split_ws_aux (s : string) (cur : list ascii) : list string :=
  let flush := match cur with
               | [] => []
               | _ => [string_of_list_ascii (rev cur)]
               end in
  match s with
  | EmptyString => flush
  | String c t =>
      if is_space c then flush ++ split_ws_aux t []
      else split_ws_aux t (c :: cur)
  end.

Definition split_ws (s : string) : list string := split_ws_aux s [].

Definition digit_of (c : ascii) : option Z :=
  let n := nat_of_ascii c in
  if (48 <=? n)%nat && (n <=? 57)%nat then Some (Z.of_nat (n - 48)) else None.

(** Decimal digits, single underscores allowed between two digits. *)
Fixpoint digits_acc (s : string) (acc : Z) (after_digit : bool) : option Z :=
  match s with
  | EmptyString => if after_digit then Some acc else None
  | String c t =>
      if Ascii.eqb c "_"%char then
        if after_digit then digits_acc t acc false else None
      else match digit_of c with
           | Some d => digits_acc t (10 * acc + d) true
           | None => None
           end
  end.

(** The integer a text denotes for [int(s)]: white space around, an
    optional sign, decimal digits. *)
Definition int_of_text (s : string) : option Z :=
  match strip s with
  | String "-" t => option_map Z.opp (digits_acc t 0 false)
  | String "+" t => digits_acc t 0 false
  | t => digits_acc t 0 false
  end.

(** The interpreter refuses to convert longer numerals. *)
Definition int_max_str_digits : nat := 4300.

(** ** The interpreter *)

Section Python.

Context {F : Type} {PF : PyFloat F}.

(** What lies outside the code: the collaborators and the interpreter's
    own texts.  Every theorem holds for every [env]. *)
Record env : Type := {
  (** [user_profile_tool._run(user_id)]: always a [dict], either the
      profile row or [{"error": ...}] (tools.py catches everything). *)
  user_profile_tool_run : value F -> dict F;
  (** [market_data_tool._run()]: whatever JSON the file holds, or
      [{"error": ...}]. *)
  market_data_tool_run : value F;
  (** [datetime.now().isoformat()]. *)
  now_isoformat : string;
  (** [str(v)] for a [v] that is not already text. *)
  str_of : value F -> string;
  (** [float(s)] on text; [None] when [s] is no float literal. *)
  float_of_text : string -> option F;
  (** [str(e)] for an exception the interpreter raised. *)
  interpreter_text : exn_class -> string -> list (value F) -> string;
  (** [traceback.format_exc()] while an exception is handled. *)
  traceback_text : exn F -> string;
  (** The content the language model answers with, or its failure. *)
  llm_content : outcome F string;
  (** [json.loads]; [None] is [JSONDecodeError]. *)
  json_loads : string -> option (value F);
  (** [json.dumps]; [None] is the [TypeError] of a value it cannot
      serialise. *)
  json_dumps : value F -> option string;
  (** The text of the failure of [sqlite3.connect], if it fails. *)
  db_connect_error : option string;
  (** The text of the failure of the INSERT and commit, if they fail. *)
  db_insert_error : value F -> string -> string -> option string
}.

Definition exn_text (E : env) (e : exn F) : string :=
  match exn_origin_of e with
  | FromSource t => t
  | FromInterpreter op args => interpreter_text E (exn_cls e) op args
  | FromCollaborator t => t
  end.

(** [str(v)], also what an f-string interpolates. *)
Definition py_str (E : env) (v : value F) : string :=
  match v with
  | VStr s => s
  | _ => str_of E v
  end.

(** Truth value. *)
Definition truthy (v : value F) : bool :=
  match v with
  | VNone => false
  | VBool b => b
  | VInt z => negb (z =? 0)%Z
  | VFloat f => negb (f_is_zero f)
  | VStr s => negb (String.eqb s "")
  | VList l => match l with [] => false | _ => true end
  | VDict d => negb (bool_decide (d = ∅))
  end.

(** [v == s] for a text constant [s]. *)
Definition eq_str (v : value F) (s : string) : bool :=
  match v with
  | VStr t => String.eqb t s
  | _ => false
  end.

(** [d.get(k, default)] on a [dict]. *)
Definition get_or (d : dict F) (k : string) (default : value F) : value F :=
  match d !! k with
  | Some v => v
  | None => default
  end.

(** [k not in d or d[k] is None]. *)
Definition absent_or_none (d : dict F) (k : string) : bool :=
  match d !! k with
  | None | Some VNone => true
  | Some _ => false
  end.

(** [v.get(k, default)] on any value: only a [dict] has [get]. *)
Definition py_get (v : value F) (k : string) (default : value F)
    : outcome F (value F) :=
  match v with
  | VDict d => Returned (get_or d k default)
  | _ => raise_interp AttributeError ".get" [v]
  end.

(** [v.lower()]: only text has [lower]. *)
Definition py_lower (v : value F) : outcome F string :=
  match v with
  | VStr s => Returned (lower s)
  | _ => raise_interp AttributeError ".lower" [v]
  end.

(** *** Numbers *)

Inductive num : Type :=
| NInt (z : Z)
| NFloat (f : F).

Definition as_num (v : value F) : option num :=
  match v with
  | VBool b => Some (NInt (if b then 1 else 0))
  | VInt z => Some (NInt z)
  | VFloat f => Some (NFloat f)
  | _ => None
  end.

(** The conversion of an integer operand that meets a float. *)
Definition int_to_float (z : Z) : outcome F F :=
  match f_of_int z with
  | Some f => Returned f
  | None => raise_interp OverflowError "float" [VInt z]
  end.

Definition num_to_float (n : num) : outcome F F :=
  match n with
  | NInt z => int_to_float z
  | NFloat f => Returned f
  end.

(** [float(v)]. *)
Definition py_float (E : env) (v : value F) : outcome F F :=
  match v with
  | VFloat f => Returned f
  | VInt z => int_to_float z
  | VBool b => int_to_float (if b then 1 else 0)
  | VStr s =>
      match float_of_text E s with
      | Some f => Returned f
      | None => raise_interp ValueError "float" [v]
      end
  | _ => raise_interp TypeError "float" [v]
  end.

(** [int(v)]. *)
Definition py_int (v : value F) : outcome F Z :=
  match v with
  | VInt z => Returned z
  | VBool b => Returned (if b then 1 else 0)%Z
  | VFloat f =>
      match f_trunc f with
      | TruncTo z => Returned z
      | TruncInfinite => raise_interp OverflowError "int" [v]
      | TruncNaN => raise_interp ValueError "int" [v]
      end
  | VStr s =>
      if (int_max_str_digits <? String.length s)%nat then Unmodelled
      else match int_of_text s with
           | Some z => Returned z
           | None => raise_interp ValueError "int" [v]
           end
  | _ => raise_interp TypeError "int" [v]
  end.

(** Binary arithmetic: integers stay integers, anything with a float
    is computed in floats. *)
Definition arith (op : string) (fi : Z -> Z -> Z) (ff : F -> F -> F)
    (a b : value F) : outcome F (value F) :=
  match as_num a, as_num b with
  | Some (NInt x), Some (NInt y) => Returned (VInt (fi x y))
  | Some x, Some y =>
      fx ← num_to_float x; fy ← num_to_float y; Returned (VFloat (ff fx fy))
  | _, _ => raise_interp TypeError op [a; b]
  end.

Definition py_sub : value F -> value F -> outcome F (value F) :=
  arith "-" Z.sub f_sub.

(** [a + b]: numbers, or two texts, or two lists. *)
Definition py_add (a b : value F) : outcome F (value F) :=
  match a, b with
  | VStr s, VStr t => Returned (VStr (s ++ t))
  | VList l, VList m => Returned (VList (l ++ m))
  | _, _ => arith "+" Z.add f_add a b
  end.

Definition is_sequence (v : value F) : bool :=
  match v with
  | VStr _ | VList _ => true
  | _ => false
  end.

Definition is_intlike (v : value F) : bool :=
  match v with
  | VInt _ | VBool _ => true
  | _ => false
  end.

(** [a * b]: numbers; the repetition of a sequence is not modelled. *)
Definition py_mul (a b : value F) : outcome F (value F) :=
  if (is_sequence a && is_intlike b) || (is_intlike a && is_sequence b)
  then Unmodelled
  else arith "*" Z.mul f_mul a b.

Definition num_is_zero (n : num) : bool :=
  match n with
  | NInt z => (z =? 0)%Z
  | NFloat f => f_is_zero f
  end.

(** [a / b], true division. *)
Definition py_div (a b : value F) : outcome F (value F) :=
  match as_num a, as_num b with
  | Some (NInt x), Some (NInt y) =>
      if (y =? 0)%Z then raise_interp ZeroDivisionError "/" [a; b]
      else match f_quot x y with
           | Some q => Returned (VFloat q)
           | None => raise_interp OverflowError "/" [a; b]
           end
  | Some x, Some y =>
      fx ← num_to_float x; fy ← num_to_float y;
      if f_is_zero fy then raise_interp ZeroDivisionError "/" [a; b]
      else Returned (VFloat (f_div fx fy))
  | _, _ => raise_interp TypeError "/" [a; b]
  end.

(** [round(v, 2)]. *)
Definition py_round2 (v : value F) : outcome F (value F) :=
  match v with
  | VFloat f => Returned (VFloat (f_round2 f))
  | VInt z => Returned (VInt z)
  | VBool b => Returned (VInt (if b then 1 else 0))
  | _ => raise_interp TypeError "round" [v]
  end.

(** *** Order *)

Definition num_cmp (a b : num) : option comparison :=
  match a, b with
  | NInt x, NInt y => Some (x ?= y)%Z
  | NFloat x, NFloat y => f_cmp x y
  | NFloat x, NInt y => f_cmp_int x y
  | NInt x, NFloat y => option_map CompOpp (f_cmp_int y x)
  end.

(** The three-way comparison behind [<], [<=], [>]: [None] when a NaN
    makes the operands unordered.  Numbers compare with numbers and
    text with text; lists are not modelled; the rest is a
    [TypeError]. *)
Definition py_cmp (a b : value F) : outcome F (option comparison) :=
  match as_num a, as_num b with
  | Some x, Some y => Returned (num_cmp x y)
  | _, _ =>
      match a, b with
      | VStr s, VStr t => Returned (Some (String.compare s t))
      | VList _, VList _ => Unmodelled
      | _, _ => raise_interp TypeError "<" [a; b]
      end
  end.

Definition is_lt (c : option comparison) : bool :=
  match c with Some Lt => true | _ => false end.
Definition is_le (c : option comparison) : bool :=
  match c with Some Lt | Some Eq => true | _ => false end.
Definition is_gt (c : option comparison) : bool :=
  match c with Some Gt => true | _ => false end.

Definition py_lt (a b : value F) : outcome F bool := is_lt <$> py_cmp a b.
Definition py_le (a b : value F) : outcome F bool := is_le <$> py_cmp a b.
Definition py_gt (a b : value F) : outcome F bool := is_gt <$> py_cmp a b.

End Python.

Arguments env F : clear implicits.
Arguments num F : clear implicits.

(** ** agent/models.py *)

Section Models.

Context {F : Type} {PF : PyFloat F}.

Definition DEFAULT_ALLOCATIONS : gmap string (dict F) :=
  <["low" :=
      <["equity" := VFloat (f_dec 3 (-1))]>
      (<["fixed_income" := VFloat (f_dec 5 (-1))]>
      (<["cash" := VFloat (f_dec 2 (-1))]>
      (<["description" :=
           VStr "Conservative portfolio with focus on capital preservation"]> ∅)))]>
  (<["medium" :=
      <["equity" := VFloat (f_dec 6 (-1))]>
      (<["fixed_income" := VFloat (f_dec 3 (-1))]>
      (<["cash" := VFloat (f_dec 1 (-1))]>
      (<["description" :=
           VStr "Balanced portfolio with moderate growth potential"]> ∅)))]>
  (<["high" :=
      <["equity" := VFloat (f_dec 8 (-1))]>
      (<["fixed_income" := VFloat (f_dec 15 (-2))]>
      (<["cash" := VFloat (f_dec 5 (-2))]>
      (<["description" :=
           VStr "Aggressive portfolio with high growth potential"]> ∅)))]> ∅)).

Definition RISK_PROFILES : gmap string (dict F) :=
  <["Low" :=
      <["equity" := VFloat (f_dec 4 (-1))]>
      (<["fixed_income" := VFloat (f_dec 4 (-1))]>
      (<["gold" := VFloat (f_dec 1 (-1))]>
      (<["cash" := VFloat (f_dec 1 (-1))]> ∅)))]>
  (<["Medium" :=
      <["equity" := VFloat (f_dec 6 (-1))]>
      (<["fixed_income" := VFloat (f_dec 3 (-1))]>
      (<["gold" := VFloat (f_dec 1 (-1))]>
      (<["cash" := VFloat (f_dec 0 0)]> ∅)))]>
  (<["High" :=
      <["equity" := VFloat (f_dec 8 (-1))]>
      (<["fixed_income" := VFloat (f_dec 15 (-2))]>
      (<["gold" := VFloat (f_dec 5 (-2))]>
      (<["cash" := VFloat (f_dec 0 0)]> ∅)))]> ∅)).

End Models.

(** ** agent/functions.py *)

Section Functions.

Context {F : Type} {PF : PyFloat F}.

Abbreviation state := (dict F).

(** [{**state, "error": msg, "status": "error"}]. *)
Definition with_error (st : state) (msg : string) : state :=
  <["status" := VStr "error"]> (<["error" := VStr msg]> st).

(** [d[k]]. *)
Definition py_item (d : dict F) (k : string) : outcome F (value F) :=
  match d !! k with
  | Some v => Returned v
  | None => raise_interp KeyError "[]" [VDict d; VStr k]
  end.

Definition all_text (l : list (value F)) : option (list string) :=
  mapM (fun v => match v with VStr s => Some s | _ => None end) l.

(** [sep.join(v)]: a list of texts, or a text (joined character by
    character); the order of a non-empty [dict] is not modelled. *)
Definition py_join (sep : string) (v : value F) : outcome F string :=
  match v with
  | VList l =>
      match all_text l with
      | Some ss => Returned (join sep ss)
      | None => raise_interp TypeError "join" [v]
      end
  | VStr s =>
      Returned (join sep (map (fun c => String c EmptyString) (list_ascii_of_string s)))
  | VDict d => if bool_decide (d = ∅) then Returned "" else Unmodelled
  | _ => raise_interp TypeError "join" [v]
  end.

(** *** fetch_user_profile *)

Definition fetch_required_fields : list string :=
  ["monthly_income"; "monthly_expenses"; "risk_appetite"].

(** Nothing in the body of the [try] raises: the tool catches its own
    failures and answers with a [dict]; the [except] is never taken. *)
Definition fetch_user_profile (E : env F) (st : state) : outcome F state :=
  let user_id := get_or st "user_id" VNone in
  if negb (truthy user_id) then
    Returned (with_error st "No user_id provided in state")
  else
    let data := user_profile_tool_run E user_id in
    match data !! "error" with
    | Some err =>
        Returned (with_error st ("Failed to fetch user profile: " ++ py_str E err))
    | None =>
        match List.filter (absent_or_none data) fetch_required_fields with
        | [] =>
            Returned (<["status" := VStr "success"]>
                      (<["user_profile" := VDict data]> st))
        | missing_fields =>
            Returned (with_error st
              ("Profile is missing required fields: " ++ join ", " missing_fields))
        end
    end.

(** *** calculate_savings *)

Definition is_real (v : value F) : bool :=
  match v with
  | VBool _ | VInt _ | VFloat _ => true
  | _ => false
  end.

Definition calculate_savings (monthly_income monthly_expenses : value F)
    : outcome F (dict F) :=
  if negb (is_real monthly_income && is_real monthly_expenses) then Returned ∅
  else
    disposable_income ← py_sub monthly_income monthly_expenses;
    emergency_fund ← py_mul (VFloat (f_dec 5 (-2))) disposable_income;
    monthly_investment ← py_sub disposable_income emergency_fund;
    Returned (<["emergency_fund" := emergency_fund]>
             (<["monthly_investment" := monthly_investment]>
             (<["disposable_income" := disposable_income]> ∅))).

(** *** check_profile_completeness *)

Definition required_fields : list string :=
  ["monthly_income"; "monthly_expenses"; "risk_appetite";
   "investment_horizon_years"].

Definition risk_mapping : gmap string string :=
  <["low" := "Low"]> (<["medium" := "Medium"]> (<["high" := "High"]> ∅)).

(** The two [except] clauses; [st] is the state as the body left it. *)
Definition check_profile_handler (E : env F) (st : state) (e : exn F) : state :=
  match exn_cls e with
  | ValueError =>
      <["error" := VStr ("Invalid profile data: " ++ exn_text E e)]>
      (<["status" := VStr "profile_invalid"]> st)
  | _ =>
      <["error" := VStr ("Error processing profile: " ++ exn_text E e)]>
      (<["status" := VStr "error"]> st)
  end.

(** [profile] is the very object stored under ["user_profile"], so
    what the body writes into it is visible in [{**state, ...}] even
    when an exception cuts the body short; the state is threaded
    through accordingly. *)
Definition check_profile_completeness (E : env F) (st : state) : outcome F state :=
  match get_or st "user_profile" (VDict ∅) with
  | VDict profile =>
      match List.filter (absent_or_none profile) required_fields with
      | (_ :: _) as missing =>
          Returned (<["error" := VStr ("Missing required fields: " ++ join ", " missing)]>
                   (<["missing_fields" := VList (map VStr missing)]>
                   (<["status" := VStr "profile_incomplete"]> st)))
      | [] =>
          match (income ← py_item profile "monthly_income";
                 monthly_income ← py_float E income;
                 expenses ← py_item profile "monthly_expenses";
                 monthly_expenses ← py_float E expenses;
                 calculate_savings (VFloat monthly_income) (VFloat monthly_expenses))
          with
          | Unmodelled => Unmodelled
          | Raised e => Returned (check_profile_handler E st e)
          | Returned savings_info =>
              let profile1 :=
                if truthy (VDict savings_info) then savings_info ∪ profile
                else profile in
              let profile2 :=
                if negb (truthy (get_or profile1 "investment_goals" VNone)) then
                  <["investment_goals" :=
                      VList [VStr "Wealth accumulation"; VStr "Retirement planning"]]>
                    profile1
                else profile1 in
              let st2 := <["user_profile" := VDict profile2]> st in
              let risk_appetite :=
                strip (py_str E (get_or profile2 "risk_appetite" (VStr ""))) in
              match risk_mapping !! lower risk_appetite with
              | None =>
                  Returned (check_profile_handler E st2
                    (Exn ValueError
                       (FromSource ("Invalid risk profile: " ++ risk_appetite))))
              | Some normalized_risk =>
                  let profile3 :=
                    <["risk_appetite" := VStr normalized_risk]> profile2 in
                  Returned (<["status" := VStr "profile_valid"]>
                           (<["user_profile" := VDict profile3]> st))
              end
          end
      end
  | _ => Returned (with_error st "Invalid profile data format")
  end.

(** *** generate_fallback_recommendation *)

Definition fallback_actions : value F :=
  VList [VStr "Update your financial information";
         VStr "Set clear investment goals";
         VStr "Complete your risk assessment"].

(** The message the fallback carries.  No [try] surrounds it. *)
Definition fallback_message (st : state) : outcome F (value F) :=
  let status := get_or st "status" (VStr "profile_incomplete") in
  let message := VStr "Please complete your profile to get personalized recommendations." in
  if eq_str status "profile_incomplete" then
    let missing := get_or st "missing_fields" (VList []) in
    if truthy missing then
      joined ← py_join ", " missing;
      Returned (VStr ("Please provide the following information: " ++ joined ++ "."))
    else Returned message
  else if eq_str status "profile_invalid" then
    Returned (get_or st "error" (VStr "Invalid profile information provided."))
  else Returned message.

Definition generate_fallback_recommendation (E : env F) (st : state)
    : outcome F state :=
  message ← fallback_message st;
  Returned (<["status" := VStr "completed_with_fallback"]>
           (<["recommendation" :=
               VDict (<["status" := VStr "fallback"]>
                      (<["message" := message]>
                      (<["suggested_actions" := fallback_actions]>
                      (<["generated_at" := VStr (now_isoformat E)]>
                      (<["user_id" := get_or st "user_id" VNone]> ∅)))))]> st)).

(** *** fetch_market_data *)

Definition fetch_market_data (E : env F) (st : state) : outcome F state :=
  match market_data_tool_run E with
  | VDict data =>
      match data !! "error" with
      | Some err => Returned (with_error st ("Market data error: " ++ py_str E err))
      | None =>
          Returned (<["status" := VStr "market_data_fetched"]>
                   (<["market_data" := VDict data]> st))
      end
  | _ =>
      Returned (with_error st
        ("Failed to fetch market data: " ++ "Invalid market data format"))
  end.

(** *** calculate_emergency_fund *)

(** The body of the [try]. *)
Definition calculate_emergency_fund_body (E : env F) (st : state)
    : outcome F state :=
  let profile := get_or st "user_profile" (VDict ∅) in
  income ← py_get profile "monthly_income" (VInt 0);
  monthly_income ← py_float E income;
  expenses ← py_get profile "monthly_expenses" (VInt 0);
  monthly_expenses ← py_float E expenses;
  let disposable_income := f_sub monthly_income monthly_expenses in
  if is_le (f_cmp_int disposable_income 0) then
    raise_src ValueError "Monthly expenses exceed or equal monthly income"
  else
    let emergency_fund := f_round2 (f_mul disposable_income (f_dec 5 (-2))) in
    let monthly_investment := f_round2 (f_mul disposable_income (f_dec 95 (-2))) in
    match profile with
    | VDict profile =>
        let updated_profile :=
          <["monthly_investment" := VFloat monthly_investment]>
          (<["emergency_fund" := VFloat emergency_fund]> profile) in
        Returned (<["status" := VStr "emergency_fund_calculated"]>
                 (<["monthly_investment" := VFloat monthly_investment]>
                 (<["emergency_fund" := VFloat emergency_fund]>
                 (<["user_profile" := VDict updated_profile]> st))))
    | _ => raise_interp TypeError "**" [profile]
    end.

Definition calculate_emergency_fund (E : env F) (st : state) : outcome F state :=
  match calculate_emergency_fund_body E st with
  | Returned st' => Returned st'
  | Unmodelled => Unmodelled
  | Raised e =>
      match exn_cls e with
      | ValueError => Returned (with_error st (exn_text E e))
      | _ =>
          Returned (with_error st
            ("Error calculating emergency fund: " ++ exn_text E e))
      end
  end.

(** *** analyze_goals_and_risk *)

(** No [try] here: whatever the body raises leaves the stage.  It
    returns three fields, not the state with three fields added. *)
Definition analyze_goals_and_risk (st : state) : outcome F state :=
  let profile := get_or st "user_profile" (VDict ∅) in
  appetite ← py_get profile "risk_appetite" (VStr "moderate");
  lowered ← py_lower appetite;
  let risk_profile :=
    if bool_decide (is_Some (RISK_PROFILES (F := F) !! lowered)) then lowered
    else "moderate" in
  horizon ← py_get profile "investment_horizon_years" (VInt 5);
  time_horizon ← py_int horizon;
  Returned (<["status" := VStr "risk_analyzed"]>
           (<["time_horizon" := VInt time_horizon]>
           (<["risk_profile" := VStr risk_profile]> ∅))).

(** *** define_risk_based_allocation *)

Definition define_risk_based_allocation_body (E : env F) (st : state)
    : outcome F state :=
  lowered ← py_lower (get_or st "risk_profile" (VStr "medium"));
  let risk_profile :=
    if bool_decide (is_Some (DEFAULT_ALLOCATIONS (F := F) !! lowered)) then lowered
    else "medium" in
  row ← match DEFAULT_ALLOCATIONS !! risk_profile with
        | Some row => Returned row
        | None => raise_interp KeyError "[]" [VStr risk_profile]
        end;
  let allocation :=
    <["last_updated" := VStr (now_isoformat E)]>
    (<["risk_profile" := VStr risk_profile]> row) in
  Returned (<["status" := VStr "allocation_defined"]>
           (<["asset_allocation" := VDict allocation]> st)).

Definition define_risk_based_allocation (E : env F) (st : state)
    : outcome F state :=
  match define_risk_based_allocation_body E st with
  | Returned st' => Returned st'
  | Unmodelled => Unmodelled
  | Raised e =>
      Returned (with_error st
        ("Error defining risk-based allocation: " ++ exn_text E e))
  end.

(** *** save_recommendation *)

(** The body of the [try]: connect, build the row, insert and commit. *)
Definition save_recommendation_body (E : env F) (st : state)
    (recommendation : value F) : outcome F unit :=
  match db_connect_error E with
  | Some text => Raised (Exn CollaboratorError (FromCollaborator text))
  | None =>
      user_id ← py_item st "user_id";
      match json_dumps E recommendation with
      | None => raise_interp TypeError "json.dumps" [recommendation]
      | Some row =>
          match db_insert_error E user_id row (now_isoformat E) with
          | Some text => Raised (Exn CollaboratorError (FromCollaborator text))
          | None => Returned tt
          end
      end
  end.

(** Like [analyze_goals_and_risk], it returns only the fields it sets. *)
Definition save_recommendation (E : env F) (st : state) : outcome F state :=
  let recommendation := get_or st "recommendation" VNone in
  if negb (truthy recommendation) then
    Returned (<["error" := VStr "No recommendation to save"]> ∅)
  else
    match save_recommendation_body E st recommendation with
    | Returned _ => Returned (<["status" := VStr "recommendation_saved"]> ∅)
    | Unmodelled => Unmodelled
    | Raised e =>
        Returned (<["error" :=
                    VStr ("Failed to save recommendation: " ++ exn_text E e)]> ∅)
    end.

End Functions.

(** ** [sorted(..., key=..., reverse=True)]

    [list.sort] is stable and, reversed, keeps elements with equal keys
    in their original order.  On keys that are totally ordered every
    such sort computes the list below.  Keys that cannot be compared
    make it raise as soon as there are two elements; for NaN keys, and
    keys that are lists, the result depends on the comparisons the
    algorithm happens to make, and is left unmodelled. *)

Section Sorting.

Context {F : Type} {PF : PyFloat F}.

Inductive sort_key : Type :=
| KNum (n : num F)
| KStr (s : string)
| KList
| KOther.

Definition classify (v : value F) : sort_key :=
  match as_num v with
  | Some n => KNum n
  | None =>
      match v with
      | VStr s => KStr s
      | VList _ => KList
      | _ => KOther
      end
  end.

Definition is_nan_key (k : sort_key) : bool :=
  match k with
  | KNum n => match num_cmp n n with None => true | Some _ => false end
  | _ => false
  end.

Definition is_num_key (k : sort_key) : bool :=
  match k with KNum _ => true | _ => false end.
Definition is_str_key (k : sort_key) : bool :=
  match k with KStr _ => true | _ => false end.
Definition is_list_key (k : sort_key) : bool :=
  match k with KList => true | _ => false end.

(** [a < b] on keys of one kind. *)
Definition key_lt (a b : sort_key) : bool :=
  match a, b with
  | KNum x, KNum y => is_lt (num_cmp x y)
  | KStr s, KStr t => match String.compare s t with Lt => true | _ => false end
  | _, _ => false
  end.

(** Insertion after every element with a strictly larger key. *)
Fixpoint insert_desc {A} (x : sort_key * A) (l : list (sort_key * A))
    : list (sort_key * A) :=
  match l with
  | [] => [x]
  | y :: l' => if key_lt (fst x) (fst y) then y :: insert_desc x l' else x :: l
  end.

Definition sort_desc {A} (l : list (sort_key * A)) : list (sort_key * A) :=
  foldr insert_desc [] l.

Definition py_sorted_desc (key : value F -> outcome F (value F))
    (l : list (value F)) : outcome F (list (value F)) :=
  keys ← mapM key l;
  let keyed := zip (map classify keys) l in
  match l with
  | [] | [_] => Returned l
  | _ =>
      if existsb is_list_key (map fst keyed) || existsb is_nan_key (map fst keyed)
      then Unmodelled
      else if forallb is_num_key (map fst keyed) || forallb is_str_key (map fst keyed)
      then Returned (map snd (sort_desc keyed))
      else raise_interp TypeError "<" keys
  end.

(** Iterating over a value: a list, or the characters of a text; the
    order of a non-empty [dict] is not modelled. *)
Definition py_iter (v : value F) : outcome F (list (value F)) :=
  match v with
  | VList l => Returned l
  | VStr s =>
      Returned (map (fun c => VStr (String c EmptyString)) (list_ascii_of_string s))
  | VDict d => if bool_decide (d = ∅) then Returned [] else Unmodelled
  | _ => raise_interp TypeError "iter" [v]
  end.

End Sorting.

(** ** agent/functions.py: preprocess_market_data and
       select_investment_products *)

Section Selection.

Context {F : Type} {PF : PyFloat F}.

(** [[s for s in stocks if s.get("risk_level", "").lower() == "low"]]. *)
Fixpoint low_risk (stocks : list (value F)) : outcome F (list (value F)) :=
  match stocks with
  | [] => Returned []
  | s :: rest =>
      level ← py_get s "risk_level" (VStr "");
      level ← py_lower level;
      kept ← low_risk rest;
      Returned (if String.eqb level "low" then s :: kept else kept)
  end.

(** The state is always a [dict] here, so the [isinstance] test at the
    top never fires. *)
Definition preprocess_market_data_body (st : dict F) : outcome F (dict F) :=
  let market_data := get_or st "market_data" (VDict ∅) in
  let user_profile := get_or st "user_profile" (VDict ∅) in
  if negb (truthy market_data) then
    raise_src ValueError "No market data available for processing"
  else
    stocks ← py_get market_data "stocks" (VList []);
    mutual_funds ← py_get market_data "mutual_funds" (VList []);
    fixed_deposits ← py_get market_data "fixed_deposits" (VList []);
    appetite ← py_get user_profile "risk_appetite" (VStr "Medium");
    risk_profile ← py_lower appetite;
    stocks ← (if String.eqb risk_profile "low"
              then l ← py_iter stocks; kept ← low_risk l; Returned (VList kept)
              else Returned stocks);
    Returned (<["status" := VStr "market_data_processed"]>
             (<["processed_market_data" :=
                 VDict (<["stocks" := stocks]>
                       (<["mutual_funds" := mutual_funds]>
                       (<["fixed_deposits" := fixed_deposits]> ∅)))]> st)).

Definition preprocess_market_data (E : env F) (st : dict F) : outcome F (dict F) :=
  match preprocess_market_data_body st with
  | Returned st' => Returned st'
  | Unmodelled => Unmodelled
  | Raised e =>
      Returned (with_error st ("Error processing market data: " ++ exn_text E e))
  end.

(** [needle in v]. *)
Definition py_contains (needle : string) (v : value F) : outcome F bool :=
  match v with
  | VStr s => Returned (contains needle s)
  | VList l => Returned (existsb (fun x => eq_str x needle) l)
  | VDict d => Returned (bool_decide (is_Some (d !! needle)))
  | _ => raise_interp TypeError "in" [VStr needle; v]
  end.

(** [v.split()[0]]. *)
Definition first_word (v : value F) : outcome F string :=
  match v with
  | VStr s =>
      match split_ws s with
      | w :: _ => Returned w
      | [] => raise_interp IndexError "[]" [VList []; VInt 0]
      end
  | _ => raise_interp AttributeError ".split" [v]
  end.

(** [{**item, "allocation_amount": amount}]. *)
Definition with_amount (amount : value F) (item : value F) : outcome F (value F) :=
  match item with
  | VDict d => Returned (VDict (<["allocation_amount" := amount]> d))
  | _ => raise_interp TypeError "**" [item]
  end.

(** One asset class: if its amount is positive, rank the candidates by
    [key], keep the first [top], and give each an equal share rounded
    to two places. *)
Definition select_class (amount : value F)
    (candidates : outcome F (list (value F)))
    (key : value F -> outcome F (value F)) (top : nat)
    : outcome F (list (value F)) :=
  positive ← py_gt amount (VInt 0);
  if positive : bool then
    available ← candidates;
    ranked ← py_sorted_desc key available;
    let n := Nat.min top (length ranked) in
    if (0 <? n)%nat then
      share ← py_div amount (VInt (Z.of_nat n));
      per_item ← py_round2 share;
      mapM (with_amount per_item) (firstn n ranked)
    else Returned []
  else Returned [].

(** [[mf for mf in funds if mf.get("category") == "debt"]]. *)
Fixpoint debt_funds (funds : list (value F)) : outcome F (list (value F)) :=
  match funds with
  | [] => Returned []
  | mf :: rest =>
      category ← py_get mf "category" VNone;
      kept ← debt_funds rest;
      Returned (if eq_str category "debt" then mf :: kept else kept)
  end.

Definition default_stock : dict F :=
  <["symbol" := VStr "RELIANCE"]>
  (<["name" := VStr "Reliance Industries"]>
  (<["sector" := VStr "Conglomerate"]> ∅)).

Definition default_mutual_fund : dict F :=
  <["scheme_name" := VStr "HDFC Top 100 Fund"]>
  (<["category" := VStr "Equity"]> ∅).

Definition default_fixed_deposit : dict F :=
  <["bank" := VStr "SBI"]>
  (<["tenure" := VStr "1 year"]>
  (<["interest_rate" := VFloat (f_dec 65 (-1))]> ∅)).

(** [if not selected and amount > 0: selected = [default]]. *)
Definition or_default (selected : list (value F)) (amount : value F)
    (default : dict F) : outcome F (list (value F)) :=
  match selected with
  | [] =>
      positive ← py_gt amount (VInt 0);
      Returned (if positive : bool
                then [VDict (<["allocation_amount" := amount]> default)]
                else [])
  | _ => Returned selected
  end.

(** [sum(product["allocation_amount"] for ...)], from [acc]. *)
Fixpoint sum_amounts (acc : value F) (products : list (value F))
    : outcome F (value F) :=
  match products with
  | [] => Returned acc
  | p :: rest =>
      amount ← match p with
               | VDict d => py_item d "allocation_amount"
               | _ => raise_interp TypeError "[]" [p]
               end;
      acc' ← py_add acc amount;
      sum_amounts acc' rest
  end.

(** [(p["allocation_amount"] / monthly_investment * 100)
     if monthly_investment > 0 else 0]. *)
Definition allocation_percentage (monthly_investment : F) (p : value F)
    : outcome F (value F) :=
  if is_gt (f_cmp_int monthly_investment 0) then
    amount ← match p with
             | VDict d => py_item d "allocation_amount"
             | _ => raise_interp TypeError "[]" [p]
             end;
    share ← py_div amount (VFloat monthly_investment);
    py_mul share (VInt 100)
  else Returned (VInt 0).

Definition suggested_stock (E : env F) (monthly_investment : F)
    (stock : value F) : outcome F (value F) :=
  symbol ← py_get stock "symbol" (VStr "Unknown");
  name ← py_get stock "name" symbol;
  percentage ← allocation_percentage monthly_investment stock;
  sector ← py_get stock "sector" (VStr "various");
  Returned (VDict
    (<["name" := name]>
    (<["allocation_percentage" := percentage]>
    (<["reason" :=
        VStr ("Selected based on market cap in " ++ py_str E sector ++ " sector")]> ∅)))).

Definition suggested_fund (E : env F) (monthly_investment : F)
    (mf : value F) : outcome F (value F) :=
  name ← py_get mf "scheme_name" (VStr "Unknown Fund");
  percentage ← allocation_percentage monthly_investment mf;
  category ← py_get mf "category" (VStr "various");
  Returned (VDict
    (<["name" := name]>
    (<["allocation_percentage" := percentage]>
    (<["reason" :=
        VStr ("Selected based on historical returns in " ++ py_str E category
              ++ " category")]> ∅)))).

(** [int(t.split()[0]) * 12 if "year" in t else int(t.split()[0])]
    on the deposit's tenure. *)
Definition tenure_months (fd : value F) : outcome F (value F) :=
  tenure ← py_get fd "tenure" (VStr "");
  in_years ← py_contains "year" tenure;
  tenure' ← py_get fd "tenure" (VStr "12");
  word ← first_word tenure';
  count ← py_int (VStr word);
  Returned (VInt (if in_years : bool then count * 12 else count)).

Definition suggested_deposit (E : env F) (monthly_investment : F)
    (fd : value F) : outcome F (value F) :=
  bank ← py_get fd "bank" (VStr "Unknown Bank");
  months ← tenure_months fd;
  rate ← py_get fd "interest_rate" (VInt 0);
  rate_pct ← py_float E rate;
  percentage ← allocation_percentage monthly_investment fd;
  Returned (VDict
    (<["bank" := bank]>
    (<["tenure_months" := months]>
    (<["rate_pct" := VFloat rate_pct]>
    (<["allocation_percentage" := percentage]>
    (<["reason" :=
        VStr ("Selected based on interest rate of " ++ py_str E rate ++ "%")]> ∅)))))).

(** The monthly investment the stage works with. *)
Definition monthly_investment_of (E : env F) (st : dict F) (user_profile : value F)
    : outcome F F :=
  match get_or st "monthly_investment" VNone with
  | VNone =>
      from_profile ← py_get user_profile "monthly_investment" VNone;
      match from_profile with
      | VNone =>
          income ← py_get user_profile "monthly_income" (VInt 0);
          monthly_income ← py_float E income;
          expenses ← py_get user_profile "monthly_expenses" (VInt 0);
          monthly_expenses ← py_float E expenses;
          Returned (f_mul (f_sub monthly_income monthly_expenses) (f_dec 95 (-2)))
      | v => py_float E v
      end
  | v => py_float E v
  end.

Definition default_allocation : dict F :=
  <["equity" := VFloat (f_dec 6 (-1))]>
  (<["fixed_income" := VFloat (f_dec 3 (-1))]>
  (<["cash" := VFloat (f_dec 1 (-1))]> ∅)).

(** "Ensure ratios sum to 1": the three ratios as the amounts use them. *)
Definition normalize_ratios (equity_ratio fixed_income_ratio cash_ratio : value F)
    : outcome F (value F * value F * value F) :=
  partial ← py_add equity_ratio fixed_income_ratio;
  total_ratio ← py_add partial cash_ratio;
  positive ← py_gt total_ratio (VInt 0);
  if positive : bool then
    equity_ratio' ← py_div equity_ratio total_ratio;
    fixed_income_ratio' ← py_div fixed_income_ratio total_ratio;
    cash_ratio' ← py_div cash_ratio total_ratio;
    Returned (equity_ratio', fixed_income_ratio', cash_ratio')
  else Returned (equity_ratio, fixed_income_ratio, cash_ratio).

(** The body of the [try]. *)
Definition select_investment_products_body (E : env F) (st : dict F)
    (user_profile : value F) : outcome F (dict F) :=
  monthly_investment ← monthly_investment_of E st user_profile;
  if is_le (f_cmp_int monthly_investment 0) then
    raise_src ValueError "No monthly investment amount available"
  else
    let allocation := get_or st "asset_allocation" (VDict default_allocation) in
    equity_ratio ← py_get allocation "equity" (VFloat (f_dec 6 (-1)));
    fixed_income_ratio ← py_get allocation "fixed_income" (VFloat (f_dec 3 (-1)));
    cash_ratio ← py_get allocation "cash" (VFloat (f_dec 1 (-1)));
    '(equity_ratio, fixed_income_ratio, cash_ratio) ←
      normalize_ratios equity_ratio fixed_income_ratio cash_ratio;
    equity_amount ← py_mul (VFloat monthly_investment) equity_ratio;
    fixed_income_amount ← py_mul (VFloat monthly_investment) fixed_income_ratio;
    cash_amount ← py_mul (VFloat monthly_investment) cash_ratio;
    let market_data := get_or st "market_data" (VDict ∅) in
    stocks ← select_class equity_amount
      (l ← py_get market_data "stocks" (VList []); py_iter l)
      (fun x => py_get x "market_cap" (VInt 0)) 5;
    mutual_funds ← select_class fixed_income_amount
      (l ← py_get market_data "mutual_funds" (VList []);
       funds ← py_iter l; debt_funds funds)
      (fun x => py_get x "returns_5y" (VInt 0)) 3;
    fixed_deposits ← select_class cash_amount
      (l ← py_get market_data "fixed_deposits" (VList []); py_iter l)
      (fun x => rate ← py_get x "interest_rate" (VInt 0);
                r ← py_float E rate; Returned (VFloat r)) 3;
    stocks ← or_default stocks equity_amount default_stock;
    mutual_funds ← or_default mutual_funds fixed_income_amount default_mutual_fund;
    fixed_deposits ← or_default fixed_deposits cash_amount default_fixed_deposit;
    total_allocated ← sum_amounts (VInt 0) (stocks ++ mutual_funds ++ fixed_deposits);
    total_rounded ← py_round2 total_allocated;
    let selected_products :=
      <["stocks" := VList stocks]>
      (<["mutual_funds" := VList mutual_funds]>
      (<["fixed_deposits" := VList fixed_deposits]>
      (<["total_allocated" := total_rounded]> ∅))) in
    suggested_stocks ← mapM (suggested_stock E monthly_investment) stocks;
    suggested_funds ← mapM (suggested_fund E monthly_investment) mutual_funds;
    suggested_deposits ← mapM (suggested_deposit E monthly_investment) fixed_deposits;
    let suggested_instruments :=
      <["stocks" := VList suggested_stocks]>
      (<["mutual_funds" := VList suggested_funds]>
      (<["fixed_deposits" := VList suggested_deposits]> ∅)) in
    Returned (<["status" := VStr "products_selected"]>
             (<["monthly_investment" := VFloat monthly_investment]>
             (<["suggested_instruments" :=
                 VDict (<["suggested_instruments" := VDict suggested_instruments]> ∅)]>
             (<["selected_products" := VDict selected_products]> st)))).

(** The two lines before the [try] ask the profile for its keys: a
    profile that is not a [dict] raises out of the stage. *)
Definition select_investment_products (E : env F) (st : dict F)
    : outcome F (dict F) :=
  let user_profile := get_or st "user_profile" (VDict ∅) in
  match user_profile with
  | VDict _ =>
      match select_investment_products_body E st user_profile with
      | Returned st' => Returned st'
      | Unmodelled => Unmodelled
      | Raised e =>
          match exn_cls e with
          | ValueError => Returned (with_error st (exn_text E e))
          | _ =>
              Returned (with_error st
                ("Error selecting investment products: " ++ exn_text E e))
          end
      end
  | _ => raise_interp AttributeError ".keys" [user_profile]
  end.

End Selection.

(** ** agent/selected_investments.py: select_investments

    The stage the workflow runs under the name
    ["select_investment_products"]. *)

Section SelectInvestments.

Context {F : Type} {PF : PyFloat F}.

(** [re.search(r'\{.*\}', content, re.DOTALL)]: from the first opening
    brace to the last closing brace after it. *)
Fixpoint from_first_brace (s : string) : option string :=
  match s with
  | EmptyString => None
  | String c t => if Ascii.eqb c "{"%char then Some s else from_first_brace t
  end.

(** The longest prefix of [s] that ends with a closing brace. *)
Fixpoint to_last_brace (s : string) : option string :=
  match s with
  | EmptyString => None
  | String c t =>
      match to_last_brace t with
      | Some t' => Some (String c t')
      | None => if Ascii.eqb c "}"%char then Some (String c EmptyString) else None
      end
  end.

Definition brace_span (content : string) : option string :=
  match from_first_brace content with
  | Some s => to_last_brace s
  | None => None
  end.

Definition no_instruments : dict F :=
  <["stocks" := VList []]>
  (<["mutual_funds" := VList []]>
  (<["fixed_deposits" := VList []]> ∅)).

(** [if k not in d: d[k] = []]. *)
Definition ensure_list (k : string) (d : dict F) : dict F :=
  match d !! k with
  | Some _ => d
  | None => <[k := VList []]> d
  end.

Definition has_len (v : value F) : bool :=
  match v with
  | VStr _ | VList _ | VDict _ => true
  | _ => false
  end.

(** What is left of the answer as [result['suggested_instruments']].
    Anything that goes wrong on the way (no braces, no JSON, a shape on
    which the fix-ups or the debugging line that takes [len] of every
    entry fail) ends in the empty selection. *)
Definition parse_suggestions (E : env F) (content : string) : dict F :=
  match brace_span content with
  | None => no_instruments
  | Some response_json =>
      match json_loads E response_json with
      | Some (VDict result) =>
          match get_or result "suggested_instruments" (VDict no_instruments) with
          | VDict instruments =>
              let instruments :=
                ensure_list "fixed_deposits"
                  (ensure_list "mutual_funds" (ensure_list "stocks" instruments)) in
              if bool_decide (map_Forall (fun _ v => has_len v = true) instruments)
              then instruments
              else no_instruments
          | _ => no_instruments
          end
      | _ => no_instruments
      end
  end.

(** [v[:10]]; what a [dict] answers to a slice differs between
    interpreter versions and is not modelled. *)
Definition first_ten (v : value F) : outcome F (value F) :=
  match v with
  | VList l => Returned (VList (firstn 10 l))
  | VStr s => Returned (VStr (String.substring 0 10 s))
  | VDict _ => Unmodelled
  | _ => raise_interp TypeError "[:]" [v]
  end.

(** [a or b or c.get("risk_profile", "medium")]. *)
Definition stated_risk (st : dict F) (profile : dict F) : outcome F (value F) :=
  let a := get_or profile "risk_appetite" VNone in
  if truthy a then Returned a
  else
    let b := get_or st "risk_appetite" VNone in
    if truthy b then Returned b
    else py_get (get_or st "asset_allocation" (VDict ∅)) "risk_profile" (VStr "medium").

(** The body of the outer [try].  The target allocation it works out
    between the risk profile and the prompt goes into the prompt and
    nowhere else; of that passage only its one way to fail is kept:
    [chosen_allocation] is read without ever having been bound when
    the state has no [dict] under ["asset_allocation"]. *)
Definition select_investments_body (E : env F) (st : dict F) : outcome F (dict F) :=
  let market_data := get_or st "market_data" (VDict ∅) in
  match get_or st "profile" (VDict ∅) with
  | VDict profile =>
      if negb (truthy market_data) then
        raise_src ValueError "No market data available in state"
      else
        _ ← stated_risk st profile;
        match st !! "asset_allocation" with
        | Some (VDict _) =>
            stocks ← py_get market_data "stocks" (VList []);
            _ ← first_ten stocks;
            mutual_funds ← py_get market_data "mutual_funds" (VList []);
            _ ← first_ten mutual_funds;
            fixed_deposits ← py_get market_data "fixed_deposits" (VList []);
            _ ← first_ten fixed_deposits;
            content ← llm_content E;
            let instruments := parse_suggestions E content in
            Returned (<["status" := VStr "products_selected"]>
                     (<["selected_products" :=
                         VDict (<["stocks" := get_or instruments "stocks" (VList [])]>
                               (<["mutual_funds" :=
                                   get_or instruments "mutual_funds" (VList [])]>
                               (<["fixed_deposits" :=
                                   get_or instruments "fixed_deposits" (VList [])]>
                               (<["total_allocated" := VInt 0]> ∅))))]>
                     (<["suggested_instruments" := VDict instruments]> st)))
        | _ => raise_interp UnboundLocalError "chosen_allocation" []
        end
  | v => raise_interp AttributeError ".keys" [v]
  end.

Definition select_investments (E : env F) (st : dict F) : outcome F (dict F) :=
  match select_investments_body E st with
  | Returned st' => Returned st'
  | Unmodelled => Unmodelled
  | Raised e =>
      Returned (<["status" := VStr "error"]>
               (<["suggested_instruments" := VDict no_instruments]>
               (<["error_details" := VStr (traceback_text E e)]>
               (<["error" := VStr ("Error selecting investments: " ++ exn_text E e)]>
                  st))))
  end.

End SelectInvestments.

(** ** agent/agent_code4.py: the graph *)

Inductive node : Set :=
| n_fetch_user_profile
| n_check_profile_completeness
| n_generate_fallback_recommendation
| n_fetch_market_data
| n_preprocess_market_data
| n_calculate_emergency_fund
| n_analyze_goals_and_risk
| n_define_risk_based_allocation
| n_select_investment_products
| n_calculate_returns
| n_generate_final_recommendation
| n_save_recommendation
| n_handle_error
| END.

Section Graph.

Context {F : Type} {PF : PyFloat F}.

Definition handle_error (E : env F) (st : dict F) : outcome F (dict F) :=
  let error_msg := get_or st "error" (VStr "An unknown error occurred") in
  Returned (<["status" := VStr "error_handled"]>
           (<["recommendation" :=
               VDict (<["status" := VStr "error"]>
                      (<["message" := error_msg]>
                      (<["suggested_actions" :=
                          VList [VStr "Please try again later";
                                 VStr "Contact support if the issue persists"]]>
                      (<["generated_at" := VStr (now_isoformat E)]>
                      (<["user_id" := get_or st "user_id" VNone]> ∅)))))]> st)).

(** [x.get("status")]. *)
Definition status_of (st : dict F) : value F := get_or st "status" VNone.

(** [lambda x: a if x.get("status") != "error" else "handle_error"]. *)
Definition unless_error (a : node) (st : dict F) : node :=
  if negb (eq_str (status_of st) "error") then a else n_handle_error.

(** [lambda x: a if x.get("status") == s else "handle_error"]. *)
Definition only_on (s : string) (a : node) (st : dict F) : node :=
  if eq_str (status_of st) s then a else n_handle_error.

(** The path map of [check_profile_completeness], keyed by
    [x.get("status", "error")]; a key that is not in it has no edge. *)
Definition route_after_check_profile (st : dict F) : outcome F node :=
  let key := get_or st "status" (VStr "error") in
  if eq_str key "profile_valid" then Returned n_fetch_market_data
  else if eq_str key "profile_incomplete" then
    Returned n_generate_fallback_recommendation
  else if eq_str key "profile_invalid" then
    Returned n_generate_fallback_recommendation
  else if eq_str key "error" then Returned n_handle_error
  else raise_interp KeyError "path_map" [key].

(** It also writes the monthly investment into the state it was given
    when that is missing. *)
Definition route_after_emergency_fund (st : dict F) : outcome F (dict F * node) :=
  if negb (eq_str (status_of st) "emergency_fund_calculated") then
    Returned (st, n_handle_error)
  else
    match st !! "monthly_investment" with
    | Some _ => Returned (st, n_analyze_goals_and_risk)
    | None =>
        v ← py_get (get_or st "user_profile" (VDict ∅)) "monthly_investment" (VInt 0);
        Returned (<["monthly_investment" := v]> st, n_analyze_goals_and_risk)
    end.

(** The conditional edges, by source node. *)
Definition next_node (n : node) (st : dict F) : outcome F node :=
  match n with
  | n_fetch_user_profile => Returned (unless_error n_check_profile_completeness st)
  | n_check_profile_completeness => route_after_check_profile st
  | n_fetch_market_data => Returned (unless_error n_preprocess_market_data st)
  | n_preprocess_market_data =>
      Returned (only_on "market_data_processed" n_calculate_emergency_fund st)
  | n_calculate_emergency_fund => snd <$> route_after_emergency_fund st
  | n_analyze_goals_and_risk =>
      Returned (only_on "risk_analyzed" n_define_risk_based_allocation st)
  | n_define_risk_based_allocation =>
      Returned (only_on "allocation_defined" n_select_investment_products st)
  | n_select_investment_products =>
      Returned (only_on "products_selected" n_calculate_returns st)
  | n_calculate_returns =>
      Returned (only_on "returns_calculated" n_generate_final_recommendation st)
  | n_generate_final_recommendation =>
      Returned (only_on "recommendation_generated" n_save_recommendation st)
  | n_save_recommendation => Returned (only_on "recommendation_saved" END st)
  | n_generate_fallback_recommendation =>
      Returned (only_on "completed_with_fallback" END st)
  | n_handle_error => Returned END
  | END => Returned END
  end.

(** What a node's function returns is written over the state field by
    field. *)
Definition merge (st update : dict F) : dict F := update ∪ st.

End Graph.

(** ** agent/functions.py: calculate_returns *)

Section Returns.

Context {F : Type} {PF : PyFloat F}.

(** The amount the stage reads: the state's, or else the profile's, or
    else zero. *)
Definition stated_investment (st : dict F) : outcome F (value F) :=
  match get_or st "monthly_investment" VNone with
  | VNone =>
      py_get (get_or st "user_profile" (VDict ∅)) "monthly_investment" (VInt 0)
  | v => Returned v
  end.

(** The body of the [try]. *)
Definition calculate_returns_body (E : env F) (st : dict F) : outcome F (dict F) :=
  stated ← stated_investment st;
  monthly_investment ← py_float E stated;
  if is_le (f_cmp_int monthly_investment 0) then
    raise_src ValueError "No monthly investment amount available for return calculation"
  else
    let allocation := get_or st "asset_allocation" (VDict ∅) in
    equity ← py_get allocation "equity" (VInt 0);
    equity_amount ← py_mul (VFloat monthly_investment) equity;
    fixed_income ← py_get allocation "fixed_income" (VInt 0);
    fixed_income_amount ← py_mul (VFloat monthly_investment) fixed_income;
    gold ← py_get allocation "gold" (VInt 0);
    gold_amount ← py_mul (VFloat monthly_investment) gold;
    cash ← py_get allocation "cash" (VInt 0);
    cash_amount ← py_mul (VFloat monthly_investment) cash;
    equity_return ← py_mul equity_amount (VFloat (f_dec 10 (-2)));
    fixed_income_return ← py_mul fixed_income_amount (VFloat (f_dec 6 (-2)));
    gold_return ← py_mul gold_amount (VFloat (f_dec 4 (-2)));
    cash_return ← py_mul cash_amount (VFloat (f_dec 3 (-2)));
    partial ← py_add equity_return fixed_income_return;
    partial ← py_add partial gold_return;
    total_return ← py_add partial cash_return;
    roi_percentage ←
      (if is_gt (f_cmp_int monthly_investment 0) then
         ratio ← py_div total_return (VFloat monthly_investment);
         py_mul ratio (VInt 100)
       else Returned (VInt 0));
    Returned (<["status" := VStr "returns_calculated"]>
             (<["projected_returns" :=
                 VDict (<["equity" := equity_return]>
                       (<["fixed_income" := fixed_income_return]>
                       (<["gold" := gold_return]>
                       (<["cash" := cash_return]>
                       (<["total" := total_return]>
                       (<["roi_percentage" := roi_percentage]> ∅))))))]> st)).

Definition calculate_returns (E : env F) (st : dict F) : outcome F (dict F) :=
  match calculate_returns_body E st with
  | Returned st' => Returned st'
  | Unmodelled => Unmodelled
  | Raised e =>
      Returned (with_error st ("Error calculating returns: " ++ exn_text E e))
  end.

End Returns.

(** ** agent/functions.py: generate_final_recommendation *)

Section FinalRecommendation.

Context {F : Type} {PF : PyFloat F}.

(** The texts the format specifications of the stage produce. *)
Record number_formats : Type := {
  (** [f"{x:,.2f}"] on a float. *)
  grouped2 : F -> string;
  (** [f"{x:.1f}"] on a float. *)
  fixed1 : F -> string;
  (** [f"{x:.2f}"] on a float. *)
  fixed2 : F -> string
}.

(** [v.get(k, default)] where the default is itself a call: the
    receiver is looked at first, then the default is evaluated. *)
Definition py_get_with (v : value F) (k : string) (default : outcome F (value F))
    : outcome F (value F) :=
  match v with
  | VDict d => d0 ← default; Returned (get_or d k d0)
  | _ => raise_interp AttributeError ".get" [v]
  end.

(** [v == 0]. *)
Definition eq_zero (v : value F) : bool :=
  match as_num v with
  | Some n => match num_cmp n (NInt 0) with Some Eq => true | _ => false end
  | None => false
  end.

(** [any(key in products for key in ["stocks", "mutual_funds",
    "fixed_deposits"])]. *)
Definition any_class_in (products : value F) : outcome F bool :=
  found ← py_contains "stocks" products;
  if found : bool then Returned true
  else
    found ← py_contains "mutual_funds" products;
    if found : bool then Returned true
    else py_contains "fixed_deposits" products.

(** What the stage takes as suggested instruments, before the fix-ups,
    and whether it is the object the state holds. *)
Definition suggested_source (st : dict F) : outcome F (value F * bool) :=
  match st !! "suggested_instruments" with
  | Some v => Returned (v, true)
  | None =>
      match st !! "selected_products" with
      | Some products =>
          found ← any_class_in products;
          if found : bool then
            stocks ← py_get products "stocks" (VList []);
            mutual_funds ← py_get products "mutual_funds" (VList []);
            fixed_deposits ← py_get products "fixed_deposits" (VList []);
            Returned (VDict (<["stocks" := stocks]>
                            (<["mutual_funds" := mutual_funds]>
                            (<["fixed_deposits" := fixed_deposits]> ∅))), false)
          else Returned (VDict ∅, false)
      | None => Returned (VDict ∅, false)
      end
  end.

(** [if k not in d or not isinstance(d[k], list): d[k] = []]. *)
Definition ensure_is_list (k : string) (d : dict F) : dict F :=
  match d !! k with
  | Some (VList _) => d
  | _ => <[k := VList []]> d
  end.

Definition with_three_lists (d : dict F) : dict F :=
  ensure_is_list "fixed_deposits"
    (ensure_is_list "mutual_funds" (ensure_is_list "stocks" d)).

(** The elements of [d.get(k, [])] once [k] is known to hold a list. *)
Definition listed (d : dict F) (k : string) : list (value F) :=
  match d !! k with
  | Some (VList l) => l
  | _ => []
  end.

(** [any(d.values())]. *)
Definition any_value (d : dict F) : bool :=
  existsb (fun kv => truthy (snd kv)) (map_to_list d).

(** A loop whose body is a [try] that only prints: an element on which
    the body raises is left out. *)
Fixpoint try_each {A B} (body : A -> outcome F B) (l : list A) : outcome F (list B) :=
  match l with
  | [] => Returned []
  | x :: rest =>
      match body x with
      | Returned y => ys ← try_each body rest; Returned (y :: ys)
      | Raised _ => try_each body rest
      | Unmodelled => Unmodelled
      end
  end.

(** [(monthly_investment * (alloc_pct / 100)) if monthly_investment > 0
    else 0]. *)
Definition amount_of (monthly_investment alloc_pct : F) : outcome F (value F) :=
  if is_gt (f_cmp_int monthly_investment 0) then
    fraction ← py_div (VFloat alloc_pct) (VInt 100);
    py_mul (VFloat monthly_investment) fraction
  else Returned (VInt 0).

Definition processed_stock (E : env F) (monthly_investment : F) (stock : value F)
    : outcome F (value F) :=
  pct ← py_get stock "allocation_percentage" (VInt 0);
  alloc_pct ← py_float E pct;
  alloc_amount ← amount_of monthly_investment alloc_pct;
  name ← py_get stock "name" (VStr "Unknown");
  symbol ← py_get stock "symbol" (VStr "");
  sector ← py_get stock "sector" (VStr "");
  reason ← py_get stock "reason" (VStr "Recommended based on market analysis");
  Returned (VDict (<["name" := name]>
                  (<["symbol" := symbol]>
                  (<["sector" := sector]>
                  (<["allocation_percentage" := VFloat alloc_pct]>
                  (<["allocation_amount" := alloc_amount]>
                  (<["reason" := reason]> ∅))))))).

Definition processed_fund (E : env F) (monthly_investment : F) (mf : value F)
    : outcome F (value F) :=
  pct ← py_get mf "allocation_percentage" (VInt 0);
  alloc_pct ← py_float E pct;
  alloc_amount ← amount_of monthly_investment alloc_pct;
  name ← py_get_with mf "name" (py_get mf "scheme_name" (VStr "Unknown Fund"));
  category ← py_get mf "category" (VStr "");
  fund_house ← py_get mf "fund_house" (VStr "");
  reason ← py_get mf "reason" (VStr "Diversified investment option");
  Returned (VDict (<["name" := name]>
                  (<["category" := category]>
                  (<["fund_house" := fund_house]>
                  (<["allocation_percentage" := VFloat alloc_pct]>
                  (<["allocation_amount" := alloc_amount]>
                  (<["reason" := reason]> ∅))))))).

Definition processed_deposit (E : env F) (monthly_investment : F) (fd : value F)
    : outcome F (value F) :=
  pct ← py_get fd "allocation_percentage" (VInt 0);
  alloc_pct ← py_float E pct;
  alloc_amount ← amount_of monthly_investment alloc_pct;
  bank ← py_get fd "bank" (VStr "Bank");
  tenure ← py_get fd "tenure_months" (VInt 12);
  tenure_months ← py_int tenure;
  rate ← py_get_with fd "interest_rate" (py_get fd "rate_pct" (VInt 0));
  interest_rate ← py_float E rate;
  reason ← py_get fd "reason" (VStr "Low-risk fixed return investment");
  Returned (VDict (<["bank" := bank]>
                  (<["tenure_months" := VInt tenure_months]>
                  (<["interest_rate" := VFloat interest_rate]>
                  (<["allocation_percentage" := VFloat alloc_pct]>
                  (<["allocation_amount" := alloc_amount]>
                  (<["reason" := reason]> ∅))))))).

(** The default of [state.get("projected_returns", {...})], which is
    evaluated whether the state has the key or not. *)
Definition default_returns (monthly_investment : F) (asset_allocation : value F)
    : outcome F (dict F) :=
  share ← py_get asset_allocation "equity" (VInt 0);
  amount ← py_mul (VFloat monthly_investment) share;
  equity ← py_mul amount (VFloat (f_dec 10 (-2)));
  share ← py_get asset_allocation "fixed_income" (VInt 0);
  amount ← py_mul (VFloat monthly_investment) share;
  fixed_income ← py_mul amount (VFloat (f_dec 6 (-2)));
  share ← py_get asset_allocation "cash" (VInt 0);
  amount ← py_mul (VFloat monthly_investment) share;
  cash ← py_mul amount (VFloat (f_dec 3 (-2)));
  Returned (<["equity" := equity]>
           (<["fixed_income" := fixed_income]>
           (<["gold" := VInt 0]>
           (<["cash" := cash]>
           (<["total" := VInt 0]>
           (<["roi_percentage" := VInt 0]> ∅)))))).

(** The entries of ["suggested_instruments"] in the recommendation.
    [stock] is the variable the loop over the stocks has left behind:
    its last element. *)
Definition final_stock (E : env F) (stock : value F) (s : value F)
    : outcome F (value F) :=
  name ← py_get_with s "name" (py_get stock "symbol" (VStr "Stock"));
  pct ← py_get s "allocation_percentage" (VInt 0);
  allocation_percentage ← py_float E pct;
  reason ← py_get s "reason" (VStr "Recommended based on market analysis");
  Returned (VDict (<["name" := name]>
                  (<["allocation_percentage" := VFloat allocation_percentage]>
                  (<["reason" := reason]> ∅)))).

Definition final_fund (E : env F) (mf : value F) : outcome F (value F) :=
  name ← py_get_with mf "name" (py_get mf "scheme_name" (VStr "Mutual Fund"));
  pct ← py_get mf "allocation_percentage" (VInt 0);
  allocation_percentage ← py_float E pct;
  reason ← py_get mf "reason" (VStr "Diversified investment option");
  Returned (VDict (<["name" := name]>
                  (<["allocation_percentage" := VFloat allocation_percentage]>
                  (<["reason" := reason]> ∅)))).

Definition final_deposit (E : env F) (fd : value F) : outcome F (value F) :=
  bank ← py_get fd "bank" (VStr "Bank");
  tenure ← py_get fd "tenure_months" (VInt 12);
  tenure_months ← py_int tenure;
  rate ← py_get_with fd "interest_rate" (py_get fd "rate_pct" (VInt 0));
  rate_pct ← py_float E rate;
  pct ← py_get fd "allocation_percentage" (VInt 0);
  allocation_percentage ← py_float E pct;
  reason ← py_get fd "reason" (VStr "Low-risk fixed return investment");
  Returned (VDict (<["bank" := bank]>
                  (<["tenure_months" := VInt tenure_months]>
                  (<["rate_pct" := VFloat rate_pct]>
                  (<["allocation_percentage" := VFloat allocation_percentage]>
                  (<["reason" := reason]> ∅)))))).

(** [format_currency]. *)
Definition format_currency (E : env F) (N : number_formats) (amount : value F)
    : outcome F (value F) :=
  if truthy amount then
    x ← py_float E amount;
    Returned (VStr ("₹" ++ grouped2 N x))
  else Returned (VStr "₹0.00").

(** [f"{allocation.get(k, 0) * 100:.1f}%"]; the format turns an
    integer into a float first. *)
Definition share_text (E : env F) (N : number_formats) (asset_allocation : value F)
    (k : string) : outcome F (value F) :=
  share ← py_get asset_allocation k (VInt 0);
  percent ← py_mul share (VInt 100);
  x ← py_float E percent;
  Returned (VStr (fixed1 N x ++ "%")).

(** [(x.get("allocation_amount", 0) / monthly_investment * 100)
    if monthly_investment > 0 else 0]. *)
Definition percentage_of (monthly_investment : F) (x : value F)
    : outcome F (value F) :=
  if is_gt (f_cmp_int monthly_investment 0) then
    amount ← py_get x "allocation_amount" (VInt 0);
    fraction ← py_div amount (VFloat monthly_investment);
    py_mul fraction (VInt 100)
  else Returned (VInt 0).

Definition selected_stock (E : env F) (N : number_formats) (monthly_investment : F)
    (stock : value F) : outcome F (value F) :=
  name ← py_get_with stock "name" (py_get stock "symbol" (VStr "Unknown"));
  allocation_percentage ← percentage_of monthly_investment stock;
  amount ← py_get stock "allocation_amount" (VInt 0);
  allocation_amount ← format_currency E N amount;
  reason ← py_get stock "reason" (VStr "Selected based on market analysis");
  Returned (VDict (<["name" := name]>
                  (<["allocation_percentage" := allocation_percentage]>
                  (<["allocation_amount" := allocation_amount]>
                  (<["reason" := reason]> ∅))))).

Definition selected_fund (E : env F) (N : number_formats) (monthly_investment : F)
    (mf : value F) : outcome F (value F) :=
  name ← py_get_with mf "scheme_name" (py_get mf "name" (VStr "Unknown Fund"));
  allocation_percentage ← percentage_of monthly_investment mf;
  amount ← py_get mf "allocation_amount" (VInt 0);
  allocation_amount ← format_currency E N amount;
  reason ← py_get_with mf "reason"
             (category ← py_get mf "category" (VStr "various");
              Returned (VStr ("Selected from " ++ py_str E category ++ " category")));
  Returned (VDict (<["name" := name]>
                  (<["allocation_percentage" := allocation_percentage]>
                  (<["allocation_amount" := allocation_amount]>
                  (<["reason" := reason]> ∅))))).

Definition selected_deposit (E : env F) (N : number_formats) (monthly_investment : F)
    (fd : value F) : outcome F (value F) :=
  bank ← py_get fd "bank" (VStr "Unknown Bank");
  tenure_months ← py_get fd "tenure_months" (VInt 12);
  interest_rate ← py_get fd "interest_rate" (VInt 0);
  allocation_percentage ← percentage_of monthly_investment fd;
  amount ← py_get fd "allocation_amount" (VInt 0);
  allocation_amount ← format_currency E N amount;
  reason ← py_get_with fd "reason"
             (rate ← py_get fd "interest_rate" (VInt 0);
              Returned (VStr ("Selected with interest rate of " ++ py_str E rate ++ "%")));
  Returned (VDict (<["bank" := bank]>
                  (<["tenure_months" := tenure_months]>
                  (<["interest_rate" := interest_rate]>
                  (<["allocation_percentage" := allocation_percentage]>
                  (<["allocation_amount" := allocation_amount]>
                  (<["reason" := reason]> ∅))))))).

(** What the stage has worked out when it starts to write. *)
Record figures : Type := {
  user_profile : dict F;
  emergency_fund : F;
  monthly_investment : F;
  asset_allocation : value F;
  suggested_instruments : dict F;
  selected_products : dict F;
  final_suggested_instruments : dict F;
  projected_returns : dict F
}.

(** The recommendation. *)
Definition recommendation_of (E : env F) (N : number_formats) (st : dict F)
    (x : figures) : outcome F (value F) :=
  let profile := user_profile x in
  income ← format_currency E N (get_or profile "monthly_income" VNone);
  expenses ← format_currency E N (get_or profile "monthly_expenses" VNone);
  disposable ← format_currency E N (get_or profile "disposable_income" VNone);
  fund ← format_currency E N (VFloat (emergency_fund x));
  investment ← format_currency E N (VFloat (monthly_investment x));
  equity ← share_text E N (asset_allocation x) "equity";
  fixed_income ← share_text E N (asset_allocation x) "fixed_income";
  cash ← share_text E N (asset_allocation x) "cash";
  stocks ← mapM (selected_stock E N (monthly_investment x))
             (listed (selected_products x) "stocks");
  mutual_funds ← mapM (selected_fund E N (monthly_investment x))
                   (listed (selected_products x) "mutual_funds");
  fixed_deposits ← mapM (selected_deposit E N (monthly_investment x))
                     (listed (selected_products x) "fixed_deposits");
  total_allocated ←
    format_currency E N (get_or (selected_products x) "total_allocated" (VInt 0));
  let returns := projected_returns x in
  equity_return ← format_currency E N (get_or returns "equity" (VInt 0));
  fixed_income_return ← format_currency E N (get_or returns "fixed_income" (VInt 0));
  gold_return ← format_currency E N (get_or returns "gold" (VInt 0));
  cash_return ← format_currency E N (get_or returns "cash" (VInt 0));
  total_return ← format_currency E N (get_or returns "total" (VInt 0));
  roi ← py_float E (get_or returns "roi_percentage" (VInt 0));
  Returned (VDict
    (<["user_id" := get_or st "user_id" VNone]>
    (<["generated_at" := VStr (now_isoformat E)]>
    (<["personal_info" :=
        VDict (<["name" := get_or profile "name" VNone]>
              (<["email" := get_or profile "email" VNone]>
              (<["monthly_income" := income]>
              (<["monthly_expenses" := expenses]>
              (<["disposable_income" := disposable]> ∅)))))]>
    (<["investment_summary" :=
        VDict (<["emergency_fund" := fund]>
              (<["monthly_investment" := investment]>
              (<["risk_profile" := get_or st "risk_profile" (VStr "medium")]>
              (<["time_horizon_years" := get_or st "time_horizon" (VInt 5)]> ∅))))]>
    (<["asset_allocation" :=
        VDict (<["equity" := equity]>
              (<["fixed_income" := fixed_income]>
              (<["cash" := cash]> ∅)))]>
    (<["selected_investments" :=
        VDict (<["stocks" := VList stocks]>
              (<["mutual_funds" := VList mutual_funds]>
              (<["fixed_deposits" := VList fixed_deposits]>
              (<["total_allocated" := total_allocated]> ∅))))]>
    (<["suggested_instruments" := VDict (final_suggested_instruments x)]>
    (<["projected_returns" :=
        VDict (<["equity" := equity_return]>
              (<["fixed_income" := fixed_income_return]>
              (<["gold" := gold_return]>
              (<["cash" := cash_return]>
              (<["total" := total_return]>
              (<["roi_percentage" := VStr (fixed2 N roi ++ "%")]> ∅))))))]>
    (<["status" := VStr "success"]>
    (<["message" := VStr "Investment recommendation generated successfully"]>
       ∅))))))))))).

(** The [except] of the stage, on the state as the body has left it. *)
Definition final_failure (E : env F) (st : dict F) (e : exn F) : dict F :=
  with_error st ("Error generating final recommendation: " ++ exn_text E e).

Definition attempt {A} (E : env F) (st : dict F) (m : outcome F A)
    (k : A -> outcome F (dict F)) : outcome F (dict F) :=
  match m with
  | Returned a => k a
  | Raised e => Returned (final_failure E st e)
  | Unmodelled => Unmodelled
  end.

(** The body up to the fix-ups of the suggested instruments: the
    profile, the two amounts, and the instruments with their origin. *)
Definition final_amounts (E : env F) (st : dict F)
    : outcome F (dict F * F * F * (value F * bool)) :=
  match get_or st "user_profile" (VDict ∅) with
  | VDict profile =>
      emergency_fund ← py_float E (get_or st "emergency_fund" (VInt 0));
      stated ← py_float E (get_or profile "monthly_investment" (VInt 0));
      monthly_investment ←
        (if is_le (f_cmp_int stated 0) then
           monthly_income ← py_float E (get_or profile "monthly_income" (VInt 0));
           monthly_expenses ← py_float E (get_or profile "monthly_expenses" (VInt 0));
           Returned (f_mul (f_sub monthly_income monthly_expenses) (f_dec 95 (-2)))
         else Returned stated);
      source ← suggested_source st;
      Returned (profile, emergency_fund, monthly_investment, source)
  | v => raise_interp AttributeError ".keys" [v]
  end.

(** From the fix-ups to the first write into the projected returns:
    the products, the entries for the recommendation, the returns and
    their total. *)
Definition final_products (E : env F) (st : dict F) (monthly_investment : F)
    (asset_allocation : value F) (instruments : dict F)
    : outcome F (dict F * dict F * dict F * bool) :=
  _ ← match json_dumps E (VDict instruments) with
      | Some text => Returned text
      | None => raise_interp TypeError "json.dumps" [VDict instruments]
      end;
  products ←
    (if any_value instruments then
       stocks ← try_each (processed_stock E monthly_investment)
                  (listed instruments "stocks");
       mutual_funds ← try_each (processed_fund E monthly_investment)
                        (listed instruments "mutual_funds");
       fixed_deposits ← try_each (processed_deposit E monthly_investment)
                          (listed instruments "fixed_deposits");
       total_allocated ←
         sum_amounts (VInt 0) (stocks ++ mutual_funds ++ fixed_deposits);
       Returned (<["stocks" := VList stocks]>
                (<["mutual_funds" := VList mutual_funds]>
                (<["fixed_deposits" := VList fixed_deposits]>
                (<["total_allocated" := total_allocated]> ∅))))
     else raise_interp UnboundLocalError "stocks" []);
  defaults ← default_returns monthly_investment asset_allocation;
  let returns :=
    match st !! "projected_returns" with
    | Some v => v
    | None => VDict defaults
    end in
  let stock := List.last (listed instruments "stocks") VNone in
  final_stocks ← mapM (final_stock E stock) (listed instruments "stocks");
  final_funds ← mapM (final_fund E) (listed instruments "mutual_funds");
  final_deposits ← mapM (final_deposit E) (listed instruments "fixed_deposits");
  let final :=
    <["stocks" := VList final_stocks]>
    (<["mutual_funds" := VList final_funds]>
    (<["fixed_deposits" := VList final_deposits]> ∅)) in
  total ← py_get returns "total" (VInt 0);
  match returns with
  | VDict returns =>
      if eq_zero total then
        partial ← py_add (VInt 0) (get_or returns "equity" (VInt 0));
        partial ← py_add partial (get_or returns "fixed_income" (VInt 0));
        partial ← py_add partial (get_or returns "gold" (VInt 0));
        total ← py_add partial (get_or returns "cash" (VInt 0));
        Returned (products, final, <["total" := total]> returns, true)
      else Returned (products, final, returns, false)
  | v => raise_interp AttributeError ".get" [v]
  end.

(** The return on investment, when it has to be worked out. *)
Definition final_roi (monthly_investment : F) (returns : dict F)
    : outcome F (dict F * bool) :=
  if eq_zero (get_or returns "roi_percentage" (VInt 0))
     && is_gt (f_cmp_int monthly_investment 0)
  then
    total ← py_item returns "total";
    ratio ← py_div total (VFloat monthly_investment);
    roi ← py_mul ratio (VInt 100);
    Returned (<["roi_percentage" := roi]> returns, true)
  else Returned (returns, false).

(** What the stage writes into the projected returns is written into
    the state when they are the state's own. *)
Definition written_back (held written : bool) (returns : dict F) (st : dict F)
    : dict F :=
  if written && held then <["projected_returns" := VDict returns]> st else st.

(** The last part of the body: the recommendation and the state that
    carries it. *)
Definition final_write (E : env F) (N : number_formats) (st : dict F) (x : figures)
    : outcome F (dict F) :=
  attempt E st (recommendation_of E N st x)
    (fun recommendation =>
       Returned (<["status" := VStr "recommendation_generated"]>
                (<["recommendation" := recommendation]> st))).

(** The part before it: the return on investment. *)
Definition final_returns (E : env F) (N : number_formats) (st : dict F)
    (held : bool) (x : figures) : outcome F (dict F) :=
  attempt E st (final_roi (monthly_investment x) (projected_returns x))
    (fun '(returns, written) =>
       final_write E N (written_back held written returns st)
         {| user_profile := user_profile x;
            emergency_fund := emergency_fund x;
            monthly_investment := monthly_investment x;
            asset_allocation := asset_allocation x;
            suggested_instruments := suggested_instruments x;
            selected_products := selected_products x;
            final_suggested_instruments := final_suggested_instruments x;
            projected_returns := returns |}).

(** The part before that: from the fix-ups on. *)
Definition final_selection (E : env F) (N : number_formats) (st : dict F)
    (profile : dict F) (emergency_fund monthly_investment : F)
    (instruments : dict F) : outcome F (dict F) :=
  let asset_allocation := get_or st "asset_allocation" (VDict default_allocation) in
  attempt E st (final_products E st monthly_investment asset_allocation instruments)
    (fun '(products, final, returns, written) =>
       let held := bool_decide (is_Some (st !! "projected_returns")) in
       final_returns E N (written_back held written returns st) held
         {| user_profile := profile;
            emergency_fund := emergency_fund;
            monthly_investment := monthly_investment;
            asset_allocation := asset_allocation;
            suggested_instruments := instruments;
            selected_products := products;
            final_suggested_instruments := final;
            projected_returns := returns |}).

(** The stage.  The fix-ups of the suggested instruments are written
    into the state when the instruments are the state's own. *)
Definition generate_final_recommendation (E : env F) (N : number_formats)
    (st : dict F) : outcome F (dict F) :=
  attempt E st (final_amounts E st)
    (fun '(profile, emergency_fund, monthly_investment, (source, own)) =>
       match source with
       | VDict d =>
           let instruments := with_three_lists d in
           final_selection E N
             (if own : bool then <["suggested_instruments" := VDict instruments]> st
              else st)
             profile emergency_fund monthly_investment instruments
       | _ =>
           final_selection E N st profile emergency_fund monthly_investment
             no_instruments
       end).

End FinalRecommendation.

Arguments number_formats F : clear implicits.
Arguments figures F : clear implicits.

(** ** agent/agent_code4.py: the nodes and the run *)

(** [GraphState] of agent/models.py: the fields the state declares. *)
Definition GraphState : list string :=
  ["user_id"; "user_profile";
   "market_data"; "processed_market_data";
   "emergency_fund"; "risk_profile"; "time_horizon";
   "asset_allocation"; "selected_stocks"; "selected_mutual_funds"; "selected_fds";
   "recommendation";
   "status"; "error"].

(** The engine that runs the graph is not part of the code.  Two things
    it decides are left open here: which of the fields a function
    returns it writes into the state, and whether what a router writes
    into the state it is given stays there. *)
Record engine : Type := {
  writes : string -> bool;
  keeps_routed : bool
}.

(** An engine that at least writes the fields [GraphState] declares. *)
Definition writes_declared (G : engine) : Prop :=
  forall k, In k GraphState -> writes G k = true.

(** The engine that writes every field, and the one that writes the
    declared fields and nothing else. *)
Definition every_field : engine :=
  {| writes := fun _ => true; keeps_routed := true |}.

Definition declared_fields : engine :=
  {| writes := fun k => existsb (String.eqb k) GraphState; keeps_routed := false |}.

Section Workflow.

Context {F : Type} {PF : PyFloat F}.

Variable G : engine.
Variable E : env F.
Variable N : number_formats F.

(** [workflow.add_node]: the function behind every node. *)
Definition node_function (n : node) : option (dict F -> outcome F (dict F)) :=
  match n with
  | n_fetch_user_profile => Some (fetch_user_profile E)
  | n_check_profile_completeness => Some (check_profile_completeness E)
  | n_generate_fallback_recommendation => Some (generate_fallback_recommendation E)
  | n_fetch_market_data => Some (fetch_market_data E)
  | n_preprocess_market_data => Some (preprocess_market_data E)
  | n_calculate_emergency_fund => Some (calculate_emergency_fund E)
  | n_analyze_goals_and_risk => Some analyze_goals_and_risk
  | n_define_risk_based_allocation => Some (define_risk_based_allocation E)
  | n_select_investment_products => Some (select_investments E)
  | n_calculate_returns => Some (calculate_returns E)
  | n_generate_final_recommendation => Some (generate_final_recommendation E N)
  | n_save_recommendation => Some (save_recommendation E)
  | n_handle_error => Some (handle_error E)
  | END => None
  end.

(** The part of what a function returns that the engine writes. *)
Definition written (update : dict F) : dict F :=
  filter (fun kv => writes G (fst kv) = true) update.

(** One step of the compiled graph: the node's function runs on the
    state, what it returns is written over the state, and the edge out
    of the node is chosen on the result.  An exception that leaves the
    function leaves the run. *)
Definition step (n : node) (st : dict F) : outcome F (node * dict F) :=
  match node_function n with
  | None => Returned (END, st)
  | Some f =>
      update ← f st;
      let st' := merge st (written update) in
      match n with
      | n_calculate_emergency_fund =>
          routed ← route_after_emergency_fund st';
          Returned (snd routed, if keeps_routed G then fst routed else st')
      | _ => next ← next_node n st'; Returned (next, st')
      end
  end.

(** The run from a node on, for at most [fuel] steps; [None] when the
    steps do not suffice. *)
Fixpoint run (fuel : nat) (n : node) (st : dict F) : option (outcome F (dict F)) :=
  match n with
  | END => Some (Returned st)
  | _ =>
      match fuel with
      | O => None
      | S fuel =>
          match step n st with
          | Returned (n', st') => run fuel n' st'
          | Raised e => Some (Raised e)
          | Unmodelled => Some Unmodelled
          end
      end
  end.

(** [app.invoke({"user_id": user_id})]: the run from the entry point.
    No path of the graph has more than thirteen nodes. *)
Definition invoke (user_id : value F) : option (outcome F (dict F)) :=
  run 13 n_fetch_user_profile (<["user_id" := user_id]> ∅).

End Workflow.

(** * Properties *)

(** ** Lookups *)

Section Lookups.

Context {F : Type} {PF : PyFloat F}.

Lemma returned_inj {A} (a b : A) : @Returned F A a = Returned b <-> a = b.
Proof. split; congruence. Qed.

Lemma get_or_Some (d : dict F) k v def : d !! k = Some v -> get_or d k def = v.
Proof. unfold get_or. now intros ->. Qed.

Lemma get_or_None (d : dict F) k def : d !! k = None -> get_or d k def = def.
Proof. unfold get_or. now intros ->. Qed.

Lemma eq_str_true (v : value F) s : eq_str v s = true <-> v = VStr s.
Proof.
  destruct v; simpl; try (split; [discriminate | congruence]).
  rewrite String.eqb_eq. split; congruence.
Qed.

Lemma eq_str_false (v : value F) s : eq_str v s = false <-> v <> VStr s.
Proof.
  rewrite <- eq_str_true. destruct (eq_str v s); split; congruence.
Qed.

Lemma status_of_insert (st : dict F) v : status_of (<["status" := v]> st) = v.
Proof. unfold status_of. apply get_or_Some, lookup_insert_eq. Qed.

Lemma status_of_with_error (st : dict F) msg :
  status_of (with_error st msg) = VStr "error".
Proof. apply status_of_insert. Qed.

End Lookups.

(** ** Routing after the two fetch stages (C5) *)

Section FetchRouting.

Context {F : Type} {PF : PyFloat F}.

Lemma unless_error_next (a : node) (st : dict F) :
  a <> n_handle_error ->
  (unless_error a st = a <-> status_of st <> VStr "error") /\
  (unless_error a st = n_handle_error <-> status_of st = VStr "error").
Proof.
  intros Ha. unfold unless_error.
  destruct (eq_str (status_of st) "error") eqn:Hs; simpl.
  - apply eq_str_true in Hs. split; split; intros; congruence.
  - apply eq_str_false in Hs. split; split; intros; congruence.
Qed.

(** The only statuses [fetch_user_profile] reports. *)
Lemma fetch_user_profile_status (E : env F) (st : dict F) :
  exists st', fetch_user_profile E st = Returned st' /\
    (status_of st' = VStr "success" \/ status_of st' = VStr "error").
Proof.
  unfold fetch_user_profile.
  destruct (negb (truthy (get_or st "user_id" VNone))).
  { eexists; split; [reflexivity|]. right. apply status_of_with_error. }
  destruct (user_profile_tool_run E _ !! "error").
  { eexists; split; [reflexivity|]. right. apply status_of_with_error. }
  destruct (List.filter _ _).
  - eexists; split; [reflexivity|]. left. apply status_of_insert.
  - eexists; split; [reflexivity|]. right. apply status_of_with_error.
Qed.

(** The only statuses [fetch_market_data] reports: never ["success"]. *)
Lemma fetch_market_data_status (E : env F) (st : dict F) :
  exists st', fetch_market_data E st = Returned st' /\
    (status_of st' = VStr "market_data_fetched" \/ status_of st' = VStr "error").
Proof.
  unfold fetch_market_data.
  destruct (market_data_tool_run E);
    try (eexists; split; [reflexivity|]; right; apply status_of_with_error).
  destruct (d !! "error").
  - eexists; split; [reflexivity|]. right. apply status_of_with_error.
  - eexists; split; [reflexivity|]. left. apply status_of_insert.
Qed.

End FetchRouting.

(** C5, as the code has it.  After [fetch_user_profile] and after
    [fetch_market_data] the router goes on to the next stage exactly when
    the status is not ["error"], and to [handle_error] exactly when it
    is; the status that [fetch_market_data] reports on success is
    ["market_data_fetched"]. *)
Theorem C5_fetch_routes_on_not_error :
  forall (F : Type) (PF : PyFloat F) (E : env F) (st : dict F),
    (next_node n_fetch_user_profile st = Returned n_check_profile_completeness
       <-> status_of st <> VStr "error") /\
    (next_node n_fetch_user_profile st = Returned n_handle_error
       <-> status_of st = VStr "error") /\
    (next_node n_fetch_market_data st = Returned n_preprocess_market_data
       <-> status_of st <> VStr "error") /\
    (next_node n_fetch_market_data st = Returned n_handle_error
       <-> status_of st = VStr "error") /\
    (exists st', fetch_user_profile E st = Returned st' /\
       (status_of st' = VStr "success" \/ status_of st' = VStr "error")) /\
    (exists st', fetch_market_data E st = Returned st' /\
       (status_of st' = VStr "market_data_fetched" \/ status_of st' = VStr "error")).
Proof.
  intros F PF E st. simpl.
  destruct (unless_error_next n_check_profile_completeness st) as [H1 H2]; [discriminate|].
  destruct (unless_error_next n_preprocess_market_data st) as [H3 H4]; [discriminate|].
  rewrite !returned_inj.
  split; [exact H1|]. split; [exact H2|]. split; [exact H3|]. split; [exact H4|].
  split; [apply fetch_user_profile_status | apply fetch_market_data_status].
Qed.

(** ** A sample run

    The profile [get_user_profile] falls back on, a small market, and
    collaborators that all answer. *)

Module Sample.

Definition profile : dict float :=
  <["user_id" := VInt 16]>
  (<["name" := VStr "User 16"]>
  (<["monthly_income" := VFloat 100000%float]>
  (<["monthly_expenses" := VFloat 60000%float]>
  (<["risk_appetite" := VStr "Medium"]>
  (<["investment_horizon_years" := VInt 5]> ∅))))).

Definition market : dict float :=
  <["stocks" := VList []]>
  (<["mutual_funds" := VList []]>
  (<["fixed_deposits" :=
      VList [VDict (<["bank" := VStr "SafeBank"]>
                   (<["tenure_months" := VInt 12]>
                   (<["rate_pct" := VFloat 6.5%float]> ∅)))]]> ∅)).

(** The tool answers with [row]; the model's reply has no JSON in it. *)
Definition env_with (row : dict float) : env float := {|
  user_profile_tool_run := fun _ => row;
  market_data_tool_run := VDict market;
  now_isoformat := "2025-06-30T12:00:00";
  str_of := fun _ => "";
  float_of_text := fun _ => None;
  interpreter_text := fun _ op _ => op;
  traceback_text := fun _ => "Traceback (most recent call last):";
  llm_content := Returned "I cannot help with that.";
  json_loads := fun _ => None;
  json_dumps := fun _ => Some "{}";
  db_connect_error := None;
  db_insert_error := fun _ _ _ => None
|}.

Definition environment : env float := env_with profile.

Definition initial : dict float := <["user_id" := VInt 16]> ∅.

End Sample.

(** ** Sample runs *)

Definition is_returned {F A} (m : outcome F A) : bool :=
  match m with Returned _ => true | _ => false end.

Definition result_or {F A} (default : A) (m : outcome F A) : A :=
  match m with Returned x => x | _ => default end.

Lemma returned_result_or {F A} (default : A) (m : outcome F A) :
  is_returned m = true -> m = Returned (result_or default m).
Proof. destruct m; simpl; congruence. Qed.

Lemma Returned_eq {F A} (a b : A) : @Returned F A a = Returned b -> a = b.
Proof. congruence. Qed.

Module Pipeline.

(** The run from the first stage up to the stage before the emergency
    fund. *)
Definition preprocessed (E : env float) : outcome float (dict float) :=
  st ← fetch_user_profile E Sample.initial;
  st ← check_profile_completeness E st;
  st ← fetch_market_data E st;
  preprocess_market_data E st.

(** The run up to the stage before the selection. *)
Definition allocated (E : env float) : outcome float (dict float) :=
  st ← preprocessed E;
  st ← calculate_emergency_fund E st;
  routed ← route_after_emergency_fund st;
  update ← analyze_goals_and_risk (fst routed);
  define_risk_based_allocation E (merge (fst routed) update).

(** The state that run ends in. *)
Definition reached (E : env float) : dict float := result_or ∅ (allocated E).

(** What the stage the graph runs makes of it. *)
Definition selected (E : env float) : dict float :=
  result_or ∅ (select_investments E (reached E)).

End Pipeline.

(** C5, as stated, fails: after a successful [fetch_market_data] the
    status is ["market_data_fetched"], not ["success"], and the router
    goes on to [preprocess_market_data]. *)
Lemma C5_counterexample :
  exists st',
    fetch_market_data Sample.environment Sample.initial = Returned st' /\
    status_of st' = VStr "market_data_fetched" /\
    status_of st' <> VStr "success" /\
    next_node n_fetch_market_data st' = Returned n_preprocess_market_data.
Proof.
  eexists. split; [reflexivity|].
  split; [reflexivity|]. split; [discriminate|]. reflexivity.
Qed.

(** ** Stages that leave [status] out (C6) *)

(** A data base that cannot be opened, and a state that has a
    recommendation to save. *)
Module Offline.

Definition environment : env float := {|
  user_profile_tool_run := user_profile_tool_run Sample.environment;
  market_data_tool_run := market_data_tool_run Sample.environment;
  now_isoformat := now_isoformat Sample.environment;
  str_of := str_of Sample.environment;
  float_of_text := float_of_text Sample.environment;
  interpreter_text := interpreter_text Sample.environment;
  traceback_text := traceback_text Sample.environment;
  llm_content := llm_content Sample.environment;
  json_loads := json_loads Sample.environment;
  json_dumps := json_dumps Sample.environment;
  db_connect_error := Some "unable to open database file";
  db_insert_error := db_insert_error Sample.environment
|}.

Definition recommended : dict float :=
  <["status" := VStr "recommendation_generated"]>
  (<["recommendation" :=
      VDict (<["user_id" := VInt 16]>
            (<["summary" := VStr "Balanced portfolio"]> ∅))]> Sample.initial).

End Offline.

(** C6 fails on [save_recommendation]: with nothing to save, and with
    a data base that cannot be opened, it returns a partial state that
    has an ["error"] and no ["status"]. *)
Theorem C6_save_recommendation_without_status :
  forall (F : Type) (PF : PyFloat F) (E : env F) (st : dict F),
    truthy (get_or st "recommendation" VNone) = false \/
      is_Some (db_connect_error E) ->
    exists st',
      save_recommendation E st = Returned st' /\
      st' !! "status" = None /\
      is_Some (st' !! "error").
Proof.
  intros F PF E st H. unfold save_recommendation.
  destruct (truthy (get_or st "recommendation" VNone)) eqn:Ht; simpl negb; cbv iota.
  - destruct H as [H|[text H]]; [discriminate|].
    unfold save_recommendation_body. rewrite H.
    eexists. split; [reflexivity|].
    split; [reflexivity | eexists; apply lookup_insert_eq].
  - eexists. split; [reflexivity|].
    split; [reflexivity | eexists; apply lookup_insert_eq].
Qed.

Lemma C6_witness :
  (truthy (get_or Sample.initial "recommendation" VNone) = false /\
   save_recommendation Sample.environment Sample.initial
     = Returned (<["error" := VStr "No recommendation to save"]> ∅)) /\
  (is_Some (db_connect_error Offline.environment) /\
   save_recommendation Offline.environment Offline.recommended
     = Returned (<["error" :=
                    VStr "Failed to save recommendation: unable to open database file"]>
                   ∅)) /\
  exists st',
    save_recommendation Offline.environment Offline.recommended = Returned st' /\
    st' !! "status" = None /\
    is_Some (st' !! "error").
Proof.
  split; [split; reflexivity|].
  assert (H : is_Some (db_connect_error Offline.environment)) by (eexists; reflexivity).
  split; [split; [exact H | reflexivity]|].
  apply (C6_save_recommendation_without_status float binary64
           Offline.environment Offline.recommended).
  right. exact H.
Defined.

(** The other failure of [save_recommendation], a data base that
    refuses, leaves [status] out as well; it is set only on success. *)
Lemma save_recommendation_status (F : Type) (PF : PyFloat F) (E : env F) (st st' : dict F) :
  save_recommendation E st = Returned st' ->
  st' = <["status" := VStr "recommendation_saved"]> ∅ \/
  (st' !! "status" = None /\ is_Some (st' !! "error")).
Proof.
  unfold save_recommendation.
  destruct (negb _).
  { intros [= <-]. right. split; [reflexivity | eexists; reflexivity]. }
  destruct (save_recommendation_body E st _); intros [= <-].
  - now left.
  - right. split; [reflexivity | eexists; reflexivity].
Qed.

(** ** Exceptions that leave a stage (C7) *)



(** ** The risk profile that reaches the allocation (C10) *)

Section RiskProfile.

Context {F : Type} {PF : PyFloat F}.

Lemma lower_char_not_upper (c : ascii) : is_upper (lower_char c) = false.
Proof.
  unfold lower_char. destruct (is_upper c) eqn:Hc; [|exact Hc].
  unfold is_upper in *.
  apply andb_true_iff in Hc as [H1 H2].
  apply Nat.leb_le in H1. apply Nat.leb_le in H2.
  rewrite nat_ascii_embedding by lia.
  apply andb_false_iff. right. apply Nat.leb_gt. lia.
Qed.

Lemma lower_head (s : string) (c : ascii) (t : string) :
  lower s = String c t -> is_upper c = false.
Proof.
  destruct s as [|c0 s]; simpl; [discriminate|].
  intros [= <- _]. apply lower_char_not_upper.
Qed.

(** The test [risk_profile not in RISK_PROFILES] never fails: the keys
    begin with a capital and a lowered text does not. *)
Lemma lowered_not_in_RISK_PROFILES (s : string) :
  RISK_PROFILES (F := F) !! lower s = None.
Proof.
  unfold RISK_PROFILES.
  rewrite !lookup_insert_ne; [apply lookup_empty | | |];
    intros Heq; symmetry in Heq; apply lower_head in Heq; discriminate.
Qed.

Lemma analyze_goals_and_risk_returns (st out : dict F) :
  analyze_goals_and_risk st = Returned out ->
  exists horizon : Z,
    out = <["status" := VStr "risk_analyzed"]>
          (<["time_horizon" := VInt horizon]>
          (<["risk_profile" := VStr "moderate"]> ∅)).
Proof.
  unfold analyze_goals_and_risk.
  destruct (py_get _ "risk_appetite" _) as [appetite| |]; simpl; try discriminate.
  destruct (py_lower appetite) as [lowered| |] eqn:Hl; simpl; try discriminate.
  destruct (py_get _ "investment_horizon_years" _) as [h| |]; simpl; try discriminate.
  destruct (py_int h) as [z| |]; simpl; try discriminate.
  intros [= <-]. exists z.
  destruct appetite; simpl in Hl; try discriminate.
  injection Hl as <-.
  rewrite lowered_not_in_RISK_PROFILES.
  rewrite bool_decide_eq_false_2; [reflexivity|].
  intros [x Hx]; discriminate.
Qed.


(** The row of [DEFAULT_ALLOCATIONS] under ["medium"]. *)
Definition medium_row : dict F :=
  <["equity" := VFloat (f_dec 6 (-1))]>
  (<["fixed_income" := VFloat (f_dec 3 (-1))]>
  (<["cash" := VFloat (f_dec 1 (-1))]>
  (<["description" :=
       VStr "Balanced portfolio with moderate growth potential"]> ∅))).

Lemma DEFAULT_ALLOCATIONS_medium :
  DEFAULT_ALLOCATIONS (F := F) !! "medium" = Some medium_row.
Proof. reflexivity. Qed.

(** What [define_risk_based_allocation] stores for a risk profile that
    is no key of the table. *)
Definition medium_allocation (E : env F) : dict F :=
  <["last_updated" := VStr (now_isoformat E)]>
  (<["risk_profile" := VStr "medium"]> medium_row).

Lemma define_risk_based_allocation_default (E : env F) (st : dict F) (s : string) :
  st !! "risk_profile" = Some (VStr s) ->
  DEFAULT_ALLOCATIONS (F := F) !! lower s = None ->
  define_risk_based_allocation E st
    = Returned (<["status" := VStr "allocation_defined"]>
               (<["asset_allocation" := VDict (medium_allocation E)]> st)).
Proof.
  intros Hs Hnone.
  unfold define_risk_based_allocation, define_risk_based_allocation_body.
  rewrite (get_or_Some _ _ _ _ Hs). simpl.
  rewrite Hnone.
  rewrite bool_decide_eq_false_2 by (intros [x Hx]; discriminate).
  rewrite DEFAULT_ALLOCATIONS_medium. reflexivity.
Qed.

End RiskProfile.

(** C10, as the code has it.  Whenever [analyze_goals_and_risk] returns,
    the risk profile it returns is ["moderate"], whatever the profile
    says, and [define_risk_based_allocation], run on the state with that
    result written over it, stores the ["medium"] row. *)
Theorem C10_risk_profile_is_moderate :
  forall (F : Type) (PF : PyFloat F) (E : env F) (st out : dict F),
    analyze_goals_and_risk st = Returned out ->
    out !! "risk_profile" = Some (VStr "moderate") /\
    define_risk_based_allocation E (merge st out)
      = Returned (<["status" := VStr "allocation_defined"]>
                 (<["asset_allocation" := VDict (medium_allocation E)]>
                    (merge st out))).
Proof.
  intros F PF E st out Hout.
  destruct (analyze_goals_and_risk_returns st out Hout) as [horizon ->].
  split; [reflexivity|].
  apply (define_risk_based_allocation_default E _ "moderate"); [|reflexivity].
  unfold merge. apply lookup_union_Some_l. reflexivity.
Qed.

Lemma C10_witness :
  let st : dict float := <["user_profile" := VDict Sample.profile]> Sample.initial in
  let out : dict float :=
    <["status" := VStr "risk_analyzed"]>
    (<["time_horizon" := VInt 5]>
    (<["risk_profile" := VStr "moderate"]> ∅)) in
  analyze_goals_and_risk st = Returned out /\
  out !! "risk_profile" = Some (VStr "moderate") /\
  define_risk_based_allocation Sample.environment (merge st out)
    = Returned (<["status" := VStr "allocation_defined"]>
               (<["asset_allocation" := VDict (medium_allocation Sample.environment)]>
                  (merge st out))).
Proof.
  intros st out.
  assert (H : analyze_goals_and_risk st = Returned out) by reflexivity.
  split; [exact H|].
  exact (C10_risk_profile_is_moderate float binary64 Sample.environment st out H).
Defined.

(** C10, as stated, fails: not every state has an output.  A horizon
    that [int] refuses makes the stage raise, and nothing is returned. *)
Lemma C10_counterexample :
  ~ (forall st : dict float,
       exists out, analyze_goals_and_risk st = Returned out /\
                   out !! "risk_profile" = Some (VStr "moderate")).
Proof.
  intros H.
  destruct (H (<["user_profile" :=
                  VDict (<["investment_horizon_years" := VStr "ten years"]>
                           Sample.profile)]> Sample.initial)) as [out [Hout _]].
  discriminate Hout.
Qed.

(** [analyze_goals_and_risk] does return on what the earlier stages
    hand over: a profile whose risk appetite is text and whose horizon
    is an integer. *)
Lemma analyze_goals_and_risk_total (F : Type) (PF : PyFloat F)
    (st profile : dict F) (appetite : string) (horizon : Z) :
  st !! "user_profile" = Some (VDict profile) ->
  profile !! "risk_appetite" = Some (VStr appetite) ->
  profile !! "investment_horizon_years" = Some (VInt horizon) ->
  analyze_goals_and_risk st
    = Returned (<["status" := VStr "risk_analyzed"]>
               (<["time_horizon" := VInt horizon]>
               (<["risk_profile" := VStr "moderate"]> ∅))).
Proof.
  intros Hp Ha Hh. unfold analyze_goals_and_risk.
  rewrite (get_or_Some _ _ _ _ Hp). simpl.
  rewrite (get_or_Some _ _ _ _ Ha), (get_or_Some _ _ _ _ Hh). simpl.
  rewrite lowered_not_in_RISK_PROFILES.
  rewrite bool_decide_eq_false_2 by (intros [x Hx]; discriminate).
  reflexivity.
Qed.

(** ** Incomplete profiles (C2) *)

Section IncompleteProfile.

Context {F : Type} {PF : PyFloat F}.

Lemma absent_or_none_false (d : dict F) k :
  absent_or_none d k = false -> exists v, d !! k = Some v /\ v <> VNone.
Proof.
  unfold absent_or_none. destruct (d !! k) as [v|]; [|discriminate].
  destruct v; try discriminate; intros _; eexists; split; try reflexivity; discriminate.
Qed.

(** A profile without one of the three fields [fetch_user_profile]
    insists on never reaches the completeness check: the stage reports
    ["error"] and the router goes to [handle_error]. *)
Lemma fetch_user_profile_missing (E : env F) (st : dict F) (data : dict F) :
  truthy (get_or st "user_id" VNone) = true ->
  user_profile_tool_run E (get_or st "user_id" VNone) = data ->
  data !! "error" = None ->
  List.filter (absent_or_none data) fetch_required_fields <> [] ->
  exists st',
    fetch_user_profile E st = Returned st' /\
    st' = with_error st
            ("Profile is missing required fields: "
             ++ join ", " (List.filter (absent_or_none data) fetch_required_fields)) /\
    next_node n_fetch_user_profile st' = Returned n_handle_error.
Proof.
  intros Hid Hdata Herr Hmiss.
  unfold fetch_user_profile. rewrite Hid, Hdata, Herr. simpl negb. cbv iota.
  destruct (List.filter (absent_or_none data) fetch_required_fields) as [|f fs] eqn:Hf;
    [congruence|].
  eexists. split; [reflexivity|]. split; [reflexivity|].
  simpl. unfold unless_error. now rewrite status_of_with_error.
Qed.


(** What [check_profile_completeness] returns for a profile with fields
    missing. *)
Lemma check_profile_completeness_missing (E : env F) (st profile : dict F)
    (f : string) (fs : list string) :
  st !! "user_profile" = Some (VDict profile) ->
  List.filter (absent_or_none profile) required_fields = f :: fs ->
  check_profile_completeness E st
    = Returned (<["error" := VStr ("Missing required fields: " ++ join ", " (f :: fs))]>
               (<["missing_fields" := VList (map VStr (f :: fs))]>
               (<["status" := VStr "profile_incomplete"]> st))).
Proof.
  intros Hp Hf. unfold check_profile_completeness.
  rewrite (get_or_Some _ _ _ _ Hp), Hf. reflexivity.
Qed.

Lemma all_text_map_VStr (l : list string) : all_text (F := F) (map VStr l) = Some l.
Proof.
  unfold all_text. induction l as [|s l IH]; [reflexivity|].
  simpl. simpl in IH. rewrite IH. reflexivity.
Qed.

End IncompleteProfile.




(** ** Unrecognised risk appetites (C3) *)

Section RiskAppetite.

Context {F : Type} {PF : PyFloat F}.

(** What [calculate_savings] returns on two floats. *)
Definition savings (income expenses : F) : dict F :=
  let disposable_income := f_sub income expenses in
  let emergency_fund := f_mul (f_dec 5 (-2)) disposable_income in
  <["emergency_fund" := VFloat emergency_fund]>
  (<["monthly_investment" := VFloat (f_sub disposable_income emergency_fund)]>
  (<["disposable_income" := VFloat disposable_income]> ∅)).

Lemma calculate_savings_floats (income expenses : F) :
  calculate_savings (VFloat income) (VFloat expenses)
    = Returned (savings income expenses).
Proof. reflexivity. Qed.

(** The profile as the body of the [try] has left it when it reaches the
    test of the risk appetite. *)
Definition profile_with_savings (profile : dict F) (income expenses : F) : dict F :=
  let profile1 := savings income expenses ∪ profile in
  if negb (truthy (get_or profile1 "investment_goals" VNone)) then
    <["investment_goals" :=
        VList [VStr "Wealth accumulation"; VStr "Retirement planning"]]> profile1
  else profile1.

Lemma profile_with_savings_risk_appetite (profile : dict F) income expenses :
  profile_with_savings profile income expenses !! "risk_appetite"
    = profile !! "risk_appetite".
Proof.
  unfold profile_with_savings.
  assert (H : (savings income expenses ∪ profile) !! "risk_appetite"
              = profile !! "risk_appetite").
  { apply lookup_union_r. reflexivity. }
  destruct (negb _); [|exact H].
  rewrite lookup_insert_ne by discriminate. exact H.
Qed.

Lemma savings_truthy (income expenses : F) :
  truthy (VDict (savings income expenses)) = true.
Proof.
  simpl. apply negb_true_iff, bool_decide_eq_false_2.
  unfold savings. apply insert_non_empty.
Qed.

Lemma present_not_none (d : dict F) k v :
  d !! k = Some v -> v <> VNone -> absent_or_none d k = false.
Proof. unfold absent_or_none. intros -> H. now destruct v. Qed.

Lemma py_float_not_none (E : env F) (v : value F) (x : F) :
  py_float E v = Returned x -> v <> VNone.
Proof. now intros H ->. Qed.

(** A profile with the four required fields, an income and expenses
    that [float] converts, and a risk appetite [appetite]. *)
Definition convertible (E : env F) (profile : dict F) (income expenses : F)
    (appetite : value F) : Prop :=
  (exists v, profile !! "monthly_income" = Some v /\ py_float E v = Returned income) /\
  (exists v, profile !! "monthly_expenses" = Some v /\
             py_float E v = Returned expenses) /\
  profile !! "risk_appetite" = Some appetite /\ appetite <> VNone /\
  absent_or_none profile "investment_horizon_years" = false.

(** [check_profile_completeness] on such a profile, when the appetite
    is no key of [risk_mapping]. *)
Lemma check_profile_completeness_invalid_risk
    (E : env F) (st profile : dict F) (income expenses : F) (appetite : value F) :
  st !! "user_profile" = Some (VDict profile) ->
  convertible E profile income expenses appetite ->
  risk_mapping !! lower (strip (py_str E appetite)) = None ->
  check_profile_completeness E st
    = Returned
        (<["error" :=
            VStr ("Invalid profile data: Invalid risk profile: "
                  ++ strip (py_str E appetite))]>
        (<["status" := VStr "profile_invalid"]>
        (<["user_profile" := VDict (profile_with_savings profile income expenses)]> st))).
Proof.
  intros Hp ((vi & Hi & Hfi) & (ve & He & Hfe) & Hr & Hn & Hh) Hrisk.
  unfold check_profile_completeness.
  rewrite (get_or_Some _ _ _ _ Hp).
  assert (Hf : List.filter (absent_or_none profile) required_fields = []).
  { pose proof (present_not_none _ _ _ Hi (py_float_not_none E _ _ Hfi)) as H1.
    pose proof (present_not_none _ _ _ He (py_float_not_none E _ _ Hfe)) as H2.
    pose proof (present_not_none _ _ _ Hr Hn) as H3.
    unfold required_fields. cbn [List.filter]. now rewrite H1, H2, H3, Hh. }
  rewrite Hf. unfold py_item. rewrite Hi.
  cbn [mbind outcome_bind bind]. rewrite Hfi.
  cbn [mbind outcome_bind bind]. rewrite He.
  cbn [mbind outcome_bind bind]. rewrite Hfe.
  cbn [mbind outcome_bind bind]. rewrite calculate_savings_floats.
  rewrite savings_truthy.
  fold (profile_with_savings profile income expenses).
  rewrite (get_or_Some _ "risk_appetite" appetite)
    by (rewrite profile_with_savings_risk_appetite; exact Hr).
  rewrite Hrisk. reflexivity.
Qed.

End RiskAppetite.




(** ** Normalised allocation ratios (C8) *)


Section ExactRatios.

Local Open Scope Q_scope.

Lemma exact_gt_zero (t : Q) :
  py_gt (F := Q) (VFloat t) (VInt 0) = Returned (if Qlt_le_dec 0 t then true else false).
Proof.
  unfold py_gt, py_cmp. cbn [as_num num_cmp f_cmp_int exact fmap outcome_fmap bind].
  change (inject_Z 0) with 0.
  destruct (Qlt_le_dec 0 t) as [H|H].
  - apply Qgt_alt in H. now rewrite H.
  - destruct (t ?= 0) eqn:Hc; try reflexivity.
    apply Qgt_alt in Hc. exfalso. apply (Qlt_irrefl 0).
    eapply Qlt_le_trans; [exact Hc | exact H].
Qed.

Lemma exact_div (a t : Q) :
  ~ t == 0 ->
  py_div (F := Q) (VFloat a) (VFloat t) = Returned (VFloat (Qred (a / t))).
Proof.
  intros Ht. unfold py_div.
  cbn [as_num num_to_float mbind outcome_bind bind f_is_zero f_div exact].
  destruct (Qeq_bool t 0) eqn:Hz; [|reflexivity].
  apply Qeq_bool_iff in Hz. contradiction.
Qed.

(** What the normalisation computes on rationals. *)
Lemma exact_normalize_ratios (a b c : Q) :
  let t := Qred (Qred (a + b) + c) in
  normalize_ratios (VFloat a) (VFloat b) (VFloat c)
    = Returned (if Qlt_le_dec 0 t
                then (VFloat (Qred (a / t)), VFloat (Qred (b / t)), VFloat (Qred (c / t)))
                else (VFloat a, VFloat b, VFloat c)).
Proof.
  intros t. unfold normalize_ratios.
  change (py_add (VFloat a) (VFloat b)) with (@Returned Q _ (VFloat (Qred (a + b)))).
  cbn [mbind outcome_bind bind].
  change (py_add (VFloat (Qred (a + b))) (VFloat c)) with (@Returned Q _ (VFloat t)).
  cbn [mbind outcome_bind bind].
  rewrite exact_gt_zero. cbn [mbind outcome_bind bind].
  destruct (Qlt_le_dec 0 t) as [Ht|Ht]; [|reflexivity].
  assert (Hne : ~ t == 0).
  { intros H0. rewrite H0 in Ht. exact (Qlt_irrefl 0 Ht). }
  rewrite !exact_div by exact Hne. reflexivity.
Qed.

Lemma exact_total (a b c : Q) : Qred (Qred (a + b) + c) == a + b + c.
Proof. rewrite !Qred_correct. reflexivity. Qed.

End ExactRatios.


(** ** binary64: the sign of a difference

    What the comparison of two doubles says about their difference,
    read off the specification of the primitive operations. *)

Module Binary64Facts.

Local Open Scope Z_scope.

Lemma digits2_pos_size (p : positive) : digits2_pos p = Pos.size p.
Proof. induction p as [p IH|p IH|]; simpl; congruence. Qed.

Lemma digits2_bounds (m : positive) :
  2 ^ (Z.pos (digits2_pos m) - 1) <= Z.pos m < 2 ^ Z.pos (digits2_pos m).
Proof.
  rewrite digits2_pos_size. split.
  - pose proof (Pos.size_le m) as H.
    assert (H' : 2 ^ Z.pos (Pos.size m) <= 2 * Z.pos m).
    { change (2 * Z.pos m) with (Z.pos m~0). rewrite <- Pos2Z.inj_pow. exact H. }
    replace (Z.pos (Pos.size m)) with (Z.pos (Pos.size m) - 1 + 1) in H' by lia.
    rewrite Z.pow_add_r in H' by lia. lia.
  - pose proof (Pos.size_gt m) as H.
    rewrite <- Pos2Z.inj_pow. exact H.
Qed.

(** One step of the right shift halves a mantissa that is not negative. *)
Lemma shr_1_m (mrs : shr_record) :
  0 <= shr_m mrs -> shr_m (shr_1 mrs) = shr_m mrs / 2.
Proof.
  destruct mrs as [m r s]. simpl. intros Hm.
  destruct m as [|p|p]; [reflexivity| |lia].
  destruct p as [p|p|]; simpl shr_m.
  - rewrite Pos2Z.inj_xI. rewrite Z.mul_comm, Z.div_add_l by lia.
    change (1 / 2) with 0. lia.
  - rewrite Pos2Z.inj_xO. rewrite Z.mul_comm, Z.div_mul by lia. reflexivity.
  - reflexivity.
Qed.

Lemma shr_iter_m (p : positive) :
  forall mrs, 0 <= shr_m mrs ->
    shr_m (SpecFloat.iter_pos shr_1 p mrs) = shr_m mrs / 2 ^ Z.pos p.
Proof.
  assert (Hnn : forall mrs, 0 <= shr_m mrs -> 0 <= shr_m (shr_1 mrs)).
  { intros mrs H. rewrite shr_1_m by exact H. apply Z.div_pos; lia. }
  induction p as [p IH|p IH|]; intros mrs Hm; simpl SpecFloat.iter_pos.
  - rewrite IH.
    2:{ rewrite IH by auto. apply Z.div_pos; [auto | apply Z.pow_pos_nonneg; lia]. }
    rewrite IH by auto. rewrite shr_1_m by exact Hm.
    replace (Z.pos p~1) with (1 + (Z.pos p + Z.pos p)) by lia.
    rewrite !Z.pow_add_r by lia. change (2 ^ 1) with 2.
    assert (Hp : 0 < 2 ^ Z.pos p) by (apply Z.pow_pos_nonneg; lia).
    rewrite !Z.div_div by lia. first [reflexivity | f_equal; ring].
  - rewrite IH.
    2:{ rewrite IH by auto. apply Z.div_pos; [auto | apply Z.pow_pos_nonneg; lia]. }
    rewrite IH by auto.
    replace (Z.pos p~0) with (Z.pos p + Z.pos p) by lia.
    rewrite !Z.pow_add_r by lia.
    assert (Hp : 0 < 2 ^ Z.pos p) by (apply Z.pow_pos_nonneg; lia).
    rewrite !Z.div_div by lia. reflexivity.
  - rewrite shr_1_m by exact Hm. reflexivity.
Qed.

Lemma shr_record_of_loc_m (m : Z) (l : location) : shr_m (shr_record_of_loc m l) = m.
Proof. destruct l as [|[| |]]; reflexivity. Qed.

(** Shifting a positive mantissa down to its format leaves it positive
    as long as the exponent is no smaller than the smallest one. *)
Lemma shr_fexp_positive (m : positive) (e : Z) (l : location) :
  emin <= e ->
  0 < shr_m (fst (shr_fexp prec emax (Z.pos m) e l)) /\
  emin <= snd (shr_fexp prec emax (Z.pos m) e l).
Proof.
  intros He. unfold shr_fexp, shr.
  pose proof (digits2_bounds m) as [Hlo Hhi].
  change (Zdigits2 (Z.pos m)) with (Z.pos (digits2_pos m)).
  set (d := Z.pos (digits2_pos m)) in *.
  assert (Hd : 0 < d) by (unfold d; lia).
  destruct (fexp prec emax (d + e) - e) as [|p|p] eqn:Hn; simpl fst; simpl snd.
  - rewrite shr_record_of_loc_m. lia.
  - rewrite shr_iter_m by (rewrite shr_record_of_loc_m; lia).
    rewrite shr_record_of_loc_m.
    unfold fexp, SpecFloat.emin, prec, emax in *.
    assert (Hp : Z.pos p <= d - 1) by lia.
    split; [|lia].
    apply Z.div_str_pos. split; [apply Z.pow_pos_nonneg; lia|].
    apply Z.le_trans with (2 ^ (d - 1)); [|exact Hlo].
    apply Z.pow_le_mono_r; lia.
  - rewrite shr_record_of_loc_m. lia.
Qed.

(** A float that is not zero and has sign [s]. *)
Definition signed (s : bool) (x : spec_float) : Prop :=
  match x with
  | S754_finite s' _ _ | S754_infinity s' => s' = s
  | _ => False
  end.

Lemma round_nearest_even_positive (m : Z) (l : location) :
  0 < m -> 0 < round_nearest_even m l.
Proof.
  intros Hm. unfold round_nearest_even.
  destruct l as [|[| |]]; try lia. destruct (Z.even m); lia.
Qed.

Lemma binary_round_aux_signed (s : bool) (m : positive) (e : Z) (l : location) :
  emin <= e -> signed s (binary_round_aux prec emax s (Z.pos m) e l).
Proof.
  intros He. unfold binary_round_aux.
  pose proof (shr_fexp_positive m e l He) as [Hm1 He1].
  destruct (shr_fexp prec emax (Z.pos m) e l) as [mrs1 e1]. simpl fst in *. simpl snd in *.
  pose proof (round_nearest_even_positive _ (loc_of_shr_record mrs1) Hm1) as Hr.
  destruct (round_nearest_even (shr_m mrs1) (loc_of_shr_record mrs1)) as [|r|r]; try lia.
  pose proof (shr_fexp_positive r e1 loc_Exact He1) as [Hm2 He2].
  destruct (shr_fexp prec emax (Z.pos r) e1 loc_Exact) as [mrs2 e2].
  simpl fst in *. simpl snd in *.
  destruct (shr_m mrs2) as [|q|q]; try lia.
  destruct (e2 <=? emax - prec); reflexivity.
Qed.

Lemma shl_align_exponent (m : positive) (e e' : Z) :
  emin <= e -> emin <= e' -> emin <= snd (shl_align m e e').
Proof.
  intros He He'. unfold shl_align. destruct (e' - e); simpl; lia.
Qed.

Lemma binary_round_signed (s : bool) (m : positive) (e : Z) :
  emin <= e -> signed s (binary_round prec emax s m e).
Proof.
  intros He. unfold binary_round.
  pose proof (shl_align_exponent m e (fexp prec emax (Z.pos (digits2_pos m) + e)) He) as H.
  destruct (shl_align m e _) as [mz ez]. simpl snd in H.
  apply binary_round_aux_signed. apply H.
  unfold fexp, SpecFloat.emin, prec, emax. lia.
Qed.

(** The sign of a rounded integer multiple of [2^e] is the sign of the
    integer. *)
Lemma binary_normalize_sign (D e : Z) :
  emin <= e ->
  match D with
  | Z0 => binary_normalize prec emax D e false = S754_zero false
  | Zpos _ => signed false (binary_normalize prec emax D e false)
  | Zneg _ => signed true (binary_normalize prec emax D e false)
  end.
Proof.
  intros He. destruct D; simpl binary_normalize;
    [reflexivity | apply binary_round_signed | apply binary_round_signed]; exact He.
Qed.


(** What validity says about a mantissa and its exponent. *)
Lemma bounded_facts (m : positive) (e : Z) :
  bounded prec emax m e = true ->
  emin <= e /\ Z.pos m < 2 ^ 53 /\ (emin < e -> 2 ^ 52 <= Z.pos m).
Proof.
  unfold bounded, canonical_mantissa. intros H.
  apply andb_true_iff in H as [Hc _]. apply Z.eqb_eq in Hc.
  pose proof (digits2_bounds m) as [Hlo Hhi].
  set (d := Z.pos (digits2_pos m)) in *.
  unfold fexp, SpecFloat.emin, prec, emax in *.
  assert (Hd : d <= 53) by lia.
  split; [lia|]. split.
  - apply Z.lt_le_trans with (2 ^ d); [exact Hhi|]. apply Z.pow_le_mono_r; lia.
  - intros He. assert (d = 53) as Hd53 by lia. rewrite Hd53 in Hlo. exact Hlo.
Qed.

Lemma iter_xO_value (d m : positive) : Z.pos (Pos.iter xO m d) = Z.pos m * 2 ^ Z.pos d.
Proof.
  change (Pos.iter xO m d) with (shift_pos d m).
  rewrite shift_pos_correct, Z.mul_comm. reflexivity.
Qed.

Lemma shl_align_value (m : positive) (e e' : Z) :
  e' <= e -> Z.pos (fst (shl_align m e e')) = Z.pos m * 2 ^ (e - e').
Proof.
  intros H. unfold shl_align.
  destruct (e' - e) as [|d|d] eqn:Hd; simpl fst.
  - replace (e - e') with 0 by lia. lia.
  - lia.
  - rewrite iter_xO_value. f_equal. f_equal. lia.
Qed.

(** Of two valid mantissas the one with the larger exponent is the
    larger number. *)
Lemma larger_exponent (m1 m2 : positive) (e1 e2 : Z) :
  bounded prec emax m1 e1 = true -> bounded prec emax m2 e2 = true ->
  e1 < e2 -> Z.pos m1 < Z.pos m2 * 2 ^ (e2 - e1).
Proof.
  intros H1 H2 He.
  apply bounded_facts in H1 as [He1 [Hm1 _]].
  apply bounded_facts in H2 as [He2 [_ Hm2]].
  specialize (Hm2 ltac:(lia)).
  assert (Hp : 2 ^ 1 <= 2 ^ (e2 - e1)) by (apply Z.pow_le_mono_r; lia).
  change (2 ^ 1) with 2 in Hp. nia.
Qed.

(** The two operands of a difference, on the common exponent. *)
Definition aligned (s : bool) (m : positive) (e ez : Z) : Z :=
  cond_Zopp s (Z.pos (fst (shl_align m e ez))).

Lemma aligned_value (s : bool) (m : positive) (e ez : Z) :
  ez <= e -> aligned s m e ez = cond_Zopp s (Z.pos m * 2 ^ (e - ez)).
Proof. intros H. unfold aligned. now rewrite shl_align_value. Qed.

(** Comparing two valid finite floats is comparing their aligned
    mantissas. *)
Lemma SFcompare_aligned (sx sy : bool) (mx my : positive) (ex ey : Z) :
  bounded prec emax mx ex = true -> bounded prec emax my ey = true ->
  SFcompare (S754_finite sx mx ex) (S754_finite sy my ey)
    = Some (aligned sx mx ex (Z.min ex ey) ?= aligned sy my ey (Z.min ex ey)).
Proof.
  intros Hx Hy.
  rewrite !aligned_value by lia.
  assert (Hpx : 0 < Z.pos mx * 2 ^ (ex - Z.min ex ey))
    by (apply Z.mul_pos_pos; [lia | apply Z.pow_pos_nonneg; lia]).
  assert (Hpy : 0 < Z.pos my * 2 ^ (ey - Z.min ex ey))
    by (apply Z.mul_pos_pos; [lia | apply Z.pow_pos_nonneg; lia]).
  unfold SFcompare. f_equal.
  destruct (Z.compare_spec ex ey) as [Heq|Hlt|Hgt].
  - subst ey. rewrite Z.min_id, Z.sub_diag in *. rewrite !Z.mul_1_r.
    change (Pos.compare_cont Eq mx my) with (mx ?= my)%positive.
    destruct sx, sy; reflexivity.
  - pose proof (larger_exponent mx my ex ey Hx Hy Hlt) as H.
    rewrite Z.min_l in * by lia. rewrite Z.sub_diag, Z.mul_1_r in *.
    destruct sx, sy; unfold cond_Zopp; cbv beta iota; symmetry;
      first [apply Z.compare_lt_iff | apply Z.compare_gt_iff]; lia.
  - pose proof (larger_exponent my mx ey ex Hy Hx ltac:(lia)) as H.
    rewrite Z.min_r in * by lia. rewrite Z.sub_diag, Z.mul_1_r in *.
    destruct sx, sy; unfold cond_Zopp; cbv beta iota; symmetry;
      first [apply Z.compare_lt_iff | apply Z.compare_gt_iff]; lia.
Qed.


Lemma SFltb_Lt (x y : spec_float) : SFltb x y = true <-> SFcompare x y = Some Lt.
Proof.
  unfold SFltb. destruct (SFcompare x y) as [[| |]|]; split; congruence.
Qed.

Lemma SFleb_Le (x y : spec_float) :
  SFleb x y = true <-> SFcompare x y = Some Lt \/ SFcompare x y = Some Eq.
Proof.
  unfold SFleb. destruct (SFcompare x y) as [[| |]|]; split; intros H;
    try (destruct H as [H|H]); try discriminate; auto.
Qed.

(** If [y < x] then [x - y] is a positive float or plus infinity. *)
Lemma SFsub_positive (x y : spec_float) :
  valid_binary x = true -> valid_binary y = true ->
  SFltb y x = true -> signed false (SF64sub x y).
Proof.
  intros Hx Hy Hlt. apply SFltb_Lt in Hlt.
  destruct x as [sx|sx| |sx mx ex], y as [sy|sy| |sy my ey];
    try (simpl in Hlt; discriminate);
    try (destruct sx; simpl in Hlt; try discriminate; reflexivity);
    try (destruct sy; simpl in Hlt; try discriminate; reflexivity);
    try (destruct sx, sy; simpl in Hlt; try discriminate; reflexivity).
  simpl in Hx, Hy.
  rewrite (SFcompare_aligned sy sx my mx ey ex Hy Hx) in Hlt.
  injection Hlt as Hlt. rewrite Z.compare_lt_iff, Z.min_comm in Hlt.
  unfold SF64sub, SFsub. fold (aligned sx mx ex (Z.min ex ey)).
  fold (aligned sy my ey (Z.min ex ey)).
  assert (He : emin <= Z.min ex ey).
  { apply bounded_facts in Hx as [? _]. apply bounded_facts in Hy as [? _]. lia. }
  pose proof (binary_normalize_sign
                (aligned sx mx ex (Z.min ex ey) - aligned sy my ey (Z.min ex ey))
                (Z.min ex ey) He) as H.
  destruct (aligned sx mx ex (Z.min ex ey) - aligned sy my ey (Z.min ex ey)) eqn:HD;
    [lia | exact H | lia].
Qed.

(** A float that is zero, negative, or minus infinity. *)
Definition nonpositive (x : spec_float) : Prop :=
  match x with
  | S754_zero _ => True
  | S754_finite s _ _ | S754_infinity s => s = true
  | S754_nan => False
  end.

(** A float that is neither NaN nor infinite. *)
Definition finite (x : spec_float) : Prop :=
  match x with
  | S754_zero _ | S754_finite _ _ _ => True
  | _ => False
  end.

Lemma signed_true_nonpositive (x : spec_float) : signed true x -> nonpositive x.
Proof. destruct x; simpl; auto. Qed.

(** If [x <= y], both finite, then [x - y] is zero or negative. *)
Lemma SFsub_nonpositive (x y : spec_float) :
  valid_binary x = true -> valid_binary y = true ->
  finite x -> finite y ->
  SFleb x y = true -> nonpositive (SF64sub x y).
Proof.
  intros Hx Hy Fx Fy Hle. apply SFleb_Le in Hle.
  destruct x as [sx|sx| |sx mx ex], y as [sy|sy| |sy my ey];
    try contradiction.
  - destruct sx, sy; exact I.
  - destruct sy; simpl in Hle; destruct Hle; try discriminate; reflexivity.
  - destruct sx; simpl in Hle; destruct Hle; try discriminate; reflexivity.
  - simpl in Hx, Hy.
    rewrite (SFcompare_aligned sx sy mx my ex ey Hx Hy) in Hle.
    assert (Hd : aligned sx mx ex (Z.min ex ey) - aligned sy my ey (Z.min ex ey) <= 0).
    { destruct Hle as [H|H]; injection H as H;
        [rewrite Z.compare_lt_iff in H | rewrite Z.compare_eq_iff in H]; lia. }
    unfold SF64sub, SFsub. fold (aligned sx mx ex (Z.min ex ey)).
    fold (aligned sy my ey (Z.min ex ey)).
    assert (He : emin <= Z.min ex ey).
    { apply bounded_facts in Hx as [? _]. apply bounded_facts in Hy as [? _]. lia. }
    pose proof (binary_normalize_sign
                  (aligned sx mx ex (Z.min ex ey) - aligned sy my ey (Z.min ex ey))
                  (Z.min ex ey) He) as H.
    destruct (aligned sx mx ex (Z.min ex ey) - aligned sy my ey (Z.min ex ey)) eqn:HD;
      [rewrite H; exact I | lia | apply signed_true_nonpositive; exact H].
Qed.

(** [x <= 0] for a double [x] and the integer zero. *)
Lemma cmp_int_zero (x : float) :
  is_le (Binary64.cmp_int x 0)
    = match Prim2SF x with
      | S754_zero _ => true
      | S754_finite s _ _ | S754_infinity s => s
      | S754_nan => false
      end.
Proof.
  unfold Binary64.cmp_int. destruct (Prim2SF x) as [s|s| |s m e]; try reflexivity.
  - destruct s; reflexivity.
  - destruct (0 <=? e) eqn:He.
    + apply Z.leb_le in He.
      assert (Hp : 0 < 2 ^ e) by (apply Z.pow_pos_nonneg; lia).
      destruct s; simpl is_le.
      * assert (H : (Z.neg m * 2 ^ e ?= 0) = Lt) by (apply Z.compare_lt_iff; nia).
        now rewrite H.
      * assert (H : (Z.pos m * 2 ^ e ?= 0) = Gt) by (apply Z.compare_gt_iff; nia).
        now rewrite H.
    + destruct s; reflexivity.
Qed.

Lemma is_finite_spec (x : float) : is_finite x = true -> finite (Prim2SF x).
Proof.
  unfold is_finite. intros H. apply negb_true_iff, orb_false_iff in H as [Hn Hi].
  unfold Prim2SF. rewrite Hn, Hi.
  destruct (is_zero x); [exact I|].
  destruct (Z.frexp x) as [r e].
  destruct (shr_fexp _ _ _ _ _) as [mrs e'].
  destruct (shr_m mrs); exact I.
Qed.

(** The guard of [calculate_emergency_fund] does not fire when the
    income is larger than the expenses. *)
Theorem difference_positive (a b : float) :
  (b <? a)%float = true -> is_le (f_cmp_int (a - b)%float 0) = false.
Proof.
  intros H. rewrite ltb_spec in H.
  pose proof (SFsub_positive _ _ (Prim2SF_valid a) (Prim2SF_valid b) H) as Hs.
  simpl f_cmp_int. rewrite cmp_int_zero, sub_spec.
  destruct (SF64sub (Prim2SF a) (Prim2SF b)); simpl in Hs; try contradiction; exact Hs.
Qed.

(** It fires when the income, a finite amount, is no larger than the
    expenses, another. *)
Theorem difference_nonpositive (a b : float) :
  is_finite a = true -> is_finite b = true ->
  (a <=? b)%float = true -> is_le (f_cmp_int (a - b)%float 0) = true.
Proof.
  intros Fa Fb H. rewrite leb_spec in H.
  pose proof (SFsub_nonpositive _ _ (Prim2SF_valid a) (Prim2SF_valid b)
                (is_finite_spec a Fa) (is_finite_spec b Fb) H) as Hs.
  simpl f_cmp_int. rewrite cmp_int_zero, sub_spec.
  destruct (SF64sub (Prim2SF a) (Prim2SF b)); simpl in Hs; try contradiction;
    first [exact Hs | reflexivity].
Qed.

End Binary64Facts.

(** ** The emergency fund (C1, C4) *)

Section EmergencyFund.

Context {F : Type} {PF : PyFloat F}.

(** The state [calculate_emergency_fund] returns for the disposable
    income [d]. *)
Definition funded (st profile : dict F) (d : F) : dict F :=
  let emergency_fund := f_round2 (f_mul d (f_dec 5 (-2))) in
  let monthly_investment := f_round2 (f_mul d (f_dec 95 (-2))) in
  <["status" := VStr "emergency_fund_calculated"]>
  (<["monthly_investment" := VFloat monthly_investment]>
  (<["emergency_fund" := VFloat emergency_fund]>
  (<["user_profile" :=
      VDict (<["monthly_investment" := VFloat monthly_investment]>
            (<["emergency_fund" := VFloat emergency_fund]> profile))]> st))).

(** The amounts the stage reads: [float(profile.get(k, 0))] for the
    income and the expenses of the profile of the state. *)
Definition amounts (E : env F) (st profile : dict F) (a b : F) : Prop :=
  get_or st "user_profile" (VDict ∅) = VDict profile /\
  py_float E (get_or profile "monthly_income" (VInt 0)) = Returned a /\
  py_float E (get_or profile "monthly_expenses" (VInt 0)) = Returned b.

Lemma amounts_of_floats (E : env F) (st profile : dict F) (a b : F) :
  st !! "user_profile" = Some (VDict profile) ->
  profile !! "monthly_income" = Some (VFloat a) ->
  profile !! "monthly_expenses" = Some (VFloat b) ->
  amounts E st profile a b.
Proof.
  intros Hp Ha Hb. unfold amounts.
  rewrite (get_or_Some _ _ _ _ Hp), (get_or_Some _ _ _ _ Ha), (get_or_Some _ _ _ _ Hb).
  repeat split.
Qed.

Lemma calculate_emergency_fund_body_amounts (E : env F) (st profile : dict F) (a b : F) :
  amounts E st profile a b ->
  calculate_emergency_fund_body E st
    = if is_le (f_cmp_int (f_sub a b) 0)
      then raise_src ValueError "Monthly expenses exceed or equal monthly income"
      else Returned (funded st profile (f_sub a b)).
Proof.
  intros (Hp & Ha & Hb). unfold calculate_emergency_fund_body.
  rewrite Hp. unfold py_get.
  cbn [mbind outcome_bind bind]. rewrite Ha.
  cbn [mbind outcome_bind bind]. rewrite Hb. reflexivity.
Qed.

Lemma calculate_emergency_fund_funded (E : env F) (st profile : dict F) (a b : F) :
  amounts E st profile a b ->
  is_le (f_cmp_int (f_sub a b) 0) = false ->
  calculate_emergency_fund E st = Returned (funded st profile (f_sub a b)).
Proof.
  intros H Hd. unfold calculate_emergency_fund.
  rewrite (calculate_emergency_fund_body_amounts E st profile a b H), Hd.
  reflexivity.
Qed.

Lemma calculate_emergency_fund_refused (E : env F) (st profile : dict F) (a b : F) :
  amounts E st profile a b ->
  is_le (f_cmp_int (f_sub a b) 0) = true ->
  calculate_emergency_fund E st
    = Returned (with_error st "Monthly expenses exceed or equal monthly income").
Proof.
  intros H Hd. unfold calculate_emergency_fund.
  rewrite (calculate_emergency_fund_body_amounts E st profile a b H), Hd.
  reflexivity.
Qed.

Lemma funded_fields (st profile : dict F) (d : F) :
  funded st profile d !! "emergency_fund"
    = Some (VFloat (f_round2 (f_mul d (f_dec 5 (-2))))) /\
  funded st profile d !! "monthly_investment"
    = Some (VFloat (f_round2 (f_mul d (f_dec 95 (-2))))) /\
  status_of (funded st profile d) = VStr "emergency_fund_calculated".
Proof.
  unfold funded. split; [|split].
  - rewrite !lookup_insert_ne by discriminate. apply lookup_insert_eq.
  - rewrite lookup_insert_ne by discriminate. apply lookup_insert_eq.
  - apply status_of_insert.
Qed.

Lemma route_after_emergency_fund_error (st : dict F) msg :
  next_node n_calculate_emergency_fund (with_error st msg) = Returned n_handle_error.
Proof.
  simpl. unfold route_after_emergency_fund. rewrite status_of_with_error. reflexivity.
Qed.

Lemma route_after_emergency_fund_funded (st profile : dict F) (d : F) :
  next_node n_calculate_emergency_fund (funded st profile d)
    = Returned n_analyze_goals_and_risk.
Proof.
  destruct (funded_fields st profile d) as (_ & Hm & Hs).
  simpl. unfold route_after_emergency_fund. rewrite Hs, Hm. reflexivity.
Qed.

End EmergencyFund.

(** With two finite amounts, an income no larger than the expenses is
    refused: status ["error"], the error "Monthly expenses exceed or
    equal monthly income", and the router goes to [handle_error]. *)
Theorem finite_amounts_are_refused :
  forall (E : env float) (st profile : dict float) (income expenses : float),
    amounts E st profile income expenses ->
    is_finite income = true ->
    is_finite expenses = true ->
    (income <=? expenses)%float = true ->
    exists st',
      calculate_emergency_fund E st = Returned st' /\
      status_of st' = VStr "error" /\
      st' !! "error"
        = Some (VStr "Monthly expenses exceed or equal monthly income") /\
      next_node n_calculate_emergency_fund st' = Returned n_handle_error.
Proof.
  intros E st profile income expenses H Fi Fe Hle.
  exists (with_error st "Monthly expenses exceed or equal monthly income").
  split.
  { apply (calculate_emergency_fund_refused E st profile income expenses H).
    apply Binary64Facts.difference_nonpositive; assumption. }
  split; [apply status_of_with_error|].
  split.
  { unfold with_error. rewrite lookup_insert_ne by discriminate. apply lookup_insert_eq. }
  apply route_after_emergency_fund_error.
Qed.

Lemma finite_amounts_are_refused_sample :
  let profile := <["monthly_income" := VFloat 50000%float]> Sample.profile in
  let st := <["user_profile" := VDict profile]> Sample.initial in
  exists st',
    calculate_emergency_fund Sample.environment st = Returned st' /\
    status_of st' = VStr "error" /\
    st' !! "error"
      = Some (VStr "Monthly expenses exceed or equal monthly income") /\
    next_node n_calculate_emergency_fund st' = Returned n_handle_error.
Proof.
  intros profile st.
  apply (finite_amounts_are_refused Sample.environment st profile
           50000%float 60000%float); try reflexivity.
  apply amounts_of_floats; reflexivity.
Qed.

(** A profile whose income and expenses are both infinite. *)
Module Unbounded.

Definition profile : dict float :=
  <["monthly_income" := VFloat infinity]>
  (<["monthly_expenses" := VFloat infinity]> Sample.profile).

Definition environment : env float := Sample.env_with profile.

(** The state its run reaches before [calculate_emergency_fund], and
    the profile that state holds. *)
Definition preprocessed : dict float :=
  result_or ∅ (Pipeline.preprocessed environment).

Definition checked_profile : dict float :=
  match get_or preprocessed "user_profile" VNone with
  | VDict p => p
  | _ => ∅
  end.

End Unbounded.

(** C4 fails where the income and the expenses are the same infinity:
    the income is [<=] the expenses, their difference is NaN, NaN is
    not [<= 0], and the stage goes on: NaN for both shares, status
    ["emergency_fund_calculated"], and the router goes to
    [analyze_goals_and_risk]. *)
Theorem C4_equal_infinities_pass_the_guard :
  forall (E : env float) (st profile : dict float),
    amounts E st profile infinity infinity ->
    (infinity <=? infinity)%float = true /\
    exists st',
      calculate_emergency_fund E st = Returned st' /\
      status_of st' = VStr "emergency_fund_calculated" /\
      st' !! "emergency_fund" = Some (VFloat nan) /\
      st' !! "monthly_investment" = Some (VFloat nan) /\
      st' !! "error" = st !! "error" /\
      next_node n_calculate_emergency_fund st' = Returned n_analyze_goals_and_risk.
Proof.
  intros E st profile H. split; [reflexivity|].
  exists (funded st profile (f_sub infinity infinity)).
  split; [apply (calculate_emergency_fund_funded E st profile _ _ H); reflexivity|].
  destruct (funded_fields st profile (f_sub infinity infinity)) as (He & Hm & Hs).
  split; [exact Hs|]. split; [exact He|]. split; [exact Hm|].
  split; [|apply route_after_emergency_fund_funded].
  unfold funded. now rewrite !lookup_insert_ne by discriminate.
Qed.

Lemma C4_witness :
  Pipeline.preprocessed Unbounded.environment = Returned Unbounded.preprocessed /\
  next_node n_preprocess_market_data Unbounded.preprocessed
    = Returned n_calculate_emergency_fund /\
  amounts Unbounded.environment Unbounded.preprocessed Unbounded.checked_profile
    infinity infinity /\
  (infinity <=? infinity)%float = true /\
  exists st',
    calculate_emergency_fund Unbounded.environment Unbounded.preprocessed
      = Returned st' /\
    status_of st' = VStr "emergency_fund_calculated" /\
    st' !! "emergency_fund" = Some (VFloat nan) /\
    st' !! "monthly_investment" = Some (VFloat nan) /\
    st' !! "error" = Unbounded.preprocessed !! "error" /\
    next_node n_calculate_emergency_fund st' = Returned n_analyze_goals_and_risk.
Proof.
  assert (H : amounts Unbounded.environment Unbounded.preprocessed
                Unbounded.checked_profile infinity infinity).
  { repeat split; vm_compute; reflexivity. }
  split; [apply returned_result_or; vm_compute; reflexivity|].
  split; [vm_compute; reflexivity|].
  split; [exact H|].
  exact (C4_equal_infinities_pass_the_guard Unbounded.environment
           Unbounded.preprocessed Unbounded.checked_profile H).
Defined.

(** *** The tolerance, in exact arithmetic *)

Section ExactRounding.

Local Open Scope Q_scope.

Lemma half_even_close (q : Q) :
  - (1 # 2) <= inject_Z (Exact.half_even q) - q <= 1 # 2.
Proof.
  unfold Exact.half_even.
  pose proof (Qfloor_le q) as Hlo.
  pose proof (Qlt_floor q) as Hhi.
  assert (Hup : inject_Z (Qfloor q + 1) == inject_Z (Qfloor q) + 1).
  { rewrite inject_Z_plus. reflexivity. }
  rewrite Hup in Hhi.
  destruct (q - inject_Z (Qfloor q) ?= 1 # 2) eqn:Hc.
  - apply Qeq_alt in Hc. destruct (Z.even (Qfloor q)); [|rewrite Hup];
      revert Hlo Hhi Hc; generalize (inject_Z (Qfloor q)); intros x Hlo Hhi Hc; lra.
  - apply Qlt_alt in Hc.
    revert Hlo Hhi Hc; generalize (inject_Z (Qfloor q)); intros x Hlo Hhi Hc; lra.
  - apply Qgt_alt in Hc. rewrite Hup.
    revert Hlo Hhi Hc; generalize (inject_Z (Qfloor q)); intros x Hlo Hhi Hc; lra.
Qed.

Lemma round2_value (q : Q) :
  Exact.round2 q == inject_Z (Exact.half_even (q * 100)) * (1 # 100).
Proof.
  unfold Exact.round2. rewrite Qred_correct, Qmake_Qdiv. reflexivity.
Qed.

Lemma integer_within_three_halves (k : Z) :
  - (3 # 2) <= inject_Z k <= 3 # 2 -> - (1) <= inject_Z k <= 1.
Proof.
  unfold Qle. simpl. intros [H1 H2]. split; lia.
Qed.

(** A twentieth and nineteen twentieths of an amount, each rounded to
    the cent, are together within a cent of the amount rounded to the
    cent. *)
Lemma shares_within_a_cent (d x1 x2 : Q) :
  x1 == d * (5 # 100) -> x2 == d * (95 # 100) ->
  Qabs (Exact.round2 x1 + Exact.round2 x2 - Exact.round2 d) <= 1 # 100.
Proof.
  intros H1 H2. rewrite !round2_value.
  pose proof (half_even_close (x1 * 100)) as B1.
  pose proof (half_even_close (x2 * 100)) as B2.
  pose proof (half_even_close (d * 100)) as B3.
  set (n1 := Exact.half_even (x1 * 100)) in *.
  set (n2 := Exact.half_even (x2 * 100)) in *.
  set (n3 := Exact.half_even (d * 100)) in *.
  assert (Hk : inject_Z (n1 + n2 - n3) == inject_Z n1 + inject_Z n2 - inject_Z n3).
  { unfold Z.sub. rewrite !inject_Z_plus, inject_Z_opp. reflexivity. }
  assert (Hb : - (1) <= inject_Z (n1 + n2 - n3) <= 1).
  { apply integer_within_three_halves. rewrite Hk. rewrite H1 in B1. rewrite H2 in B2.
    lra. }
  rewrite Hk in Hb. apply Qabs_Qle_condition.
  revert Hb. generalize (inject_Z n1), (inject_Z n2), (inject_Z n3). intros; lra.
Qed.

End ExactRounding.

(** The two literals of the stage, as doubles. *)
Lemma binary64_literals :
  f_dec 5 (-2) = 0x1.999999999999ap-5%float /\
  f_dec 95 (-2) = 0x1.e666666666666p-1%float.
Proof. split; vm_compute; reflexivity. Qed.

Lemma exact_difference_positive (a b : Q) :
  (b < a)%Q -> is_le (f_cmp_int (f_sub a b) 0) = false.
Proof.
  intros H. cbn [f_cmp_int f_sub exact]. change (inject_Z 0) with 0%Q.
  assert (Hd : (0 < Qred (a - b))%Q) by (rewrite Qred_correct; lra).
  apply Qgt_alt in Hd. now rewrite Hd.
Qed.


(** ** The stage the graph runs for the selection *)

(** C9, as stated, fails for the stage of the graph: the node
    ["select_investment_products"] runs [select_investments], which
    keeps what the language model answered.  Here the allocation gives
    equity 0.6, the market data has no stock at all, and the stage
    reports success with every class empty: no default instrument. *)
Lemma C9_counterexample :
  let st := Pipeline.reached Sample.environment in
  let st' := Pipeline.selected Sample.environment in
  Pipeline.allocated Sample.environment = Returned st /\
  py_get (get_or st "asset_allocation" VNone) "equity" VNone
    = Returned (VFloat 0x1.3333333333333p-1%float) /\
  py_get (get_or st "market_data" VNone) "stocks" VNone = Returned (VList []) /\
  select_investments Sample.environment st = Returned st' /\
  status_of st' = VStr "products_selected" /\
  next_node n_select_investment_products st' = Returned n_calculate_returns /\
  py_get (get_or st' "selected_products" VNone) "stocks" VNone
    = Returned (VList []) /\
  py_get (get_or st' "selected_products" VNone) "mutual_funds" VNone
    = Returned (VList []) /\
  py_get (get_or st' "selected_products" VNone) "fixed_deposits" VNone
    = Returned (VList []).
Proof.
  split; [apply returned_result_or; vm_compute; reflexivity|].
  split; [vm_compute; reflexivity|].
  split; [vm_compute; reflexivity|].
  split; [apply returned_result_or; vm_compute; reflexivity|].
  repeat split; vm_compute; reflexivity.
Qed.

(** ** The order of the numbers of binary64 *)

Module Binary64Order.

Import Binary64Facts.

#[local] Open Scope Z_scope.

(** The line the numbers are compared on, with its two ends. *)
Inductive ext : Set :=
| NegInf
| Fin (z : Z)
| PosInf.

Definition ext_compare (a b : ext) : comparison :=
  match a, b with
  | NegInf, NegInf => Eq
  | NegInf, _ => Lt
  | _, NegInf => Gt
  | PosInf, PosInf => Eq
  | PosInf, _ => Gt
  | _, PosInf => Lt
  | Fin x, Fin y => (x ?= y)%Z
  end.

(** Every finite double is a whole number of units of [2^emin]. *)
Definition rank_sf (x : spec_float) : option ext :=
  match x with
  | S754_nan => None
  | S754_infinity s => Some (if s then NegInf else PosInf)
  | S754_zero _ => Some (Fin 0)
  | S754_finite s m e => Some (Fin (cond_Zopp s (Z.pos m) * 2 ^ (e - emin)))
  end.

Definition rank (n : num float) : option ext :=
  match n with
  | NInt z => Some (Fin (z * 2 ^ (- emin)))
  | NFloat f => rank_sf (Prim2SF f)
  end.

Definition compare_ranks (a b : option ext) : option comparison :=
  match a, b with
  | Some x, Some y => Some (ext_compare x y)
  | _, _ => None
  end.

Lemma compare_scaled (x y p : Z) : 0 < p -> (x * p ?= y * p) = (x ?= y).
Proof.
  intros Hp. destruct (Z.compare_spec x y) as [->|H|H].
  - apply Z.compare_refl.
  - apply Z.compare_lt_iff. nia.
  - apply Z.compare_gt_iff. nia.
Qed.

Lemma ext_compare_antisym (a b : ext) :
  ext_compare a b = CompOpp (ext_compare b a).
Proof. destruct a, b; try reflexivity. simpl. apply Z.compare_antisym. Qed.

Lemma ext_lt_asym (a b : ext) : ext_compare a b = Lt -> ext_compare b a <> Lt.
Proof. rewrite (ext_compare_antisym b a). intros ->. discriminate. Qed.

Lemma ext_not_below_trans (a b c : ext) :
  ext_compare a b <> Lt -> ext_compare b c <> Lt -> ext_compare a c <> Lt.
Proof.
  destruct a as [|x|], b as [|y|], c as [|z|]; simpl; try congruence.
  rewrite !Z.compare_lt_iff. lia.
Qed.

Lemma SFcompare_rank (x y : spec_float) :
  valid_binary x = true -> valid_binary y = true ->
  SFcompare x y = compare_ranks (rank_sf x) (rank_sf y).
Proof.
  destruct x as [sx|sx| |sx mx ex], y as [sy|sy| |sy my ey];
    try reflexivity; try (destruct sx; reflexivity); try (destruct sy; reflexivity);
    try (destruct sx, sy; reflexivity); simpl valid_binary; intros Hx Hy.
  - pose proof (bounded_facts my ey Hy) as [He _].
    assert (Hp : 0 < 2 ^ (ey - emin)) by (apply Z.pow_pos_nonneg; lia).
    cbn [SFcompare rank_sf compare_ranks ext_compare]. f_equal. symmetry.
    destruct sy; unfold cond_Zopp;
      [apply Z.compare_gt_iff | apply Z.compare_lt_iff]; nia.
  - pose proof (bounded_facts mx ex Hx) as [He _].
    assert (Hp : 0 < 2 ^ (ex - emin)) by (apply Z.pow_pos_nonneg; lia).
    cbn [SFcompare rank_sf compare_ranks ext_compare]. f_equal. symmetry.
    destruct sx; unfold cond_Zopp;
      [apply Z.compare_lt_iff | apply Z.compare_gt_iff]; nia.
  - pose proof (bounded_facts mx ex Hx) as [Hex _].
    pose proof (bounded_facts my ey Hy) as [Hey _].
    rewrite (SFcompare_aligned sx sy mx my ex ey Hx Hy).
    rewrite !aligned_value by lia.
    unfold rank_sf, compare_ranks, ext_compare. f_equal.
    set (ez := Z.min ex ey).
    assert (Hp : 0 < 2 ^ (ez - emin)) by (apply Z.pow_pos_nonneg; lia).
    rewrite <- (compare_scaled _ _ _ Hp).
    assert (Hs : forall s m e, ez <= e ->
               cond_Zopp s (Z.pos m * 2 ^ (e - ez)) * 2 ^ (ez - emin)
               = cond_Zopp s (Z.pos m) * 2 ^ (e - emin)).
    { intros s m e He.
      replace (e - emin) with ((e - ez) + (ez - emin)) by lia.
      rewrite Z.pow_add_r by lia. destruct s; unfold cond_Zopp; ring. }
    rewrite !Hs by lia. reflexivity.
Qed.

Lemma cmp_SFcompare (x y : float) :
  Binary64.cmp x y = SFcompare (Prim2SF x) (Prim2SF y).
Proof.
  unfold Binary64.cmp. rewrite FloatAxioms.compare_spec.
  destruct (SFcompare (Prim2SF x) (Prim2SF y)) as [[]|]; reflexivity.
Qed.

Lemma cmp_int_rank (x : float) (z : Z) :
  Binary64.cmp_int x z = compare_ranks (rank (NFloat x)) (rank (NInt z)).
Proof.
  unfold Binary64.cmp_int, rank. pose proof (Prim2SF_valid x) as Hv.
  assert (Hu : 0 < 2 ^ (- emin)) by (apply Z.pow_pos_nonneg; unfold emin, emax, prec; lia).
  destruct (Prim2SF x) as [s|s| |s m e]; simpl rank_sf; unfold compare_ranks, ext_compare.
  - f_equal. replace 0 with (0 * 2 ^ (- emin)) at 2 by lia.
    now rewrite compare_scaled.
  - destruct s; reflexivity.
  - reflexivity.
  - simpl in Hv. pose proof (bounded_facts m e Hv) as [He _].
    replace (if s then Z.neg m else Z.pos m) with (cond_Zopp s (Z.pos m))
      by (destruct s; reflexivity).
    destruct (0 <=? e) eqn:H0; f_equal.
    + apply Z.leb_le in H0.
      replace (e - emin) with (e + - emin) by lia.
      rewrite Z.pow_add_r by (unfold emin, emax, prec; lia).
      rewrite Z.mul_assoc. now rewrite compare_scaled.
    + apply Z.leb_gt in H0.
      assert (Hp : 0 < 2 ^ (e - emin)) by (apply Z.pow_pos_nonneg; lia).
      rewrite <- (compare_scaled _ (z * 2 ^ (- e)) _ Hp).
      rewrite <- Z.mul_assoc, <- Z.pow_add_r by lia.
      replace (- e + (e - emin)) with (- emin) by lia. reflexivity.
Qed.

(** Comparing two numbers is comparing their places on the line. *)
Lemma num_cmp_rank (a b : num float) :
  num_cmp a b = compare_ranks (rank a) (rank b).
Proof.
  destruct a as [x|x], b as [y|y]; unfold num_cmp.
  - unfold rank, compare_ranks, ext_compare. f_equal. symmetry.
    apply compare_scaled. apply Z.pow_pos_nonneg; unfold emin, emax, prec; lia.
  - change (f_cmp_int y x) with (Binary64.cmp_int y x). rewrite cmp_int_rank.
    destruct (rank (NFloat y)) as [ry|]; [|reflexivity].
    unfold compare_ranks, rank, option_map. f_equal.
    symmetry. apply ext_compare_antisym.
  - apply cmp_int_rank.
  - change (f_cmp x y) with (Binary64.cmp x y). rewrite cmp_SFcompare.
    apply SFcompare_rank; apply Prim2SF_valid.
Qed.

Lemma rank_ordered (a : num float) : num_cmp a a <> None -> exists r, rank a = Some r.
Proof.
  rewrite num_cmp_rank. destruct (rank a) as [r|]; [eauto | now intros []].
Qed.

Lemma num_lt_asym (a b : num float) :
  is_lt (num_cmp a b) = true -> is_lt (num_cmp b a) = false.
Proof.
  rewrite !num_cmp_rank.
  destruct (rank a) as [x|], (rank b) as [y|]; simpl; try discriminate.
  pose proof (ext_lt_asym x y) as H.
  destruct (ext_compare x y); try discriminate.
  destruct (ext_compare y x); try reflexivity. now destruct H.
Qed.

Lemma num_not_below_trans (a b c : num float) :
  num_cmp b b <> None ->
  is_lt (num_cmp a b) = false -> is_lt (num_cmp b c) = false ->
  is_lt (num_cmp a c) = false.
Proof.
  intros Hb. apply rank_ordered in Hb as [y Hy].
  rewrite !num_cmp_rank, Hy.
  destruct (rank a) as [x|], (rank c) as [z|]; simpl; try reflexivity.
  pose proof (ext_not_below_trans x y z) as H.
  destruct (ext_compare x y), (ext_compare y z), (ext_compare x z);
    try reflexivity; try discriminate; intros _ _; exfalso; apply H; congruence.
Qed.

End Binary64Order.

(** ** Ranking

    What [sorted(..., reverse=True)] returns, for any arithmetic whose
    comparison is asymmetric and, on numbers that are not NaN,
    transitive. *)

Section Ranking.

Context {F : Type} {PF : PyFloat F}.

Hypothesis cmp_asym : forall a b : num F,
  is_lt (num_cmp a b) = true -> is_lt (num_cmp b a) = false.
Hypothesis cmp_trans : forall a b c : num F,
  num_cmp b b <> None ->
  is_lt (num_cmp a b) = false -> is_lt (num_cmp b c) = false ->
  is_lt (num_cmp a c) = false.

Definition number_key (k : sort_key (F:=F)) : Prop :=
  is_num_key k = true /\ is_nan_key k = false.

Definition text_key (k : sort_key (F:=F)) : Prop := is_str_key k = true.

Definition transitive_on (P : sort_key (F:=F) -> Prop) : Prop :=
  forall a b c, P a -> P b -> P c ->
    key_lt a b = false -> key_lt b c = false -> key_lt a c = false.

(** No element is followed, anywhere later, by one with a larger key. *)
Definition descending {A} (l : list (sort_key (F:=F) * A)) : Prop :=
  StronglySorted (fun p q => key_lt (fst p) (fst q) = false) l.

Lemma key_lt_asym (a b : sort_key (F:=F)) : key_lt a b = true -> key_lt b a = false.
Proof.
  destruct a as [x|s| |], b as [y|t| |]; simpl; try discriminate; try reflexivity.
  - apply cmp_asym.
  - rewrite (String.compare_antisym t s).
    destruct (String.compare s t); simpl; congruence.
Qed.

Lemma text_not_below_trans (s t u : string) :
  String.compare s t <> Lt -> String.compare t u <> Lt -> String.compare s u <> Lt.
Proof.
  intros Hst Htu Hsu.
  apply OrderedTypeEx.String_as_OT.cmp_lt in Hsu.
  destruct (String.compare s t) eqn:Hc; [| congruence |].
  - apply OrderedTypeEx.String_as_OT.cmp_eq in Hc. subst t.
    apply Htu. now apply OrderedTypeEx.String_as_OT.cmp_lt.
  - assert (Hts : String.compare t s = Lt)
      by (rewrite String.compare_antisym, Hc; reflexivity).
    apply OrderedTypeEx.String_as_OT.cmp_lt in Hts.
    apply Htu. apply OrderedTypeEx.String_as_OT.cmp_lt.
    eapply OrderedTypeEx.String_as_OT.lt_trans; eassumption.
Qed.

Lemma number_keys_transitive : transitive_on number_key.
Proof.
  intros [x|s| |] [y|t| |] [z|u| |] [Ha _] [Hb Hn] [Hc _]; try discriminate.
  simpl in *. apply cmp_trans. now destruct (num_cmp y y).
Qed.

Lemma text_keys_transitive : transitive_on text_key.
Proof.
  intros [x|s| |] [y|t| |] [z|u| |] Ha Hb Hc; try discriminate.
  simpl. intros Hst Htu.
  pose proof (text_not_below_trans s t u) as H.
  destruct (String.compare s t), (String.compare t u), (String.compare s u);
    try reflexivity; try discriminate; exfalso; apply H; congruence.
Qed.

Lemma insert_desc_Permutation {A} (x : sort_key (F:=F) * A) l :
  Permutation (insert_desc x l) (x :: l).
Proof.
  induction l as [|y l IH]; simpl; [reflexivity|].
  destruct (key_lt (fst x) (fst y)); [|reflexivity].
  rewrite IH. apply perm_swap.
Qed.

Lemma sort_desc_Permutation {A} (l : list (sort_key (F:=F) * A)) :
  Permutation (sort_desc l) l.
Proof.
  induction l as [|x l IH]; simpl; [reflexivity|].
  change (foldr insert_desc [] l) with (sort_desc l).
  rewrite insert_desc_Permutation. now constructor.
Qed.

Lemma insert_desc_descending {A} (P : sort_key (F:=F) -> Prop)
    (x : sort_key (F:=F) * A) l :
  transitive_on P -> P (fst x) -> Forall (fun p => P (fst p)) l ->
  descending l -> descending (insert_desc x l).
Proof.
  intros HP Hx. induction l as [|y l IH]; intros Hl Hs; simpl.
  - repeat constructor.
  - apply Forall_cons_iff in Hl as [Hy Hl].
    apply StronglySorted_inv in Hs as [Hs Hyl].
    destruct (key_lt (fst x) (fst y)) eqn:Hlt.
    + constructor; [now apply IH|].
      eapply Permutation_Forall; [symmetry; apply insert_desc_Permutation|].
      constructor; [now apply key_lt_asym | exact Hyl].
    + constructor; [now constructor|].
      constructor; [exact Hlt|].
      rewrite List.Forall_forall in *. intros z Hz.
      apply (HP (fst x) (fst y) (fst z)); auto.
Qed.

Lemma sort_desc_descending {A} (P : sort_key (F:=F) -> Prop)
    (l : list (sort_key (F:=F) * A)) :
  transitive_on P -> Forall (fun p => P (fst p)) l -> descending (sort_desc l).
Proof.
  intros HP. induction l as [|x l IH]; intros Hl; simpl.
  - constructor.
  - apply Forall_cons_iff in Hl as [Hx Hl].
    change (foldr insert_desc [] l) with (sort_desc l).
    apply (insert_desc_descending P); auto.
    eapply Permutation_Forall; [symmetry; apply sort_desc_Permutation | exact Hl].
Qed.

(** [x] does not rank below [y]: its key is not smaller. *)
Definition not_below (key : value F -> outcome F (value F)) (x y : value F) : Prop :=
  exists kx ky, key x = Returned kx /\ key y = Returned ky /\
                key_lt (classify kx) (classify ky) = false.

(** Largest key first. *)
Definition ranked_by (key : value F -> outcome F (value F)) (l : list (value F))
    : Prop :=
  StronglySorted (not_below key) l.

Lemma bind_Returned {A B} (m : outcome F A) (k : A -> outcome F B) (r : B) :
  m ≫= k = Returned r -> exists x, m = Returned x /\ k x = Returned r.
Proof. destruct m as [x|e|]; simpl; try discriminate. eauto. Qed.

Lemma mapM_Returned {A B} (f : A -> outcome F B) (l : list A) (r : list B) :
  mapM f l = Returned r -> Forall2 (fun x y => f x = Returned y) l r.
Proof.
  revert r. induction l as [|x l IH]; intros r; simpl.
  - intros [= <-]. constructor.
  - intros H. apply bind_Returned in H as (y & Hy & H).
    apply bind_Returned in H as (k & Hk & H).
    injection H as <-. constructor; auto.
Qed.

Lemma keyed_elements (key : value F -> outcome F (value F)) l keys :
  Forall2 (fun x k => key x = Returned k) l keys ->
  map snd (zip (map classify keys) l) = l /\
  Forall (fun p => exists k, key (snd p) = Returned k /\ fst p = classify k)
         (zip (map classify keys) l).
Proof.
  induction 1 as [|x k l keys Hx _ [IH1 IH2]]; simpl.
  - split; constructor.
  - split; [now rewrite IH1|]. constructor; eauto.
Qed.

Lemma descending_ranked (key : value F -> outcome F (value F))
    (l : list (sort_key (F:=F) * value F)) :
  Forall (fun p => exists k, key (snd p) = Returned k /\ fst p = classify k) l ->
  descending l -> ranked_by key (map snd l).
Proof.
  intros Hl Hs. induction Hs as [|p l Hs IH Hp]; simpl.
  - constructor.
  - apply Forall_cons_iff in Hl as [(kp & Hkp & Hfp) Hl].
    constructor; [now apply IH|].
    rewrite List.Forall_forall in *. intros y Hy.
    apply in_map_iff in Hy as (q & <- & Hq).
    destruct (Hl q Hq) as (kq & Hkq & Hfq).
    exists kp, kq. repeat split; auto.
    rewrite <- Hfp, <- Hfq. now apply Hp.
Qed.

Lemma keys_comparable (ks : list (sort_key (F:=F))) :
  existsb is_nan_key ks = false ->
  forallb is_num_key ks || forallb is_str_key ks = true ->
  Forall number_key ks \/ Forall text_key ks.
Proof.
  intros Hnan H. apply orb_true_iff in H as [H|H].
  - left. rewrite forallb_forall in H. apply List.Forall_forall. intros k Hk.
    split; [now apply H|].
    destruct (is_nan_key k) eqn:Hn; [|reflexivity].
    assert (existsb is_nan_key ks = true) by (apply existsb_exists; eauto).
    congruence.
  - right. rewrite forallb_forall in H. now apply List.Forall_forall.
Qed.

(** Whenever the sort returns, the result holds the same elements,
    largest key first. *)
Lemma py_sorted_desc_ranked (key : value F -> outcome F (value F)) l ranked :
  py_sorted_desc key l = Returned ranked ->
  Permutation ranked l /\ ranked_by key ranked.
Proof.
  unfold py_sorted_desc. intros H.
  apply bind_Returned in H as (keys & Hkeys & H).
  apply mapM_Returned in Hkeys.
  destruct (keyed_elements key l keys Hkeys) as [Hsnd Hkeyed].
  set (keyed := zip (map classify keys) l) in *.
  destruct l as [|x [|y l]]; cbv beta iota zeta in H.
  - injection H as <-. split; constructor.
  - injection H as <-. split; [reflexivity|]. repeat constructor.
  - destruct (existsb is_list_key (map fst keyed) || existsb is_nan_key (map fst keyed))
      eqn:Hbad; [discriminate|].
    apply orb_false_iff in Hbad as [_ Hnan].
    destruct (forallb is_num_key (map fst keyed) || forallb is_str_key (map fst keyed))
      eqn:Hkind; [|discriminate].
    injection H as <-. split.
    + etransitivity; [apply Permutation_map, sort_desc_Permutation|].
      now rewrite Hsnd.
    + apply descending_ranked.
      * eapply Permutation_Forall; [symmetry; apply sort_desc_Permutation|].
        exact Hkeyed.
      * destruct (keys_comparable _ Hnan Hkind) as [Hk|Hk].
        -- apply (sort_desc_descending number_key);
             [apply number_keys_transitive|].
           exact (proj1 (List.Forall_map fst number_key keyed) Hk).
        -- apply (sort_desc_descending text_key);
             [apply text_keys_transitive|].
           exact (proj1 (List.Forall_map fst text_key keyed) Hk).
Qed.

End Ranking.

(** ** What select_investment_products selects *)

Section SelectedProducts.

Context {F : Type} {PF : PyFloat F}.

Hypothesis cmp_asym : forall a b : num F,
  is_lt (num_cmp a b) = true -> is_lt (num_cmp b a) = false.
Hypothesis cmp_trans : forall a b c : num F,
  num_cmp b b <> None ->
  is_lt (num_cmp a b) = false -> is_lt (num_cmp b c) = false ->
  is_lt (num_cmp a c) = false.

(** The instruments the market data offers under [k]. *)
Definition offered (market_data : value F) (k : string) : outcome F (list (value F)) :=
  l ← py_get market_data k (VList []); py_iter l.

Definition is_debt (mf : value F) : bool :=
  match mf with
  | VDict d => eq_str (get_or d "category" VNone) "debt"
  | _ => false
  end.

Definition by_market_cap (x : value F) : outcome F (value F) :=
  py_get x "market_cap" (VInt 0).

Definition by_returns_5y (x : value F) : outcome F (value F) :=
  py_get x "returns_5y" (VInt 0).

Definition by_interest_rate (E : env F) (x : value F) : outcome F (value F) :=
  rate ← py_get x "interest_rate" (VInt 0);
  r ← py_float E rate; Returned (VFloat r).

(** [round(amount / n, 2)]. *)
Definition even_share (amount : value F) (n : nat) : outcome F (value F) :=
  share ← py_div amount (VInt (Z.of_nat n)); py_round2 share.

(** [chosen] is [item] with [per_item] as its allocation amount. *)
Definition allotted (per_item item chosen : value F) : Prop :=
  exists d, item = VDict d /\
            chosen = VDict (<["allocation_amount" := per_item]> d).

(** The selection of one asset class, from the candidates the market
    data has for it. *)
Inductive class_selection (amount : value F) (candidates : list (value F) -> Prop)
    (key : value F -> outcome F (value F)) (top : nat) (default : dict F)
    : list (value F) -> Prop :=
| nothing_allocated :
    py_gt amount (VInt 0) = Returned false ->
    class_selection amount candidates key top default []
| default_instrument :
    py_gt amount (VInt 0) = Returned true ->
    candidates [] ->
    class_selection amount candidates key top default
      [VDict (<["allocation_amount" := amount]> default)]
| top_ranked (available ranked : list (value F)) (per_item : value F)
      (chosen : list (value F)) :
    py_gt amount (VInt 0) = Returned true ->
    candidates available ->
    available <> [] ->
    Permutation ranked available ->
    ranked_by key ranked ->
    even_share amount (Nat.min top (length available)) = Returned per_item ->
    Forall2 (allotted per_item) (firstn top ranked) chosen ->
    class_selection amount candidates key top default chosen.

(** The amounts of the three classes: the monthly investment times the
    normalised ratios of the allocation. *)
Definition class_amounts (E : env F) (st : dict F) (monthly_investment : F)
    (equity_amount fixed_income_amount cash_amount : value F) : Prop :=
  let allocation := get_or st "asset_allocation" (VDict default_allocation) in
  exists e f c e' f' c',
    monthly_investment_of E st (get_or st "user_profile" (VDict ∅))
      = Returned monthly_investment /\
    is_le (f_cmp_int monthly_investment 0) = false /\
    py_get allocation "equity" (VFloat (f_dec 6 (-1))) = Returned e /\
    py_get allocation "fixed_income" (VFloat (f_dec 3 (-1))) = Returned f /\
    py_get allocation "cash" (VFloat (f_dec 1 (-1))) = Returned c /\
    normalize_ratios e f c = Returned (e', f', c') /\
    py_mul (VFloat monthly_investment) e' = Returned equity_amount /\
    py_mul (VFloat monthly_investment) f' = Returned fixed_income_amount /\
    py_mul (VFloat monthly_investment) c' = Returned cash_amount.

(** What the stage leaves under ["selected_products"]. *)
Definition selection (E : env F) (st st' : dict F) : Prop :=
  let market_data := get_or st "market_data" (VDict ∅) in
  exists monthly_investment equity_amount fixed_income_amount cash_amount
         stocks mutual_funds fixed_deposits total_allocated,
    class_amounts E st monthly_investment
      equity_amount fixed_income_amount cash_amount /\
    st' !! "selected_products"
      = Some (VDict (<["stocks" := VList stocks]>
                    (<["mutual_funds" := VList mutual_funds]>
                    (<["fixed_deposits" := VList fixed_deposits]>
                    (<["total_allocated" := total_allocated]> ∅))))) /\
    class_selection equity_amount
      (fun l => offered market_data "stocks" = Returned l)
      by_market_cap 5 default_stock stocks /\
    class_selection fixed_income_amount
      (fun l => exists funds, offered market_data "mutual_funds" = Returned funds /\
                              l = List.filter is_debt funds)
      by_returns_5y 3 default_mutual_fund mutual_funds /\
    class_selection cash_amount
      (fun l => offered market_data "fixed_deposits" = Returned l)
      (by_interest_rate E) 3 default_fixed_deposit fixed_deposits /\
    (length stocks <= 5 /\ length mutual_funds <= 3 /\ length fixed_deposits <= 3)%nat.

Lemma firstn_min {A} (n : nat) (l : list A) :
  firstn (Nat.min n (length l)) l = firstn n l.
Proof.
  destruct (Nat.le_ge_cases n (length l)) as [H|H].
  - now rewrite Nat.min_l.
  - rewrite Nat.min_r by exact H. now rewrite !firstn_all2 by lia.
Qed.

Lemma with_amount_allotted (per_item item chosen : value F) :
  with_amount per_item item = Returned chosen -> allotted per_item item chosen.
Proof.
  destruct item; simpl; try discriminate.
  intros H. apply Returned_eq in H. subst chosen. eexists; eauto.
Qed.

Lemma select_class_selection (amount : value F)
    (source : outcome F (list (value F))) (candidates : list (value F) -> Prop)
    (key : value F -> outcome F (value F)) (top : nat) (default : dict F)
    (selected selected' : list (value F)) :
  (0 < top)%nat ->
  (forall l, source = Returned l -> candidates l) ->
  select_class amount source key top = Returned selected ->
  or_default selected amount default = Returned selected' ->
  class_selection amount candidates key top default selected'.
Proof.
  intros Htop Hsource Hsel Hdef. unfold select_class in Hsel.
  apply bind_Returned in Hsel as (positive & Hpos & Hsel).
  destruct positive.
  - apply bind_Returned in Hsel as (available & Hav & Hsel).
    apply bind_Returned in Hsel as (ranked & Hranked & Hsel).
    apply (py_sorted_desc_ranked cmp_asym cmp_trans) in Hranked as [Hperm Hdesc].
    pose proof (Permutation_length Hperm) as Hlen.
    cbv zeta in Hsel. rewrite firstn_min in Hsel.
    destruct (0 <? Nat.min top (length ranked))%nat eqn:Hn.
    + apply Nat.ltb_lt in Hn.
      apply bind_Returned in Hsel as (share & Hshare & Hsel).
      apply bind_Returned in Hsel as (per_item & Hper & Hsel).
      apply mapM_Returned in Hsel.
      assert (Hne : available <> [])
        by (intros ->; simpl in Hlen; rewrite Hlen in Hn; simpl in Hn; lia).
      assert (Hsame : selected' = selected).
      { destruct ranked as [|x ranked]; [simpl in Hlen; now destruct available|].
        destruct top as [|top]; [lia|]. simpl in Hsel.
        inversion Hsel; subst. simpl in Hdef. now apply Returned_eq in Hdef. }
      subst selected'.
      apply (top_ranked amount candidates key top default available ranked per_item);
        auto.
      * unfold even_share. rewrite <- Hlen, Hshare. exact Hper.
      * eapply Forall2_impl; [exact Hsel|]. intros. now apply with_amount_allotted.
    + apply Nat.ltb_ge in Hn.
      assert (Hnil : available = []).
      { destruct available; [reflexivity|]. simpl in Hlen. lia. }
      apply Returned_eq in Hsel. subst selected available. simpl in Hdef.
      rewrite Hpos in Hdef. simpl in Hdef. apply Returned_eq in Hdef. subst selected'.
      apply default_instrument; auto.
  - apply Returned_eq in Hsel. subst selected. simpl in Hdef.
    rewrite Hpos in Hdef. simpl in Hdef. apply Returned_eq in Hdef. subst selected'.
    now apply nothing_allocated.
Qed.

Lemma class_selection_length amount candidates key top default selected :
  (0 < top)%nat ->
  class_selection amount candidates key top default selected ->
  (length selected <= top)%nat.
Proof.
  intros Htop [| |available ranked per_item chosen _ _ _ _ _ _ H]; simpl; try lia.
  apply Forall2_length in H. rewrite <- H, length_firstn. lia.
Qed.

Lemma debt_funds_filter (funds kept : list (value F)) :
  debt_funds funds = Returned kept -> kept = List.filter is_debt funds.
Proof.
  revert kept. induction funds as [|mf funds IH]; intros kept; simpl.
  - intros H. now apply Returned_eq in H.
  - intros H. apply bind_Returned in H as (category & Hc & H).
    apply bind_Returned in H as (rest & Hrest & H).
    apply Returned_eq in H. subst kept. rewrite (IH rest Hrest).
    destruct mf; simpl in Hc; try discriminate.
    apply Returned_eq in Hc. subst category. reflexivity.
Qed.

(** Whenever the stage reports ["products_selected"], the selection is
    the one described. *)
Lemma select_investment_products_selection (E : env F) (st st' : dict F) :
  select_investment_products E st = Returned st' ->
  status_of st' = VStr "products_selected" ->
  selection E st st'.
Proof.
  unfold select_investment_products. intros H Hstatus.
  destruct (get_or st "user_profile" (VDict ∅)) as [| | | | | |profile] eqn:Hprofile;
    try discriminate.
  destruct (select_investment_products_body E st (VDict profile)) as [s|e|] eqn:Hbody;
    [| |discriminate].
  2:{ destruct (exn_cls e); apply Returned_eq in H; subst st';
      rewrite status_of_with_error in Hstatus; discriminate. }
  apply Returned_eq in H. subst s. clear Hstatus.
  unfold select_investment_products_body in Hbody.
  apply bind_Returned in Hbody as (mi & Hmi & Hbody).
  destruct (is_le (f_cmp_int mi 0)) eqn:Hle; [discriminate|].
  cbv zeta in Hbody.
  apply bind_Returned in Hbody as (e & He & Hbody).
  apply bind_Returned in Hbody as (f & Hf & Hbody).
  apply bind_Returned in Hbody as (c & Hc & Hbody).
  apply bind_Returned in Hbody as ([[e' f'] c'] & Hn & Hbody).
  apply bind_Returned in Hbody as (ea & Hea & Hbody).
  apply bind_Returned in Hbody as (fa & Hfa & Hbody).
  apply bind_Returned in Hbody as (ca & Hca & Hbody).
  apply bind_Returned in Hbody as (stocks0 & Hs0 & Hbody).
  apply bind_Returned in Hbody as (funds0 & Hf0 & Hbody).
  apply bind_Returned in Hbody as (deposits0 & Hd0 & Hbody).
  apply bind_Returned in Hbody as (stocks & Hs & Hbody).
  apply bind_Returned in Hbody as (funds & Hfd & Hbody).
  apply bind_Returned in Hbody as (deposits & Hd & Hbody).
  apply bind_Returned in Hbody as (total & Ht & Hbody).
  apply bind_Returned in Hbody as (total' & Ht' & Hbody).
  apply bind_Returned in Hbody as (ss & Hss & Hbody).
  apply bind_Returned in Hbody as (sf & Hsf & Hbody).
  apply bind_Returned in Hbody as (sd & Hsd & Hbody).
  apply Returned_eq in Hbody. subst st'.
  assert (Hstocks : class_selection ea
            (fun l => offered (get_or st "market_data" (VDict ∅)) "stocks" = Returned l)
            by_market_cap 5 default_stock stocks).
  { eapply select_class_selection; [lia| |exact Hs0|exact Hs]. auto. }
  assert (Hfunds : class_selection fa
            (fun l => exists funds,
                 offered (get_or st "market_data" (VDict ∅)) "mutual_funds"
                   = Returned funds /\ l = List.filter is_debt funds)
            by_returns_5y 3 default_mutual_fund funds).
  { eapply select_class_selection; [lia| |exact Hf0|exact Hfd].
    intros l Hl.
    apply bind_Returned in Hl as (raw & Hraw & Hl).
    apply bind_Returned in Hl as (all & Hall & Hl).
    exists all. split; [|now apply debt_funds_filter].
    unfold offered. now rewrite Hraw. }
  assert (Hdeposits : class_selection ca
            (fun l => offered (get_or st "market_data" (VDict ∅)) "fixed_deposits"
                      = Returned l)
            (by_interest_rate E) 3 default_fixed_deposit deposits).
  { eapply select_class_selection; [lia| |exact Hd0|exact Hd]. auto. }
  exists mi, ea, fa, ca, stocks, funds, deposits, total'.
  split; [|split; [|repeat split]].
  - rewrite <- Hprofile in Hmi. exists e, f, c, e', f', c'. repeat split; assumption.
  - rewrite !lookup_insert_ne by discriminate. apply lookup_insert_eq.
  - exact Hstocks.
  - exact Hfunds.
  - exact Hdeposits.
  - eapply class_selection_length; [|exact Hstocks]; lia.
  - eapply class_selection_length; [|exact Hfunds]; lia.
  - eapply class_selection_length; [|exact Hdeposits]; lia.
Qed.

End SelectedProducts.

(** A market with more stocks than are selected, funds of two
    categories, and no deposits. *)

Module Market.

Definition stock (symbol : string) (market_cap : value float) : value float :=
  VDict (<["symbol" := VStr symbol]> (<["market_cap" := market_cap]> ∅)).

Definition fund (scheme_name category : string) (returns_5y : value float)
    : value float :=
  VDict (<["scheme_name" := VStr scheme_name]>
        (<["category" := VStr category]>
        (<["returns_5y" := returns_5y]> ∅))).

Definition data : dict float :=
  <["stocks" :=
      VList [stock "TCS" (VInt 1400); stock "INFY" (VInt 650);
             stock "HDFCBANK" (VInt 1200); stock "ITC" (VInt 540);
             stock "RELIANCE" (VInt 1900); stock "SBIN" (VFloat 700.5%float)]]>
  (<["mutual_funds" :=
      VList [fund "Liquid Fund" "debt" (VFloat 7.25%float);
             fund "Bluechip Fund" "equity" (VFloat 14.5%float);
             fund "Gilt Fund" "debt" (VFloat 7.75%float)]]>
  (<["fixed_deposits" := VList []]> ∅)).

Definition collaborators : env float := {|
  user_profile_tool_run := fun _ => Sample.profile;
  market_data_tool_run := VDict data;
  now_isoformat := "2025-06-30T12:00:00";
  str_of := fun _ => "";
  float_of_text := fun _ => None;
  interpreter_text := fun _ op _ => op;
  traceback_text := fun _ => "Traceback (most recent call last):";
  llm_content := Returned "I cannot help with that.";
  json_loads := fun _ => None;
  json_dumps := fun _ => Some "{}";
  db_connect_error := None;
  db_insert_error := fun _ _ _ => None
|}.

(** The state the run reaches before the selection, and the one
    [select_investment_products] makes of it. *)
Definition before : dict float := Pipeline.reached collaborators.

Definition after : dict float :=
  result_or ∅ (select_investment_products collaborators before).

(** One field of every instrument a state holds as selected for a
    class. *)
Definition column (st : dict float) (class field : string) : list (value float) :=
  match get_or st "selected_products" VNone with
  | VDict products =>
      match get_or products class VNone with
      | VList l =>
          map (fun x => match x with
                        | VDict d => get_or d field VNone
                        | _ => VNone
                        end) l
      | _ => []
      end
  | _ => []
  end.

(** The same state with an allocation that is short on equity. *)
Definition short_on_equity : dict float :=
  <["asset_allocation" :=
      VDict (<["equity" := VFloat (-0.5)%float]>
            (<["fixed_income" := VFloat 1%float]>
            (<["cash" := VFloat 0.5%float]> ∅)))]> before.

End Market.

(** C9, amended: whenever [select_investment_products] of
    agent/functions.py reports ["products_selected"], every class whose
    amount is not positive is left empty; a class with a positive amount
    and no candidate gets its one default instrument with the whole
    amount; any other class gets the first five stocks, three debt
    funds or three deposits of its candidates ranked by market cap,
    five-year return or interest rate, largest first, each with the
    amount divided by their number and rounded to two places. *)
Theorem C9_select_investment_products_selection
    (E : env float) (st st' : dict float) :
  select_investment_products E st = Returned st' ->
  status_of st' = VStr "products_selected" ->
  selection E st st'.
Proof.
  apply select_investment_products_selection.
  - apply Binary64Order.num_lt_asym.
  - apply Binary64Order.num_not_below_trans.
Qed.

Lemma C9_witness : selection Market.collaborators Market.before Market.after.
Proof.
  apply (C9_select_investment_products_selection
           Market.collaborators Market.before Market.after).
  - apply returned_result_or. vm_compute. reflexivity.
  - vm_compute. reflexivity.
Defined.

(** The selection on that market: five of the six stocks by market
    cap, the two debt funds by return, and the default deposit. *)
Lemma market_selection :
  Market.column Market.after "stocks" "symbol"
    = [VStr "RELIANCE"; VStr "TCS"; VStr "HDFCBANK"; VStr "SBIN"; VStr "INFY"] /\
  Market.column Market.after "mutual_funds" "scheme_name"
    = [VStr "Gilt Fund"; VStr "Liquid Fund"] /\
  Market.column Market.after "fixed_deposits" "bank" = [VStr "SBI"] /\
  Market.column Market.after "stocks" "allocation_amount"
    = [VFloat 4560%float; VFloat 4560%float; VFloat 4560%float;
       VFloat 4560%float; VFloat 4560%float] /\
  Market.column Market.after "mutual_funds" "allocation_amount"
    = [VFloat 5700%float; VFloat 5700%float].
Proof. vm_compute. repeat split; reflexivity. Qed.

(** The guard of every class is [amount > 0]: an amount below zero,
    though it is not zero, selects nothing, and no default either. *)
Lemma negative_amount_selects_nothing :
  exists st',
    select_investment_products Market.collaborators Market.short_on_equity
      = Returned st' /\
    status_of st' = VStr "products_selected" /\
    Market.column st' "stocks" "allocation_amount" = [] /\
    Market.column st' "mutual_funds" "allocation_amount"
      = [VFloat 19000%float; VFloat 19000%float].
Proof.
  exists (result_or ∅
            (select_investment_products Market.collaborators Market.short_on_equity)).
  split; [apply returned_result_or; vm_compute; reflexivity|].
  repeat split; vm_compute; reflexivity.
Qed.

(** * Further properties *)

(** ** The graph of agent_code4.py *)

(** The place of a node along the run. *)
Definition position (n : node) : nat :=
  match n with
  | n_fetch_user_profile => 0
  | n_check_profile_completeness => 1
  | n_fetch_market_data => 2
  | n_preprocess_market_data => 3
  | n_calculate_emergency_fund => 4
  | n_analyze_goals_and_risk => 5
  | n_define_risk_based_allocation => 6
  | n_select_investment_products => 7
  | n_calculate_returns => 8
  | n_generate_final_recommendation => 9
  | n_save_recommendation => 10
  | n_generate_fallback_recommendation => 11
  | n_handle_error => 12
  | END => 13
  end.

Section Edges.

Context {F : Type} {PF : PyFloat F}.

Lemma unless_error_cases (a : node) (st : dict F) :
  unless_error a st = a \/ unless_error a st = n_handle_error.
Proof. unfold unless_error. destruct (negb _); auto. Qed.

Lemma only_on_cases (s : string) (a : node) (st : dict F) :
  only_on s a st = a \/ only_on s a st = n_handle_error.
Proof. unfold only_on. destruct (eq_str _ _); auto. Qed.

Lemma route_after_check_profile_cases (st : dict F) (n : node) :
  route_after_check_profile st = Returned n ->
  n = n_fetch_market_data \/ n = n_generate_fallback_recommendation \/
  n = n_handle_error.
Proof.
  unfold route_after_check_profile.
  repeat (destruct (eq_str _ _); [intros [= <-]; auto|]). discriminate.
Qed.

Lemma route_after_emergency_fund_cases (st st' : dict F) (n : node) :
  route_after_emergency_fund st = Returned (st', n) ->
  n = n_analyze_goals_and_risk \/ n = n_handle_error.
Proof.
  unfold route_after_emergency_fund.
  destruct (negb _); [intros [= _ <-]; auto|].
  destruct (st !! "monthly_investment"); [intros [= _ <-]; auto|].
  destruct (py_get _ _ _); simpl; try discriminate. intros [= _ <-]. auto.
Qed.

(** The nodes an edge can lead to. *)
Lemma next_node_cases (n n' : node) (st : dict F) :
  next_node n st = Returned n' ->
  n' = n_handle_error \/ n' = END \/
  (position n' = S (position n)) \/
  (n = n_check_profile_completeness /\ n' = n_generate_fallback_recommendation).
Proof.
  destruct n; simpl.
  - intros [= <-]. destruct (unless_error_cases n_check_profile_completeness st) as [-> | ->]; auto.
  - intros H. apply route_after_check_profile_cases in H as [-> | [-> | ->]]; auto.
  - intros [= <-]. destruct (only_on_cases "completed_with_fallback" END st) as [-> | ->]; auto.
  - intros [= <-]. destruct (unless_error_cases n_preprocess_market_data st) as [-> | ->]; auto.
  - intros [= <-].
    destruct (only_on_cases "market_data_processed" n_calculate_emergency_fund st)
      as [-> | ->]; auto.
  - destruct (route_after_emergency_fund st) as [[st' m]| |] eqn:H; simpl; try discriminate.
    intros [= <-]. apply route_after_emergency_fund_cases in H as [-> | ->]; auto.
  - intros [= <-].
    destruct (only_on_cases "risk_analyzed" n_define_risk_based_allocation st)
      as [-> | ->]; auto.
  - intros [= <-].
    destruct (only_on_cases "allocation_defined" n_select_investment_products st)
      as [-> | ->]; auto.
  - intros [= <-].
    destruct (only_on_cases "products_selected" n_calculate_returns st) as [-> | ->]; auto.
  - intros [= <-].
    destruct (only_on_cases "returns_calculated" n_generate_final_recommendation st)
      as [-> | ->]; auto.
  - intros [= <-].
    destruct (only_on_cases "recommendation_generated" n_save_recommendation st)
      as [-> | ->]; auto.
  - intros [= <-].
    destruct (only_on_cases "recommendation_saved" END st) as [-> | ->]; auto.
  - intros [= <-]. auto.
  - intros [= <-]. auto.
Qed.

Lemma next_node_forward (n n' : node) (st : dict F) :
  next_node n st = Returned n' ->
  n <> END ->
  (position n < position n' <= position END)%nat.
Proof.
  intros H Hn.
  destruct (next_node_cases n n' st H) as [-> | [-> | [Hr | [-> ->]]]].
  - destruct n; simpl in *; try lia; try discriminate.
  - destruct n; simpl; try lia. now destruct Hn.
  - destruct n'; simpl in *; lia.
  - simpl. lia.
Qed.

Lemma node_eq_END (n : node) : n = END \/ n <> END.
Proof. destruct n; auto; right; discriminate. Qed.

End Edges.

(** X1.  The graph has no cycle: every edge out of a node other than
    [END] leads to a node further along, and no node lies beyond [END];
    so a run executes at most thirteen stages, each at most once. *)
Theorem edges_lead_forward :
  forall (F : Type) (PF : PyFloat F) (n n' : node) (st : dict F),
    n <> END ->
    next_node n st = Returned n' ->
    (position n < position n' <= position END)%nat.
Proof.
  intros F PF n n' st Hn H. now apply (next_node_forward n n' st).
Qed.

Lemma edges_lead_forward_witness :
  n_check_profile_completeness <> END /\
  next_node n_check_profile_completeness
    (<["status" := VStr "profile_incomplete"]> Sample.initial)
    = Returned n_generate_fallback_recommendation /\
  (position n_check_profile_completeness < position n_generate_fallback_recommendation
     <= position END)%nat.
Proof.
  assert (H1 : n_check_profile_completeness <> END) by discriminate.
  assert (H2 : next_node n_check_profile_completeness
                 (<["status" := VStr "profile_incomplete"]> Sample.initial)
               = Returned n_generate_fallback_recommendation) by reflexivity.
  split; [exact H1|]. split; [exact H2|].
  exact (edges_lead_forward float binary64 _ _ _ H1 H2).
Defined.

(** X2.  A state whose status is ["error"] goes to [handle_error] from
    every stage, and [handle_error] goes to [END]. *)
Theorem error_status_goes_to_handle_error :
  forall (F : Type) (PF : PyFloat F) (n : node) (st : dict F),
    status_of st = VStr "error" ->
    n <> n_handle_error -> n <> END ->
    next_node n st = Returned n_handle_error /\
    next_node n_handle_error st = Returned END.
Proof.
  intros F PF n st Hs H1 H2. split; [|reflexivity].
  destruct n; simpl; unfold unless_error, only_on; rewrite ?Hs; try reflexivity.
  - unfold route_after_check_profile.
    assert (Hk : get_or st "status" (VStr "error") = VStr "error").
    { unfold status_of, get_or in *. destruct (st !! "status"); [exact Hs | reflexivity]. }
    rewrite Hk. reflexivity.
  - unfold route_after_emergency_fund. rewrite Hs. reflexivity.
  - now destruct H1.
  - now destruct H2.
Qed.

Lemma error_status_goes_to_handle_error_witness :
  let st : dict float := with_error Sample.initial "Market data error: no file" in
  status_of st = VStr "error" /\
  next_node n_fetch_market_data st = Returned n_handle_error /\
  next_node n_handle_error st = Returned END.
Proof.
  intros st.
  assert (H : status_of st = VStr "error") by reflexivity.
  split; [exact H|].
  apply (error_status_goes_to_handle_error float binary64 n_fetch_market_data st H);
    discriminate.
Defined.

(** ** check_profile_completeness *)

Section CheckedProfile.

Context {F : Type} {PF : PyFloat F}.

Lemma status_of_insert_ne (st : dict F) (k : string) (v : value F) :
  k <> "status" -> status_of (<[k := v]> st) = status_of st.
Proof. intros H. unfold status_of, get_or. now rewrite lookup_insert_ne. Qed.

(** With a status in the state, the key of the path map is that
    status. *)
Lemma route_key (st : dict F) (s : string) :
  status_of st = VStr s -> get_or st "status" (VStr "error") = VStr s.
Proof.
  unfold status_of, get_or. destruct (st !! "status"); [trivial | discriminate].
Qed.

Lemma check_profile_handler_status (E : env F) (st : dict F) (e : exn F) :
  status_of (check_profile_handler E st e)
    = VStr (match exn_cls e with ValueError => "profile_invalid" | _ => "error" end).
Proof.
  unfold check_profile_handler.
  destruct (exn_cls e);
    (rewrite status_of_insert_ne by discriminate); apply status_of_insert.
Qed.

Lemma check_profile_handler_error (E : env F) (st : dict F) (e : exn F) :
  check_profile_handler E st e !! "error"
    = Some (VStr ((match exn_cls e with
                   | ValueError => "Invalid profile data: "
                   | _ => "Error processing profile: "
                   end) ++ exn_text E e)).
Proof.
  unfold check_profile_handler. destruct (exn_cls e); apply lookup_insert_eq.
Qed.

Lemma check_profile_handler_ne (E : env F) (st : dict F) (e : exn F) (k : string) :
  k <> "error" -> k <> "status" ->
  check_profile_handler E st e !! k = st !! k.
Proof.
  intros H1 H2. unfold check_profile_handler.
  destruct (exn_cls e); now rewrite !lookup_insert_ne by congruence.
Qed.

(** The four statuses the stage can report. *)
Definition check_profile_statuses : list string :=
  ["profile_valid"; "profile_incomplete"; "profile_invalid"; "error"].

Lemma check_profile_completeness_status (E : env F) (st st' : dict F) :
  check_profile_completeness E st = Returned st' ->
  exists s, In s check_profile_statuses /\ status_of st' = VStr s.
Proof.
  assert (Herr : forall msg, exists s,
            In s check_profile_statuses /\ status_of (with_error st msg) = VStr s).
  { intros msg. exists "error". split; [simpl; tauto | apply status_of_with_error]. }
  assert (Hh : forall st0 e, exists s,
            In s check_profile_statuses /\
            status_of (check_profile_handler E st0 e) = VStr s).
  { intros st0 e. eexists. split; [|apply check_profile_handler_status].
    destruct (exn_cls e); simpl; tauto. }
  unfold check_profile_completeness.
  destruct (get_or st "user_profile" (VDict ∅)) as [|b|z|f|s|l|profile];
    try (intros H; apply Returned_eq in H; subst st'; apply Herr).
  destruct (List.filter (absent_or_none profile) required_fields).
  2:{ intros H. apply Returned_eq in H. subst st'. exists "profile_incomplete".
      split; [simpl; tauto|].
      rewrite !status_of_insert_ne by discriminate. apply status_of_insert. }
  match goal with |- match ?m with _ => _ end = _ -> _ => destruct m as [s|e|] end;
    [| |discriminate].
  - cbv zeta. destruct (risk_mapping !! _).
    + intros H. apply Returned_eq in H. subst st'. exists "profile_valid".
      split; [simpl; tauto | apply status_of_insert].
    + intros H. apply Returned_eq in H. subst st'. apply Hh.
  - intros H. apply Returned_eq in H. subst st'. apply Hh.
Qed.

End CheckedProfile.

(** X3.  Whatever [check_profile_completeness] returns has an edge in
    the path map of agent_code4.py: its status is one of the four keys,
    so the lookup never fails, and the run goes on to
    [fetch_market_data], to the fallback or to [handle_error]. *)
Theorem check_profile_completeness_has_edge :
  forall (F : Type) (PF : PyFloat F) (E : env F) (st st' : dict F),
    check_profile_completeness E st = Returned st' ->
    (status_of st' = VStr "profile_valid" /\
     next_node n_check_profile_completeness st' = Returned n_fetch_market_data) \/
    ((status_of st' = VStr "profile_incomplete" \/
      status_of st' = VStr "profile_invalid") /\
     next_node n_check_profile_completeness st'
       = Returned n_generate_fallback_recommendation) \/
    (status_of st' = VStr "error" /\
     next_node n_check_profile_completeness st' = Returned n_handle_error).
Proof.
  intros F PF E st st' H.
  destruct (check_profile_completeness_status E st st' H) as (s & Hin & Hs).
  simpl. unfold route_after_check_profile. rewrite (route_key st' s Hs).
  simpl in Hin. destruct Hin as [<- | [<- | [<- | [<- | []]]]]; simpl; auto 10.
Qed.

Lemma check_profile_completeness_has_edge_witness :
  let st := <["user_profile" := VDict Sample.profile]> Sample.initial in
  let st' := result_or ∅ (check_profile_completeness Sample.environment st) in
  check_profile_completeness Sample.environment st = Returned st' /\
  ((status_of st' = VStr "profile_valid" /\
    next_node n_check_profile_completeness st' = Returned n_fetch_market_data) \/
   ((status_of st' = VStr "profile_incomplete" \/
     status_of st' = VStr "profile_invalid") /\
    next_node n_check_profile_completeness st'
      = Returned n_generate_fallback_recommendation) \/
   (status_of st' = VStr "error" /\
    next_node n_check_profile_completeness st' = Returned n_handle_error)).
Proof.
  intros st st'.
  assert (H : check_profile_completeness Sample.environment st = Returned st')
    by (apply returned_result_or; vm_compute; reflexivity).
  split; [exact H|].
  exact (check_profile_completeness_has_edge float binary64 Sample.environment st st' H).
Defined.

Section ValidProfile.

Context {F : Type} {PF : PyFloat F}.

Lemma convertible_complete (E : env F) (profile : dict F) (income expenses : F)
    (appetite : value F) :
  convertible E profile income expenses appetite ->
  List.filter (absent_or_none profile) required_fields = [].
Proof.
  intros ((vi & Hi & Hfi) & (ve & He & Hfe) & Hr & Hn & Hh).
  pose proof (present_not_none _ _ _ Hi (py_float_not_none E _ _ Hfi)) as H1.
  pose proof (present_not_none _ _ _ He (py_float_not_none E _ _ Hfe)) as H2.
  pose proof (present_not_none _ _ _ Hr Hn) as H3.
  unfold required_fields. cbn [List.filter]. now rewrite H1, H2, H3, Hh.
Qed.

(** [check_profile_completeness] on a profile whose appetite is a key
    of [risk_mapping]. *)
Lemma check_profile_completeness_valid
    (E : env F) (st profile : dict F) (income expenses : F) (appetite : value F)
    (tier : string) :
  st !! "user_profile" = Some (VDict profile) ->
  convertible E profile income expenses appetite ->
  risk_mapping !! lower (strip (py_str E appetite)) = Some tier ->
  check_profile_completeness E st
    = Returned
        (<["status" := VStr "profile_valid"]>
        (<["user_profile" :=
            VDict (<["risk_appetite" := VStr tier]>
                     (profile_with_savings profile income expenses))]> st)).
Proof.
  intros Hp Hc Hrisk.
  pose proof (convertible_complete E profile income expenses appetite Hc) as Hf.
  destruct Hc as ((vi & Hi & Hfi) & (ve & He & Hfe) & Hr & Hn & Hh).
  unfold check_profile_completeness.
  rewrite (get_or_Some _ _ _ _ Hp), Hf.
  unfold py_item. rewrite Hi.
  cbn [mbind outcome_bind bind]. rewrite Hfi.
  cbn [mbind outcome_bind bind]. rewrite He.
  cbn [mbind outcome_bind bind]. rewrite Hfe.
  cbn [mbind outcome_bind bind]. rewrite calculate_savings_floats.
  rewrite savings_truthy.
  fold (profile_with_savings profile income expenses).
  rewrite (get_or_Some _ "risk_appetite" appetite)
    by (rewrite profile_with_savings_risk_appetite; exact Hr).
  rewrite Hrisk. reflexivity.
Qed.

(** The three derived fields overwrite whatever the profile held under
    their names. *)
Lemma profile_with_savings_derived (profile : dict F) (income expenses : F) (k : string) :
  In k ["emergency_fund"; "monthly_investment"; "disposable_income"] ->
  profile_with_savings profile income expenses !! k = savings income expenses !! k.
Proof.
  intros Hk. unfold profile_with_savings.
  assert (Hs : is_Some (savings income expenses !! k)).
  { simpl in Hk. destruct Hk as [<- | [<- | [<- | []]]]; eexists; reflexivity. }
  assert (H : (savings income expenses ∪ profile) !! k = savings income expenses !! k).
  { destruct Hs as (v & Hv). rewrite Hv. now apply lookup_union_Some_l. }
  destruct (negb _); [|exact H].
  rewrite lookup_insert_ne; [exact H|].
  simpl in Hk. destruct Hk as [<- | [<- | [<- | []]]]; discriminate.
Qed.

Lemma risk_mapping_tiers (s tier : string) :
  risk_mapping !! s = Some tier ->
  (s = "low" /\ tier = "Low") \/ (s = "medium" /\ tier = "Medium") \/
  (s = "high" /\ tier = "High").
Proof.
  unfold risk_mapping. intros H.
  apply lookup_insert_Some in H as [[<- <-] | [_ H]]; [auto|].
  apply lookup_insert_Some in H as [[<- <-] | [_ H]]; [auto|].
  apply lookup_insert_Some in H as [[<- <-] | [_ H]]; [auto|].
  now rewrite lookup_empty in H.
Qed.

End ValidProfile.

(** X4.  A complete profile whose risk appetite is low, medium or high
    in any letter case and with any white space around it is valid:
    [check_profile_completeness] stores the appetite as ["Low"],
    ["Medium"] or ["High"], writes the disposable income, five per cent
    of it as emergency fund and the rest as monthly investment into the
    profile, whatever the sign of the disposable income, touches no other
    field of the state, and the run goes on with [fetch_market_data]. *)
Theorem valid_profile_is_normalised :
  forall (F : Type) (PF : PyFloat F) (E : env F) (st profile : dict F)
         (income expenses : F) (appetite : value F) (tier : string),
    st !! "user_profile" = Some (VDict profile) ->
    convertible E profile income expenses appetite ->
    risk_mapping !! lower (strip (py_str E appetite)) = Some tier ->
    exists st' profile',
      check_profile_completeness E st = Returned st' /\
      status_of st' = VStr "profile_valid" /\
      next_node n_check_profile_completeness st' = Returned n_fetch_market_data /\
      st' !! "user_profile" = Some (VDict profile') /\
      (forall k, k <> "user_profile" -> k <> "status" -> st' !! k = st !! k) /\
      profile' !! "risk_appetite" = Some (VStr tier) /\
      In tier ["Low"; "Medium"; "High"] /\
      let disposable_income := f_sub income expenses in
      let emergency_fund := f_mul (f_dec 5 (-2)) disposable_income in
      profile' !! "disposable_income" = Some (VFloat disposable_income) /\
      profile' !! "emergency_fund" = Some (VFloat emergency_fund) /\
      profile' !! "monthly_investment"
        = Some (VFloat (f_sub disposable_income emergency_fund)).
Proof.
  intros F PF E st profile income expenses appetite tier Hp Hc Hrisk.
  eexists _, _.
  split; [exact (check_profile_completeness_valid E st profile income expenses
                   appetite tier Hp Hc Hrisk)|].
  split; [apply status_of_insert|].
  split. { simpl. unfold route_after_check_profile.
           rewrite (get_or_Some _ "status" (VStr "profile_valid"))
             by apply lookup_insert_eq. reflexivity. }
  split. { rewrite lookup_insert_ne by discriminate. apply lookup_insert_eq. }
  split. { intros k H1 H2. now rewrite !lookup_insert_ne by congruence. }
  split; [apply lookup_insert_eq|].
  split. { apply risk_mapping_tiers in Hrisk as [[_ ->] | [[_ ->] | [_ ->]]];
           simpl; tauto. }
  cbv zeta.
  rewrite !lookup_insert_ne by discriminate.
  rewrite !profile_with_savings_derived by (simpl; tauto).
  repeat split; reflexivity.
Qed.

Lemma valid_profile_is_normalised_witness :
  let profile :=
    <["risk_appetite" := VStr "  HIGH "]>
    (<["monthly_income" := VFloat 40000%float]> Sample.profile) in
  let st := <["user_profile" := VDict profile]> Sample.initial in
  st !! "user_profile" = Some (VDict profile) /\
  convertible Sample.environment profile 40000%float 60000%float (VStr "  HIGH ") /\
  risk_mapping !! lower (strip "  HIGH ") = Some "High" /\
  exists st' profile',
    check_profile_completeness Sample.environment st = Returned st' /\
    status_of st' = VStr "profile_valid" /\
    next_node n_check_profile_completeness st' = Returned n_fetch_market_data /\
    st' !! "user_profile" = Some (VDict profile') /\
    (forall k, k <> "user_profile" -> k <> "status" -> st' !! k = st !! k) /\
    profile' !! "risk_appetite" = Some (VStr "High") /\
    In "High" ["Low"; "Medium"; "High"] /\
    profile' !! "disposable_income" = Some (VFloat (-20000)%float) /\
    profile' !! "emergency_fund" = Some (VFloat (-1000)%float) /\
    profile' !! "monthly_investment" = Some (VFloat (-19000)%float).
Proof.
  intros profile st.
  assert (H1 : st !! "user_profile" = Some (VDict profile)) by reflexivity.
  assert (H2 : convertible Sample.environment profile 40000%float 60000%float
                 (VStr "  HIGH ")).
  { repeat split; try (eexists; split; reflexivity); try reflexivity; discriminate. }
  assert (H3 : risk_mapping !! lower (strip "  HIGH ") = Some "High") by reflexivity.
  split; [exact H1|]. split; [exact H2|]. split; [exact H3|].
  exact (valid_profile_is_normalised float binary64 Sample.environment st profile
           40000%float 60000%float (VStr "  HIGH ") "High" H1 H2 H3).
Defined.

Section FetchedProfile.

Context {F : Type} {PF : PyFloat F}.

(** What [fetch_user_profile] hands on when it does not report an
    error: the row of the tool, with its three required fields. *)
Lemma fetch_user_profile_success (E : env F) (st st1 : dict F) :
  fetch_user_profile E st = Returned st1 ->
  status_of st1 <> VStr "error" ->
  exists data,
    st1 = <["status" := VStr "success"]> (<["user_profile" := VDict data]> st) /\
    List.filter (absent_or_none data) fetch_required_fields = [].
Proof.
  unfold fetch_user_profile.
  destruct (negb _).
  { intros H Hs. apply Returned_eq in H. subst st1.
    now rewrite status_of_with_error in Hs. }
  destruct (_ !! "error").
  { intros H Hs. apply Returned_eq in H. subst st1.
    now rewrite status_of_with_error in Hs. }
  destruct (List.filter _ fetch_required_fields) eqn:Hf.
  - intros H _. apply Returned_eq in H. subst st1. eexists. split; [reflexivity | exact Hf].
  - intros H Hs. apply Returned_eq in H. subst st1.
    now rewrite status_of_with_error in Hs.
Qed.

(** With nothing missing the stage does not report
    ["profile_incomplete"]. *)
Lemma check_profile_completeness_complete (E : env F) (st st' profile : dict F) :
  st !! "user_profile" = Some (VDict profile) ->
  List.filter (absent_or_none profile) required_fields = [] ->
  check_profile_completeness E st = Returned st' ->
  status_of st' <> VStr "profile_incomplete".
Proof.
  intros Hp Hf. unfold check_profile_completeness.
  rewrite (get_or_Some _ _ _ _ Hp), Hf.
  match goal with |- match ?m with _ => _ end = _ -> _ => destruct m as [s|e|] end;
    [| |discriminate].
  - cbv zeta. destruct (risk_mapping !! _).
    + intros H. apply Returned_eq in H. subst st'. now rewrite status_of_insert.
    + intros H. apply Returned_eq in H. subst st'.
      rewrite check_profile_handler_status. discriminate.
  - intros H. apply Returned_eq in H. subst st'.
    rewrite check_profile_handler_status. now destruct (exn_cls e).
Qed.

End FetchedProfile.

(** X5.  A complete profile whose income [float] refuses is reported
    according to the exception: text that is no number (a [ValueError])
    gives ["profile_invalid"] and the fallback; any other value, a list
    or an integer too large for a float, gives ["error"] and
    [handle_error].  Either way the message carries the interpreter's
    text and the profile is left as it was. *)
Theorem income_that_is_no_number :
  forall (F : Type) (PF : PyFloat F) (E : env F) (st profile : dict F)
         (income : value F) (e : exn F),
    st !! "user_profile" = Some (VDict profile) ->
    List.filter (absent_or_none profile) required_fields = [] ->
    profile !! "monthly_income" = Some income ->
    py_float E income = Raised e ->
    exists st',
      check_profile_completeness E st = Returned st' /\
      st' !! "user_profile" = Some (VDict profile) /\
      ((exn_cls e = ValueError /\
        status_of st' = VStr "profile_invalid" /\
        st' !! "error" = Some (VStr ("Invalid profile data: " ++ exn_text E e)) /\
        next_node n_check_profile_completeness st'
          = Returned n_generate_fallback_recommendation) \/
       (exn_cls e <> ValueError /\
        status_of st' = VStr "error" /\
        st' !! "error" = Some (VStr ("Error processing profile: " ++ exn_text E e)) /\
        next_node n_check_profile_completeness st' = Returned n_handle_error)).
Proof.
  intros F PF E st profile income e Hp Hf Hi He.
  exists (check_profile_handler E st e).
  split.
  { unfold check_profile_completeness.
    rewrite (get_or_Some _ _ _ _ Hp), Hf. unfold py_item. rewrite Hi.
    cbn [mbind outcome_bind bind]. rewrite He. reflexivity. }
  split. { rewrite check_profile_handler_ne by discriminate. exact Hp. }
  pose proof (check_profile_handler_status E st e) as Hs.
  pose proof (check_profile_handler_error E st e) as Hm.
  simpl. unfold route_after_check_profile.
  destruct (exn_cls e) eqn:Hc;
    rewrite (route_key _ _ Hs);
    solve [left; repeat split; assumption
          |right; repeat split; try assumption; discriminate].
Qed.

Lemma income_that_is_no_number_witness :
  let profile := <["monthly_income" := VStr "a lot"]> Sample.profile in
  let st := <["user_profile" := VDict profile]> Sample.initial in
  let e := Exn ValueError (FromInterpreter "float" [VStr "a lot"]) in
  st !! "user_profile" = Some (VDict profile) /\
  List.filter (absent_or_none profile) required_fields = [] /\
  profile !! "monthly_income" = Some (VStr "a lot") /\
  py_float Sample.environment (VStr "a lot") = Raised e /\
  exists st',
    check_profile_completeness Sample.environment st = Returned st' /\
    st' !! "user_profile" = Some (VDict profile) /\
    ((exn_cls e = ValueError /\
      status_of st' = VStr "profile_invalid" /\
      st' !! "error"
        = Some (VStr ("Invalid profile data: " ++ exn_text Sample.environment e)) /\
      next_node n_check_profile_completeness st'
        = Returned n_generate_fallback_recommendation) \/
     (exn_cls e <> ValueError /\
      status_of st' = VStr "error" /\
      st' !! "error"
        = Some (VStr ("Error processing profile: " ++ exn_text Sample.environment e)) /\
      next_node n_check_profile_completeness st' = Returned n_handle_error)).
Proof.
  intros profile st e.
  assert (H1 : st !! "user_profile" = Some (VDict profile)) by reflexivity.
  assert (H2 : List.filter (absent_or_none profile) required_fields = [])
    by reflexivity.
  assert (H3 : profile !! "monthly_income" = Some (VStr "a lot")) by reflexivity.
  assert (H4 : py_float Sample.environment (VStr "a lot") = Raised e) by reflexivity.
  repeat (split; [assumption|]).
  exact (income_that_is_no_number float binary64 Sample.environment st profile
           (VStr "a lot") e H1 H2 H3 H4).
Defined.

Section Fallback.

Context {F : Type} {PF : PyFloat F}.

(** The four ways [check_profile_completeness] returns. *)
Lemma check_profile_completeness_cases (E : env F) (st st' : dict F) :
  check_profile_completeness E st = Returned st' ->
  st' = with_error st "Invalid profile data format" \/
  (exists f fs,
     st' = <["error" := VStr ("Missing required fields: " ++ join ", " (f :: fs))]>
           (<["missing_fields" := VList (map VStr (f :: fs))]>
           (<["status" := VStr "profile_incomplete"]> st))) \/
  (exists e, st' = check_profile_handler E st e) \/
  (exists profile' e,
     st' = check_profile_handler E (<["user_profile" := VDict profile']> st) e) \/
  (exists profile',
     st' = <["status" := VStr "profile_valid"]>
           (<["user_profile" := VDict profile']> st)).
Proof.
  unfold check_profile_completeness.
  destruct (get_or st "user_profile" (VDict ∅)) as [|b|z|f|s|l|profile];
    try (intros H; apply Returned_eq in H; subst st'; now left).
  destruct (List.filter (absent_or_none profile) required_fields) as [|f fs].
  2:{ intros H. apply Returned_eq in H. subst st'. right. left. now exists f, fs. }
  match goal with |- match ?m with _ => _ end = _ -> _ => destruct m as [s|e|] end;
    [| |discriminate].
  - cbv zeta. destruct (risk_mapping !! _).
    + intros H. apply Returned_eq in H. subst st'. do 4 right. now eexists.
    + intros H. apply Returned_eq in H. subst st'. do 3 right. left. now eexists _, _.
  - intros H. apply Returned_eq in H. subst st'. do 2 right. left. now eexists.
Qed.

End Fallback.

(** ** calculate_returns *)

Section ExactReturns.

Local Open Scope Q_scope.

(** The number a share stands for. *)
Definition exact_share (v : value Q) : option Q :=
  match as_num v with
  | Some (NInt z) => Some (inject_Z z)
  | Some (NFloat q) => Some q
  | None => None
  end.

Lemma exact_amount (a : Q) (v : value Q) (q : Q) :
  exact_share v = Some q ->
  exists r, py_mul (VFloat a) v = Returned (VFloat r) /\ r == a * q.
Proof.
  unfold exact_share. destruct v as [|b|z|x|s|l|d]; simpl; try discriminate.
  - intros [= <-]. eexists. split; [reflexivity|]. apply Qred_correct.
  - intros [= <-]. eexists. split; [reflexivity|]. apply Qred_correct.
  - intros [= <-]. eexists. split; [reflexivity|]. apply Qred_correct.
Qed.

Lemma exact_product (a b : Q) :
  exists r, py_mul (F := Q) (VFloat a) (VFloat b) = Returned (VFloat r) /\ r == a * b.
Proof. eexists. split; [reflexivity|]. apply Qred_correct. Qed.

Lemma exact_sum (a b : Q) :
  exists r, py_add (F := Q) (VFloat a) (VFloat b) = Returned (VFloat r) /\ r == a + b.
Proof. eexists. split; [reflexivity|]. apply Qred_correct. Qed.

Lemma exact_positive (a : Q) :
  0 < a ->
  is_le (f_cmp_int a 0) = false /\ is_gt (f_cmp_int a 0) = true /\
  f_is_zero a = false.
Proof.
  intros H. cbn [f_cmp_int f_is_zero exact]. change (inject_Z 0) with 0.
  pose proof H as Hgt. apply Qgt_alt in Hgt. rewrite Hgt.
  repeat split. apply not_true_is_false. intros Hz. apply Qeq_bool_iff in Hz. lra.
Qed.

End ExactReturns.

(** A state that holds a monthly investment and an allocation, over the
    rationals. *)
Module ExactSample.

Definition environment : env Q := {|
  user_profile_tool_run := fun _ => ∅;
  market_data_tool_run := VDict ∅;
  now_isoformat := "2025-06-30T12:00:00";
  str_of := fun _ => "";
  float_of_text := fun _ => None;
  interpreter_text := fun _ op _ => op;
  traceback_text := fun _ => "Traceback (most recent call last):";
  llm_content := Returned "I cannot help with that.";
  json_loads := fun _ => None;
  json_dumps := fun _ => Some "{}";
  db_connect_error := None;
  db_insert_error := fun _ _ _ => None
|}.

Definition allocated : dict Q :=
  <["monthly_investment" := VFloat (38000 # 1)]>
  (<["asset_allocation" := VDict (medium_allocation environment)]> ∅).

End ExactSample.



(** X7.  Without a positive monthly investment [calculate_returns]
    reports an error and the run goes to [handle_error]: the amount is
    the state's, or else the profile's, or else zero, and zero is
    refused like any amount that is not above it. *)
Theorem returns_need_a_positive_amount :
  forall (F : Type) (PF : PyFloat F) (E : env F) (st : dict F)
         (stated : value F) (monthly_investment : F),
    stated_investment st = Returned stated ->
    py_float E stated = Returned monthly_investment ->
    is_le (f_cmp_int monthly_investment 0) = true ->
    exists st',
      calculate_returns E st = Returned st' /\
      status_of st' = VStr "error" /\
      st' !! "error"
        = Some (VStr ("Error calculating returns: "
                      ++ "No monthly investment amount available for return calculation")) /\
      st' !! "projected_returns" = st !! "projected_returns" /\
      next_node n_calculate_returns st' = Returned n_handle_error.
Proof.
  intros F PF E st stated mi Hs Hf Hle.
  eexists. split.
  { unfold calculate_returns, calculate_returns_body.
    rewrite Hs. cbn [mbind outcome_bind bind]. rewrite Hf.
    cbn [mbind outcome_bind bind]. rewrite Hle. reflexivity. }
  split; [apply status_of_with_error|].
  split. { unfold with_error. rewrite lookup_insert_ne by discriminate.
           apply lookup_insert_eq. }
  split. { unfold with_error. now rewrite !lookup_insert_ne by discriminate. }
  simpl. unfold only_on. now rewrite status_of_with_error.
Qed.

Lemma returns_need_a_positive_amount_witness :
  stated_investment Sample.initial = Returned (VInt 0) /\
  py_float Sample.environment (VInt 0) = Returned 0%float /\
  is_le (f_cmp_int 0%float 0) = true /\
  exists st',
    calculate_returns Sample.environment Sample.initial = Returned st' /\
    status_of st' = VStr "error" /\
    st' !! "error"
      = Some (VStr ("Error calculating returns: "
                    ++ "No monthly investment amount available for return calculation")) /\
    st' !! "projected_returns" = Sample.initial !! "projected_returns" /\
    next_node n_calculate_returns st' = Returned n_handle_error.
Proof.
  assert (H1 : stated_investment Sample.initial = Returned (VInt 0 : value float))
    by reflexivity.
  assert (H2 : py_float Sample.environment (VInt 0) = Returned 0%float)
    by (vm_compute; reflexivity).
  assert (H3 : is_le (f_cmp_int 0%float 0) = true) by (vm_compute; reflexivity).
  split; [exact H1|]. split; [exact H2|]. split; [exact H3|].
  exact (returns_need_a_positive_amount float binary64 Sample.environment
           Sample.initial (VInt 0) 0%float H1 H2 H3).
Defined.

(** ** generate_final_recommendation *)

Section FinalFailures.

Context {F : Type} {PF : PyFloat F}.

Lemma py_float_modelled (E : env F) (v : value F) : py_float E v <> Unmodelled.
Proof.
  destruct v as [|b|z|f|s|l|d]; simpl; try discriminate.
  - unfold int_to_float. now destruct (f_of_int _).
  - unfold int_to_float. now destruct (f_of_int _).
  - now destruct (float_of_text E s).
Qed.

Lemma status_of_final_failure (E : env F) (st : dict F) (e : exn F) :
  status_of (final_failure E st e) = VStr "error".
Proof. apply status_of_with_error. Qed.

Lemma final_failure_ne (E : env F) (st : dict F) (e : exn F) (k : string) :
  k <> "error" -> k <> "status" -> final_failure E st e !! k = st !! k.
Proof.
  intros H1 H2. unfold final_failure, with_error.
  now rewrite !lookup_insert_ne by congruence.
Qed.

(** The instruments the stage works with when the state holds some. *)
Lemma final_amounts_own (E : env F) (st : dict F) (v : value F) :
  st !! "suggested_instruments" = Some v ->
  (exists e, final_amounts E st = Raised e) \/
  (exists profile emergency_fund monthly_investment,
     final_amounts E st
       = Returned (profile, emergency_fund, monthly_investment, (v, true))).
Proof.
  intros Hv. unfold final_amounts, suggested_source. rewrite Hv.
  destruct (get_or st "user_profile" (VDict ∅)) as [|b|z|f|s|l|profile];
    try (left; eexists; reflexivity).
  destruct (py_float E (get_or st "emergency_fund" (VInt 0))) as [ef|e|] eqn:H1;
    [|left; eexists; reflexivity|now destruct (py_float_modelled _ _ H1)].
  cbn [mbind outcome_bind bind].
  destruct (py_float E (get_or profile "monthly_investment" (VInt 0)))
    as [mi|e|] eqn:H2;
    [|left; eexists; reflexivity|now destruct (py_float_modelled _ _ H2)].
  cbn [mbind outcome_bind bind].
  destruct (is_le (f_cmp_int mi 0)); [|right; now eexists _, _, _].
  destruct (py_float E (get_or profile "monthly_income" (VInt 0)))
    as [a|e|] eqn:H3;
    [|left; eexists; reflexivity|now destruct (py_float_modelled _ _ H3)].
  cbn [mbind outcome_bind bind].
  destruct (py_float E (get_or profile "monthly_expenses" (VInt 0)))
    as [b|e|] eqn:H4;
    [|left; eexists; reflexivity|now destruct (py_float_modelled _ _ H4)].
  right. now eexists _, _, _.
Qed.

(** With no instrument at all the body reads a variable that only the
    other branch binds. *)
Lemma final_products_unbound (E : env F) (st : dict F) (monthly_investment : F)
    (asset_allocation : value F) (instruments : dict F) :
  any_value instruments = false ->
  exists e, final_products E st monthly_investment asset_allocation instruments
            = Raised e.
Proof.
  intros Hany. unfold final_products. rewrite Hany.
  destruct (json_dumps E (VDict instruments)); eexists; reflexivity.
Qed.

Lemma no_instruments_fails (E : env F) (N : number_formats F)
    (st instruments : dict F) :
  st !! "suggested_instruments" = Some (VDict instruments) ->
  any_value (with_three_lists instruments) = false ->
  exists st0 e,
    generate_final_recommendation E N st = Returned (final_failure E st0 e) /\
    st0 !! "recommendation" = st !! "recommendation".
Proof.
  intros Hd Hany. unfold generate_final_recommendation.
  destruct (final_amounts_own E st _ Hd) as [(e & ->) | (p & ef & mi & ->)].
  - now exists st, e.
  - cbn [attempt]. unfold final_selection.
    match goal with
    | |- context [final_products E ?s mi ?a _] =>
        destruct (final_products_unbound E s mi a (with_three_lists instruments) Hany)
          as (e & ->)
    end.
    eexists _, e. split; [reflexivity|].
    now rewrite lookup_insert_ne by discriminate.
Qed.

End FinalFailures.

Module Texts.

(** Formats that write every number the same way. *)
Definition plain : number_formats float := {|
  grouped2 := fun _ => "1,234.56";
  fixed1 := fun _ => "12.3";
  fixed2 := fun _ => "1.23"
|}.

End Texts.

(** X8.  When the state's suggested instruments hold nothing, no
    stock, fund or deposit and no other entry that counts as true,
    [generate_final_recommendation] does not write an empty
    recommendation: it fails on a variable that is bound only when there
    are instruments, reports ["error"], leaves the recommendation of the
    state alone, and the run goes to [handle_error]. *)
Theorem no_instruments_no_recommendation :
  forall (F : Type) (PF : PyFloat F) (E : env F) (N : number_formats F)
         (st instruments : dict F),
    st !! "suggested_instruments" = Some (VDict instruments) ->
    any_value (with_three_lists instruments) = false ->
    exists st',
      generate_final_recommendation E N st = Returned st' /\
      status_of st' = VStr "error" /\
      is_Some (st' !! "error") /\
      st' !! "recommendation" = st !! "recommendation" /\
      next_node n_generate_final_recommendation st' = Returned n_handle_error.
Proof.
  intros F PF E N st d Hd Hany.
  destruct (no_instruments_fails E N st d Hd Hany) as (st0 & e & H & H0).
  eexists. split; [exact H|].
  split; [apply status_of_final_failure|].
  split. { unfold final_failure, with_error.
           rewrite lookup_insert_ne by discriminate.
           rewrite lookup_insert_eq. now eexists. }
  split. { now rewrite final_failure_ne by discriminate. }
  simpl. unfold only_on. now rewrite status_of_final_failure.
Qed.

Lemma no_instruments_no_recommendation_witness :
  let st := result_or ∅ (calculate_returns Sample.environment
                           (Pipeline.selected Sample.environment)) in
  st !! "suggested_instruments" = Some (VDict no_instruments) /\
  any_value (with_three_lists (no_instruments (F := float))) = false /\
  exists st',
    generate_final_recommendation Sample.environment Texts.plain st = Returned st' /\
    status_of st' = VStr "error" /\
    is_Some (st' !! "error") /\
    st' !! "recommendation" = st !! "recommendation" /\
    next_node n_generate_final_recommendation st' = Returned n_handle_error.
Proof.
  intros st.
  assert (H1 : st !! "suggested_instruments" = Some (VDict no_instruments))
    by (vm_compute; reflexivity).
  assert (H2 : any_value (with_three_lists (no_instruments (F := float))) = false)
    by (vm_compute; reflexivity).
  split; [exact H1|]. split; [exact H2|].
  exact (no_instruments_no_recommendation float binary64 Sample.environment
           Texts.plain st no_instruments H1 H2).
Defined.

Section SkippedInstruments.

Context {F : Type} {PF : PyFloat F}.

(** An entry the loops of the stage leave out: no JSON object, or one
    whose allocation percentage [float] refuses. *)
Definition unusable (E : env F) (x : value F) : Prop :=
  match x with
  | VDict item =>
      exists e, py_float E (get_or item "allocation_percentage" (VInt 0)) = Raised e
  | _ => True
  end.

Lemma bound {A B} (m : outcome F A) (k : A -> outcome F B) (r : B) :
  m ≫= k = Returned r -> exists x, m = Returned x /\ k x = Returned r.
Proof. destruct m as [x|e|]; simpl; try discriminate. eauto. Qed.

Lemma mapM_each {A B} (f : A -> outcome F B) (l : list A) (r : list B) (x : A) :
  mapM f l = Returned r -> In x l -> exists y, f x = Returned y.
Proof.
  revert r. induction l as [|a l IH]; intros r; simpl; [contradiction|].
  intros H Hin. apply bound in H as (y & Hy & H).
  apply bound in H as (ys & Hys & _).
  destruct Hin as [<- | Hin]; eauto.
Qed.

(** The body of the loop over the entries of a class. *)
Definition processed (E : env F) (monthly_investment : F) (k : string)
    : value F -> outcome F (value F) :=
  if String.eqb k "stocks" then processed_stock E monthly_investment
  else if String.eqb k "mutual_funds" then processed_fund E monthly_investment
  else processed_deposit E monthly_investment.

Lemma processed_unusable (E : env F) (mi : F) (k : string) (x : value F) :
  unusable E x -> exists e, processed E mi k x = Raised e.
Proof.
  intros Hu. unfold processed.
  destruct (String.eqb k "stocks"); [|destruct (String.eqb k "mutual_funds")];
    unfold processed_stock, processed_fund, processed_deposit;
    (destruct x as [|b|z|f|s|l|item]; [eexists; reflexivity ..|]);
    destruct Hu as (e & He); cbn [py_get mbind outcome_bind bind]; rewrite He;
    eexists; reflexivity.
Qed.

Lemma final_stock_unusable (E : env F) (stock x y : value F) :
  unusable E x -> final_stock E stock x <> Returned y.
Proof.
  unfold final_stock. destruct x as [|b|z|f|s|l|item]; simpl; try discriminate.
  intros (e & He).
  destruct (py_get stock "symbol" (VStr "Stock")); simpl; try discriminate.
  now rewrite He.
Qed.

Lemma final_fund_unusable (E : env F) (x y : value F) :
  unusable E x -> final_fund E x <> Returned y.
Proof.
  unfold final_fund. destruct x as [|b|z|f|s|l|item]; simpl; try discriminate.
  intros (e & He). now rewrite He.
Qed.

Lemma final_deposit_unusable (E : env F) (x y : value F) :
  unusable E x -> final_deposit E x <> Returned y.
Proof.
  unfold final_deposit. destruct x as [|b|z|f|s|l|item]; simpl; try discriminate.
  intros (e & He).
  destruct (py_int _); simpl; try discriminate.
  destruct (py_float E (get_or item "interest_rate" _)); simpl; try discriminate.
  now rewrite He.
Qed.

Lemma final_products_usable (E : env F) (st : dict F) (mi : F)
    (asset_allocation : value F) (instruments : dict F) r (k : string) (x : value F) :
  final_products E st mi asset_allocation instruments = Returned r ->
  In k ["stocks"; "mutual_funds"; "fixed_deposits"] ->
  In x (listed instruments k) ->
  ~ unusable E x.
Proof.
  unfold final_products. intros H Hk Hx Hu.
  apply bound in H as (text & _ & H).
  apply bound in H as (products & _ & H).
  apply bound in H as (defaults & _ & H).
  apply bound in H as (stocks & Hs & H).
  apply bound in H as (funds & Hf & H).
  apply bound in H as (deposits & Hd & _).
  simpl in Hk. destruct Hk as [<- | [<- | [<- | []]]].
  - destruct (mapM_each _ _ _ x Hs Hx) as (y & Hy).
    exact (final_stock_unusable E _ x y Hu Hy).
  - destruct (mapM_each _ _ _ x Hf Hx) as (y & Hy).
    exact (final_fund_unusable E x y Hu Hy).
  - destruct (mapM_each _ _ _ x Hd Hx) as (y & Hy).
    exact (final_deposit_unusable E x y Hu Hy).
Qed.

End SkippedInstruments.

Module Answers.

(** A state in which the model has named its stocks instead of
    describing them. *)
Definition names_only : dict float :=
  <["suggested_instruments" :=
      VDict (<["stocks" := VList [VStr "TCS"; VStr "INFY"]]>
            (<["mutual_funds" := VList []]>
            (<["fixed_deposits" := VList []]> ∅)))]>
  (<["user_profile" := VDict Sample.profile]> Sample.initial).

End Answers.

(** X9.  The loops of [generate_final_recommendation] skip an entry
    they cannot process, but the stage does not get past it: the entries
    for the recommendation are built from the same list without a [try],
    so one suggested stock, fund or deposit that is no JSON object, or
    whose allocation percentage is no number, makes the whole stage
    report ["error"]. *)
Theorem skipped_instrument_fails :
  forall (F : Type) (PF : PyFloat F) (E : env F) (N : number_formats F)
         (st st' instruments : dict F) (k : string) (x : value F),
    st !! "suggested_instruments" = Some (VDict instruments) ->
    In k ["stocks"; "mutual_funds"; "fixed_deposits"] ->
    In x (listed (with_three_lists instruments) k) ->
    unusable E x ->
    generate_final_recommendation E N st = Returned st' ->
    (forall monthly_investment,
       exists e, processed E monthly_investment k x = Raised e) /\
    status_of st' = VStr "error" /\
    st' !! "recommendation" = st !! "recommendation" /\
    next_node n_generate_final_recommendation st' = Returned n_handle_error.
Proof.
  intros F PF E N st st' d k x Hd Hk Hx Hu H.
  split; [intros mi; now apply processed_unusable|].
  assert (Hfail : forall st0 e,
            st0 !! "recommendation" = st !! "recommendation" ->
            status_of (final_failure E st0 e) = VStr "error" /\
            final_failure E st0 e !! "recommendation" = st !! "recommendation" /\
            next_node n_generate_final_recommendation (final_failure E st0 e)
              = Returned n_handle_error).
  { intros st0 e H0. split; [apply status_of_final_failure|].
    split. { now rewrite final_failure_ne by discriminate. }
    simpl. unfold only_on. now rewrite status_of_final_failure. }
  unfold generate_final_recommendation in H.
  destruct (final_amounts_own E st _ Hd) as [(e & He) | (p & ef & mi & He)];
    rewrite He in H; cbn [attempt] in H.
  - apply Returned_eq in H. subst st'. now apply Hfail.
  - unfold final_selection in H.
    destruct (final_products E _ mi _ (with_three_lists d)) as [r|e|] eqn:Hp;
      cbn [attempt] in H; [|apply Returned_eq in H|discriminate].
    + now destruct (final_products_usable E _ mi _ _ r k x Hp Hk Hx Hu).
    + subst st'. apply Hfail.
      now rewrite lookup_insert_ne by discriminate.
Qed.

Lemma skipped_instrument_fails_witness :
  let instruments : dict float :=
    <["stocks" := VList [VStr "TCS"; VStr "INFY"]]>
    (<["mutual_funds" := VList []]>
    (<["fixed_deposits" := VList []]> ∅)) in
  let st' := result_or ∅ (generate_final_recommendation Sample.environment
                            Texts.plain Answers.names_only) in
  Answers.names_only !! "suggested_instruments" = Some (VDict instruments) /\
  In "stocks" ["stocks"; "mutual_funds"; "fixed_deposits"] /\
  In (VStr "TCS") (listed (with_three_lists instruments) "stocks") /\
  unusable Sample.environment (VStr "TCS") /\
  generate_final_recommendation Sample.environment Texts.plain Answers.names_only
    = Returned st' /\
  (forall monthly_investment,
     exists e, processed Sample.environment monthly_investment "stocks" (VStr "TCS")
               = Raised e) /\
  status_of st' = VStr "error" /\
  st' !! "recommendation" = Answers.names_only !! "recommendation" /\
  next_node n_generate_final_recommendation st' = Returned n_handle_error.
Proof.
  intros instruments st'.
  assert (H1 : Answers.names_only !! "suggested_instruments" = Some (VDict instruments))
    by reflexivity.
  assert (H2 : In "stocks" ["stocks"; "mutual_funds"; "fixed_deposits"])
    by (simpl; tauto).
  assert (H3 : In (VStr "TCS") (listed (with_three_lists instruments) "stocks"))
    by (vm_compute; tauto).
  assert (H4 : unusable Sample.environment (VStr "TCS" : value float)) by exact I.
  assert (H5 : generate_final_recommendation Sample.environment Texts.plain
                 Answers.names_only = Returned st')
    by (apply returned_result_or; vm_compute; reflexivity).
  repeat (split; [assumption|]).
  exact (skipped_instrument_fails float binary64 Sample.environment Texts.plain
           Answers.names_only st' instruments "stocks" (VStr "TCS") H1 H2 H3 H4 H5).
Defined.

(** ** What a stage leaves in place *)

Section Kept.

Context {F : Type} {PF : PyFloat F}.

(** [st'] has every field of [st], and differs from it at most in the
    fields [ks]. *)
Definition changes_only (ks : list string) (st st' : dict F) : Prop :=
  (forall k, is_Some (st !! k) -> is_Some (st' !! k)) /\
  (forall k, ~ In k ks -> st' !! k = st !! k).

Lemma changes_only_refl (ks : list string) (st : dict F) : changes_only ks st st.
Proof. split; auto. Qed.

Lemma changes_only_trans (ks : list string) (a b c : dict F) :
  changes_only ks a b -> changes_only ks b c -> changes_only ks a c.
Proof.
  intros [H1 H2] [H3 H4]. split; [auto|].
  intros k Hk. now rewrite H4, H2.
Qed.

Lemma changes_only_insert (ks : list string) (st st' : dict F) (k : string)
    (v : value F) :
  In k ks -> changes_only ks st st' -> changes_only ks st (<[k := v]> st').
Proof.
  intros Hk [H1 H2]. split.
  - intros j Hj. apply lookup_insert_is_Some'. right. auto.
  - intros j Hj. rewrite lookup_insert_ne; [auto|]. intros <-. now apply Hj.
Qed.

Lemma changes_only_more (ks ks' : list string) (st st' : dict F) :
  incl ks ks' -> changes_only ks st st' -> changes_only ks' st st'.
Proof. intros Hi [H1 H2]. split; [exact H1|]. intros k Hk. apply H2. auto. Qed.

End Kept.

Ltac changed :=
  unfold with_error;
  repeat (apply changes_only_insert; [simpl; tauto|]);
  try apply changes_only_refl.

Section Shapes.

Context {F : Type} {PF : PyFloat F}.

Lemma fetch_user_profile_changes (E : env F) (st st' : dict F) :
  fetch_user_profile E st = Returned st' ->
  changes_only ["user_profile"; "status"; "error"] st st'.
Proof.
  unfold fetch_user_profile.
  destruct (negb _); [intros H; apply Returned_eq in H; subst; changed|].
  destruct (_ !! "error"); [intros H; apply Returned_eq in H; subst; changed|].
  destruct (List.filter _ _); intros H; apply Returned_eq in H; subst; changed.
Qed.

Lemma check_profile_handler_changes (E : env F) (ks : list string)
    (st st0 : dict F) (e : exn F) :
  In "status" ks -> In "error" ks ->
  changes_only ks st st0 -> changes_only ks st (check_profile_handler E st0 e).
Proof.
  intros H1 H2 H. unfold check_profile_handler.
  destruct (exn_cls e); now repeat apply changes_only_insert.
Qed.

Lemma check_profile_completeness_changes (E : env F) (st st' : dict F) :
  check_profile_completeness E st = Returned st' ->
  changes_only ["user_profile"; "status"; "error"; "missing_fields"] st st'.
Proof.
  intros H.
  destruct (check_profile_completeness_cases E st st' H)
    as [-> | [(f & fs & ->) | [(e & ->) | [(p & e & ->) | (p & ->)]]]];
    try (apply check_profile_handler_changes; [simpl; tauto ..|]); changed.
Qed.

Lemma generate_fallback_recommendation_changes (E : env F) (st st' : dict F) :
  generate_fallback_recommendation E st = Returned st' ->
  changes_only ["recommendation"; "status"] st st'.
Proof.
  unfold generate_fallback_recommendation. intros H.
  apply bound in H as (m & _ & H). apply Returned_eq in H. subst. changed.
Qed.

Lemma fetch_market_data_changes (E : env F) (st st' : dict F) :
  fetch_market_data E st = Returned st' ->
  changes_only ["market_data"; "status"; "error"] st st'.
Proof.
  unfold fetch_market_data.
  destruct (market_data_tool_run E) as [|b|z|f|s|l|d];
    try (intros H; apply Returned_eq in H; subst; changed).
  destruct (d !! "error"); intros H; apply Returned_eq in H; subst; changed.
Qed.

Lemma preprocess_market_data_cases (E : env F) (st st' : dict F) :
  preprocess_market_data E st = Returned st' ->
  (exists msg, st' = with_error st msg) \/
  (exists processed,
     st' = <["status" := VStr "market_data_processed"]>
           (<["processed_market_data" := VDict processed]> st)).
Proof.
  unfold preprocess_market_data.
  destruct (preprocess_market_data_body st) as [r|e|] eqn:Hb; [| |discriminate].
  - intros H. apply Returned_eq in H. subst r. right.
    unfold preprocess_market_data_body in Hb.
    destruct (negb _); [discriminate|].
    repeat (apply bound in Hb as (? & _ & Hb)).
    apply Returned_eq in Hb. subst. now eexists.
  - intros H. apply Returned_eq in H. subst. left. now eexists.
Qed.

(** The profile [calculate_emergency_fund] writes back is the one it
    read, with two fields added. *)
Lemma calculate_emergency_fund_cases (E : env F) (st st' : dict F) :
  calculate_emergency_fund E st = Returned st' ->
  (exists msg, st' = with_error st msg) \/
  (exists profile d,
     get_or st "user_profile" (VDict ∅) = VDict profile /\
     st' = funded st profile d).
Proof.
  unfold calculate_emergency_fund.
  destruct (calculate_emergency_fund_body E st) as [r|e|] eqn:Hb; [| |discriminate].
  - intros H. apply Returned_eq in H. subst r. right.
    unfold calculate_emergency_fund_body in Hb.
    repeat (apply bound in Hb as (? & _ & Hb)).
    destruct (is_le _); [discriminate|].
    destruct (get_or st "user_profile" (VDict ∅)) as [|b|z|f|s|l|profile];
      try discriminate.
    apply Returned_eq in Hb. subst. now eexists _, _.
  - intros H. left. destruct (exn_cls e); apply Returned_eq in H; subst; now eexists.
Qed.

Lemma define_risk_based_allocation_cases (E : env F) (st st' : dict F) :
  define_risk_based_allocation E st = Returned st' ->
  (exists msg, st' = with_error st msg) \/
  (exists allocation,
     st' = <["status" := VStr "allocation_defined"]>
           (<["asset_allocation" := VDict allocation]> st)).
Proof.
  unfold define_risk_based_allocation.
  destruct (define_risk_based_allocation_body E st) as [r|e|] eqn:Hb; [| |discriminate].
  - intros H. apply Returned_eq in H. subst r. right.
    unfold define_risk_based_allocation_body in Hb.
    repeat (apply bound in Hb as (? & _ & Hb)).
    apply Returned_eq in Hb. subst. now eexists.
  - intros H. apply Returned_eq in H. subst. left. now eexists.
Qed.

Lemma select_investments_cases (E : env F) (st st' : dict F) :
  select_investments E st = Returned st' ->
  (exists e,
     st' = <["status" := VStr "error"]>
           (<["suggested_instruments" := VDict no_instruments]>
           (<["error_details" := VStr (traceback_text E e)]>
           (<["error" := VStr ("Error selecting investments: " ++ exn_text E e)]>
              st)))) \/
  (exists content,
     llm_content E = Returned content /\
     st' = <["status" := VStr "products_selected"]>
           (<["selected_products" :=
               VDict (<["stocks" :=
                         get_or (parse_suggestions E content) "stocks" (VList [])]>
                     (<["mutual_funds" :=
                         get_or (parse_suggestions E content) "mutual_funds"
                           (VList [])]>
                     (<["fixed_deposits" :=
                         get_or (parse_suggestions E content) "fixed_deposits"
                           (VList [])]>
                     (<["total_allocated" := VInt 0]> ∅))))]>
           (<["suggested_instruments" := VDict (parse_suggestions E content)]> st))).
Proof.
  unfold select_investments.
  destruct (select_investments_body E st) as [r|e|] eqn:Hb; [| |discriminate].
  - intros H. apply Returned_eq in H. subst r. right.
    unfold select_investments_body in Hb.
    destruct (get_or st "profile" (VDict ∅)); try discriminate.
    destruct (negb _); [discriminate|].
    apply bound in Hb as (? & _ & Hb).
    destruct (st !! "asset_allocation") as [[| | | | | |a]|]; try discriminate.
    do 6 (apply bound in Hb as (? & _ & Hb)).
    apply bound in Hb as (content & Hc & Hb).
    apply Returned_eq in Hb. subst st'. exists content.
    split; [exact Hc | reflexivity].
  - intros H. apply Returned_eq in H. subst. left. now eexists.
Qed.

Lemma calculate_returns_cases (E : env F) (st st' : dict F) :
  calculate_returns E st = Returned st' ->
  (exists msg, st' = with_error st msg) \/
  (exists returns,
     st' = <["status" := VStr "returns_calculated"]>
           (<["projected_returns" := VDict returns]> st)).
Proof.
  unfold calculate_returns.
  destruct (calculate_returns_body E st) as [r|e|] eqn:Hb; [| |discriminate].
  - intros H. apply Returned_eq in H. subst r. right.
    unfold calculate_returns_body in Hb.
    do 2 (apply bound in Hb as (? & _ & Hb)).
    destruct (is_le _); [discriminate|].
    repeat (apply bound in Hb as (? & _ & Hb)).
    apply Returned_eq in Hb. subst. now eexists.
  - intros H. apply Returned_eq in H. subst. left. now eexists.
Qed.

Lemma save_recommendation_cases (E : env F) (st update : dict F) :
  save_recommendation E st = Returned update ->
  (exists msg, update = <["error" := VStr msg]> ∅) \/
  update = <["status" := VStr "recommendation_saved"]> ∅.
Proof.
  unfold save_recommendation.
  destruct (negb _); [intros H; apply Returned_eq in H; subst; left; now eexists|].
  destruct (save_recommendation_body _ _ _); intros H; try discriminate;
    apply Returned_eq in H; subst; [now right | left; now eexists].
Qed.

End Shapes.

Section Written.

Context {F : Type} {PF : PyFloat F}.

Variable G : engine.

Lemma written_lookup (update : dict F) (k : string) :
  written G update !! k = if writes G k then update !! k else None.
Proof.
  unfold written. destruct (writes G k) eqn:Hw.
  - destruct (update !! k) as [v|] eqn:Hu.
    + apply map_lookup_filter_Some. now split.
    + apply map_lookup_filter_None. left. exact Hu.
  - apply map_lookup_filter_None. right. intros v _. simpl. now rewrite Hw.
Qed.

Lemma merge_written_lookup (st update : dict F) (k : string) :
  merge st (written G update) !! k
  = if writes G k then
      match update !! k with Some v => Some v | None => st !! k end
    else st !! k.
Proof.
  unfold merge. rewrite lookup_union, written_lookup.
  destruct (writes G k); [|now destruct (st !! k)].
  destruct (update !! k); now destruct (st !! k).
Qed.

Lemma merge_written_is_Some (st update : dict F) (k : string) :
  is_Some (st !! k) -> is_Some (merge st (written G update) !! k).
Proof.
  intros H. rewrite merge_written_lookup.
  destruct (writes G k); [|exact H]. now destruct (update !! k).
Qed.

Lemma merge_written_same (st update : dict F) (k : string) :
  update !! k = st !! k \/ update !! k = None ->
  merge st (written G update) !! k = st !! k.
Proof.
  intros H. rewrite merge_written_lookup.
  destruct (writes G k); [|reflexivity].
  destruct H as [H | H]; rewrite H; [now destruct (st !! k) | reflexivity].
Qed.

Lemma merge_written_new (st update : dict F) (k : string) (v : value F) :
  writes G k = true -> update !! k = Some v ->
  merge st (written G update) !! k = Some v.
Proof. intros Hw Hu. now rewrite merge_written_lookup, Hw, Hu. Qed.

(** A function that returns the state with some fields changed. *)
Lemma merge_written_changes (ks : list string) (st update : dict F) :
  changes_only ks st update -> changes_only ks st (merge st (written G update)).
Proof.
  intros [_ H]. split.
  - intros k. apply merge_written_is_Some.
  - intros k Hk. apply merge_written_same. left. now apply H.
Qed.

(** A function that returns some fields and no more. *)
Lemma merge_written_partial (ks : list string) (st update : dict F) :
  (forall k, ~ In k ks -> update !! k = None) ->
  changes_only ks st (merge st (written G update)).
Proof.
  intros H. split.
  - intros k. apply merge_written_is_Some.
  - intros k Hk. apply merge_written_same. right. now apply H.
Qed.

End Written.

Section FinalShapes.

Context {F : Type} {PF : PyFloat F}.

Lemma recommendation_of_success (E : env F) (N : number_formats F) (st : dict F)
    (x : figures F) (r : value F) :
  recommendation_of E N st x = Returned r ->
  exists recommendation,
    r = VDict recommendation /\
    recommendation !! "status" = Some (VStr "success") /\
    recommendation !! "user_id" = Some (get_or st "user_id" VNone).
Proof.
  unfold recommendation_of. intros H.
  repeat (apply bound in H as (? & _ & H)).
  apply Returned_eq in H. subst r. eexists. split; [reflexivity|]. split.
  - rewrite !lookup_insert_ne by discriminate. apply lookup_insert_eq.
  - apply lookup_insert_eq.
Qed.

(** A state the body of [generate_final_recommendation] has reached
    from [st]: the fix-ups it writes are those of the suggested
    instruments and of the projected returns. *)
Definition reached_from (st st0 : dict F) : Prop :=
  changes_only ["suggested_instruments"; "projected_returns"] st st0.

(** The two ways [generate_final_recommendation] returns: the state
    with the error, or the state with the recommendation. *)
Definition final_result (E : env F) (st st' : dict F) : Prop :=
  (exists st0 e, reached_from st st0 /\ st' = final_failure E st0 e) \/
  (exists st0 recommendation,
     reached_from st st0 /\
     st' = <["status" := VStr "recommendation_generated"]>
           (<["recommendation" := VDict recommendation]> st0) /\
     recommendation !! "status" = Some (VStr "success") /\
     recommendation !! "user_id" = Some (get_or st "user_id" VNone)).

Lemma reached_from_refl (st : dict F) : reached_from st st.
Proof. apply changes_only_refl. Qed.

Lemma reached_from_written_back (st st0 : dict F) held written returns :
  reached_from st st0 -> reached_from st (written_back held written returns st0).
Proof.
  intros H. unfold written_back. destruct (written && held); [|exact H].
  apply changes_only_insert; [simpl; tauto | exact H].
Qed.

Lemma reached_from_lookup (st st0 : dict F) (k : string) :
  k <> "suggested_instruments" -> k <> "projected_returns" ->
  reached_from st st0 -> st0 !! k = st !! k.
Proof.
  intros H1 H2 [_ H]. apply H. simpl. intros [<- | [<- | []]]; congruence.
Qed.

Lemma reached_from_user (st st0 : dict F) :
  reached_from st st0 -> get_or st0 "user_id" VNone = get_or st "user_id" VNone.
Proof.
  intros H. unfold get_or. now rewrite (reached_from_lookup st st0 "user_id").
Qed.

Lemma final_failed (E : env F) (st st0 : dict F) (e : exn F) :
  reached_from st st0 -> final_result E st (final_failure E st0 e).
Proof. intros K. left. now exists st0, e. Qed.

Lemma final_write_cases (E : env F) (N : number_formats F) (st st0 st' : dict F)
    (x : figures F) :
  reached_from st st0 ->
  final_write E N st0 x = Returned st' -> final_result E st st'.
Proof.
  intros K. unfold final_write.
  destruct (recommendation_of E N st0 x) as [r|e|] eqn:Hr; cbn [attempt];
    [| |discriminate].
  - intros H. apply Returned_eq in H. subst st'.
    destruct (recommendation_of_success E N st0 x r Hr) as (rec & -> & Hs & Hu).
    right. exists st0, rec. split; [apply K|]. split; [reflexivity|].
    split; [exact Hs|]. now rewrite Hu, (reached_from_user st st0 K).
  - intros H. apply Returned_eq in H. subst st'. now apply final_failed.
Qed.

Lemma final_returns_cases (E : env F) (N : number_formats F) (st st0 st' : dict F)
    (held : bool) (x : figures F) :
  reached_from st st0 ->
  final_returns E N st0 held x = Returned st' -> final_result E st st'.
Proof.
  intros K. unfold final_returns.
  destruct (final_roi _ _) as [[returns written]|e|]; cbn [attempt];
    [| |discriminate].
  - apply final_write_cases. now apply reached_from_written_back.
  - intros H. apply Returned_eq in H. subst st'. now apply final_failed.
Qed.

Lemma final_selection_cases (E : env F) (N : number_formats F) (st st0 st' : dict F)
    (profile : dict F) (ef mi : F) (instruments : dict F) :
  reached_from st st0 ->
  final_selection E N st0 profile ef mi instruments = Returned st' ->
  final_result E st st'.
Proof.
  intros K. unfold final_selection.
  destruct (final_products _ _ _ _ _) as [[[[products final] returns] written]|e|];
    cbn [attempt]; [| |discriminate].
  - apply final_returns_cases. now apply reached_from_written_back.
  - intros H. apply Returned_eq in H. subst st'. now apply final_failed.
Qed.

Lemma generate_final_recommendation_cases (E : env F) (N : number_formats F)
    (st st' : dict F) :
  generate_final_recommendation E N st = Returned st' -> final_result E st st'.
Proof.
  unfold generate_final_recommendation.
  destruct (final_amounts E st) as [[[[p ef] mi] [src own]]|e|];
    cbn [attempt]; [| |discriminate].
  - destruct src; try (apply final_selection_cases; apply reached_from_refl).
    apply final_selection_cases. destruct own; [|apply reached_from_refl].
    apply changes_only_insert; [simpl; tauto | apply changes_only_refl].
  - intros H. apply Returned_eq in H. subst st'. apply final_failed.
    apply reached_from_refl.
Qed.

End FinalShapes.

(** The fields of the state a node can change. *)
Definition fields_of (n : node) : list string :=
  match n with
  | n_fetch_user_profile => ["user_profile"; "status"; "error"]
  | n_check_profile_completeness =>
      ["user_profile"; "status"; "error"; "missing_fields"]
  | n_generate_fallback_recommendation => ["recommendation"; "status"]
  | n_fetch_market_data => ["market_data"; "status"; "error"]
  | n_preprocess_market_data => ["processed_market_data"; "status"; "error"]
  | n_calculate_emergency_fund =>
      ["user_profile"; "emergency_fund"; "monthly_investment"; "status"; "error"]
  | n_analyze_goals_and_risk => ["risk_profile"; "time_horizon"; "status"]
  | n_define_risk_based_allocation => ["asset_allocation"; "status"; "error"]
  | n_select_investment_products =>
      ["suggested_instruments"; "selected_products"; "status"; "error";
       "error_details"]
  | n_calculate_returns => ["projected_returns"; "status"; "error"]
  | n_generate_final_recommendation =>
      ["recommendation"; "suggested_instruments"; "projected_returns"; "status";
       "error"]
  | n_save_recommendation => ["status"; "error"]
  | n_handle_error => ["recommendation"; "status"]
  | END => []
  end.

Section Frames.

Context {F : Type} {PF : PyFloat F}.

Lemma generate_final_recommendation_changes (E : env F) (N : number_formats F)
    (st st' : dict F) :
  generate_final_recommendation E N st = Returned st' ->
  changes_only (fields_of n_generate_final_recommendation) st st'.
Proof.
  intros H.
  assert (R : forall st0, reached_from st st0 ->
                changes_only (fields_of n_generate_final_recommendation) st st0).
  { intros st0. apply changes_only_more. intros k. simpl. tauto. }
  destruct (generate_final_recommendation_cases E N st st' H)
    as [(st0 & e & K & ->) | (st0 & r & K & -> & _)].
  - unfold final_failure, with_error.
    repeat (apply changes_only_insert; [simpl; tauto|]). now apply R.
  - repeat (apply changes_only_insert; [simpl; tauto|]). now apply R.
Qed.

Lemma node_function_changes (G : engine) (E : env F) (N : number_formats F)
    (n : node) (f : dict F -> outcome F (dict F)) (st update : dict F) :
  node_function E N n = Some f ->
  f st = Returned update ->
  changes_only (fields_of n) st (merge st (written G update)).
Proof.
  destruct n; simpl; intros Hf; try discriminate; injection Hf as <-; intros H.
  - apply merge_written_changes. now apply (fetch_user_profile_changes E).
  - apply merge_written_changes. now apply (check_profile_completeness_changes E).
  - apply merge_written_changes.
    now apply (generate_fallback_recommendation_changes E).
  - apply merge_written_changes. now apply (fetch_market_data_changes E).
  - apply merge_written_changes.
    destruct (preprocess_market_data_cases E st update H) as [(m & ->) | (p & ->)];
      changed.
  - apply merge_written_changes.
    destruct (calculate_emergency_fund_cases E st update H)
      as [(m & ->) | (p & d & _ & ->)]; [changed|]. unfold funded. changed.
  - apply merge_written_partial.
    destruct (analyze_goals_and_risk_returns st update H) as (h & ->).
    intros k Hk. simpl in Hk.
    rewrite !lookup_insert_ne by (intros <-; tauto). apply lookup_empty.
  - apply merge_written_changes.
    destruct (define_risk_based_allocation_cases E st update H)
      as [(m & ->) | (a & ->)]; changed.
  - apply merge_written_changes.
    destruct (select_investments_cases E st update H)
      as [(e & ->) | (c & _ & ->)]; changed.
  - apply merge_written_changes.
    destruct (calculate_returns_cases E st update H) as [(m & ->) | (r & ->)];
      changed.
  - apply merge_written_changes.
    now apply (generate_final_recommendation_changes E N).
  - apply merge_written_partial.
    destruct (save_recommendation_cases E st update H) as [(m & ->) | ->];
      intros k Hk; simpl in Hk;
      (rewrite lookup_insert_ne by (intros <-; tauto)); apply lookup_empty.
  - apply merge_written_changes. unfold handle_error in H.
    apply Returned_eq in H. subst. changed.
Qed.

Lemma route_after_emergency_fund_changes (st st' : dict F) (n : node) :
  route_after_emergency_fund st = Returned (st', n) ->
  changes_only (fields_of n_calculate_emergency_fund) st st'.
Proof.
  unfold route_after_emergency_fund.
  destruct (negb _);
    [intros H; apply Returned_eq in H; injection H as <- _; apply changes_only_refl|].
  destruct (_ !! "monthly_investment");
    [intros H; apply Returned_eq in H; injection H as <- _; apply changes_only_refl|].
  intros H. apply bound in H as (v & _ & H). apply Returned_eq in H.
  injection H as <- _. changed.
Qed.

Lemma step_changes (G : engine) (E : env F) (N : number_formats F) (n n' : node)
    (st st' : dict F) :
  step G E N n st = Returned (n', st') -> changes_only (fields_of n) st st'.
Proof.
  intros H. unfold step in H.
  destruct (node_function E N n) as [f|] eqn:Hf.
  2:{ apply Returned_eq in H. injection H as _ <-. apply changes_only_refl. }
  apply bound in H as (update & Hu & H).
  pose proof (node_function_changes G E N n f st update Hf Hu) as K.
  destruct n; try (apply bound in H as (m & _ & H); apply Returned_eq in H;
                   injection H as _ <-; exact K).
  apply bound in H as ([st2 m] & Hr & H). apply Returned_eq in H.
  injection H as _ <-. simpl.
  destruct (keeps_routed G); [|exact K].
  apply (changes_only_trans _ _ _ _ K).
  now apply (route_after_emergency_fund_changes _ _ m).
Qed.

End Frames.

(** X10.  A step of a run takes no field out of the state, and a node
    changes only its own fields: [fields_of] lists them by node, and
    [user_id] is in none of the lists.  This holds whatever the engine
    writes of what the function returns, and whether or not it keeps
    the monthly investment the router after the emergency fund writes. *)
Theorem step_changes_its_fields_only :
  forall (F : Type) (PF : PyFloat F) (G : engine) (E : env F)
         (N : number_formats F) (n n' : node) (st st' : dict F),
    step G E N n st = Returned (n', st') ->
    (forall k, is_Some (st !! k) -> is_Some (st' !! k)) /\
    (forall k, ~ In k (fields_of n) -> st' !! k = st !! k).
Proof.
  intros F PF G E N n n' st st' H. exact (step_changes G E N n n' st st' H).
Qed.

Lemma step_changes_its_fields_only_witness :
  let st := <["user_profile" := VDict Sample.profile]> Sample.initial in
  let st' := result_or ∅ (check_profile_completeness Sample.environment st) in
  let st2 := merge st (written declared_fields st') in
  step declared_fields Sample.environment Texts.plain
    n_check_profile_completeness st
    = Returned (n_fetch_market_data, st2) /\
  (forall k, is_Some (st !! k) -> is_Some (st2 !! k)) /\
  (forall k, ~ In k (fields_of n_check_profile_completeness) ->
             st2 !! k = st !! k).
Proof.
  intros st st' st2.
  assert (H : step declared_fields Sample.environment Texts.plain
                n_check_profile_completeness st
              = Returned (n_fetch_market_data, st2)).
  { unfold step, node_function.
    rewrite (returned_result_or ∅ (check_profile_completeness Sample.environment st))
      by (vm_compute; reflexivity).
    fold st'. cbn [mbind outcome_bind bind]. fold st2.
    assert (Hn : next_node n_check_profile_completeness st2
                 = Returned n_fetch_market_data) by (vm_compute; reflexivity).
    now rewrite Hn. }
  split; [exact H|].
  exact (step_changes_its_fields_only float binary64 declared_fields
           Sample.environment Texts.plain
           n_check_profile_completeness n_fetch_market_data st st2 H).
Defined.

(** ** Runs of the graph *)

Section Runs.

Context {F : Type} {PF : PyFloat F}.

Variable G : engine.
Variable E : env F.
Variable N : number_formats F.

(** A step out of a node: its function returns an update, and the edge
    is chosen on the state with the update written over it. *)
Lemma step_cases (n n' : node) (st st' : dict F) :
  step G E N n st = Returned (n', st') ->
  n <> END ->
  exists f update,
    node_function E N n = Some f /\
    f st = Returned update /\
    ((n <> n_calculate_emergency_fund /\ st' = merge st (written G update) /\
      next_node n st' = Returned n') \/
     (n = n_calculate_emergency_fund /\
      exists routed,
        route_after_emergency_fund (merge st (written G update))
          = Returned (routed, n') /\
        st' = if keeps_routed G then routed else merge st (written G update))).
Proof.
  intros H Hn. unfold step in H.
  destruct (node_function E N n) as [f|] eqn:Hf; [|now destruct n].
  apply bound in H as (update & Hu & H).
  exists f, update. split; [reflexivity|]. split; [exact Hu|].
  destruct n; try (left; apply bound in H as (m & Hm & H); apply Returned_eq in H;
                   injection H as -> <-; split; [discriminate|]; now split).
  - right. apply bound in H as ([st2 m] & Hr & H). apply Returned_eq in H.
    simpl in H. injection H as Hn' Hst. subst m. split; [reflexivity|].
    exists st2. split; [exact Hr | now symmetry].
Qed.

Lemma step_forward (n n' : node) (st st' : dict F) :
  step G E N n st = Returned (n', st') ->
  n <> END ->
  (position n < position n' <= position END)%nat.
Proof.
  intros H Hn.
  destruct (step_cases n n' st st' H Hn)
    as (f & u & _ & _ & [(_ & _ & Hx) | (-> & r & Hr & _)]).
  - now apply (next_node_forward n n' st').
  - apply route_after_emergency_fund_cases in Hr as [-> | ->]; simpl; lia.
Qed.

Lemma run_step (fuel : nat) (n : node) (st : dict F) :
  n <> END ->
  run G E N (S fuel) n st
    = match step G E N n st with
      | Returned (n', st') => run G E N fuel n' st'
      | Raised e => Some (Raised e)
      | Unmodelled => Some Unmodelled
      end.
Proof. intros Hn. destruct n; try reflexivity. now destruct Hn. Qed.

(** Thirteen steps are enough from the entry point, and fewer further
    on. *)
Lemma run_enough (fuel : nat) (n : node) (st : dict F) :
  (position END <= fuel + position n)%nat ->
  exists o, run G E N fuel n st = Some o.
Proof.
  revert n st. induction fuel as [|fuel IH]; intros n st Hf.
  - destruct n; simpl in Hf; try lia. now eexists.
  - destruct (node_eq_END n) as [-> | Hn]; [now eexists|].
    rewrite (run_step fuel n st Hn).
    destruct (step G E N n st) as [[n' st']| |] eqn:Hs; [|now eexists ..].
    apply IH. pose proof (step_forward n n' st st' Hs Hn). lia.
Qed.

(** What holds on arrival at every node of a run holds at its end. *)
Lemma run_invariant (P : node -> dict F -> Prop) :
  (forall n n' st st', P n st -> step G E N n st = Returned (n', st') -> P n' st') ->
  forall fuel n st st',
    P n st -> run G E N fuel n st = Some (Returned st') -> P END st'.
Proof.
  intros Hstep. induction fuel as [|fuel IH]; intros n st st' Hp H.
  - destruct n; simpl in H; try discriminate. injection H as <-. exact Hp.
  - destruct (node_eq_END n) as [-> | Hn].
    { simpl in H. injection H as <-. exact Hp. }
    rewrite (run_step fuel n st Hn) in H.
    destruct (step G E N n st) as [[n' st1]|e|] eqn:Hst; try discriminate.
    apply (IH n' st1); [|exact H]. now apply (Hstep n n' st st1).
Qed.

Lemma invoke_run (user_id : value F) :
  invoke G E N user_id
  = run G E N 13 n_fetch_user_profile (<["user_id" := user_id]> ∅).
Proof. unfold invoke. reflexivity. Qed.

Lemma status_lookup (st : dict F) (s : string) :
  status_of st = VStr s -> st !! "status" = Some (VStr s).
Proof.
  unfold status_of, get_or. destruct (st !! "status"); [congruence | discriminate].
Qed.

(** The recommendation a state carries, by its status. *)
Definition recommends (st : dict F) (s : string) : Prop :=
  exists recommendation,
    st !! "recommendation" = Some (VDict recommendation) /\
    recommendation !! "status" = Some (VStr s) /\
    recommendation !! "user_id" = Some (get_or st "user_id" VNone).

(** How a run can end. *)
Definition ended (st : dict F) : Prop :=
  (status_of st = VStr "error_handled" /\ recommends st "error") \/
  (status_of st = VStr "completed_with_fallback" /\ recommends st "fallback") \/
  (status_of st = VStr "recommendation_saved" /\ recommends st "success").

(** What is known of the state on arrival at a node. *)
Definition arrives (n : node) (st : dict F) : Prop :=
  match n with
  | n_save_recommendation => recommends st "success"
  | END => ended st
  | _ => True
  end.

Lemma only_on_arrives (s : string) (a : node) (st : dict F) :
  arrives n_handle_error st -> 
  (status_of st = VStr s -> arrives a st) ->
  arrives (only_on s a st) st.
Proof.
  intros H1 H2. unfold only_on. destruct (eq_str _ _) eqn:Hs; [|exact H1].
  apply H2. now apply eq_str_true.
Qed.

Hypothesis declared : writes_declared G.

Lemma merge_declared (st update : dict F) (k : string) (v : value F) :
  In k GraphState -> update !! k = Some v ->
  merge st (written G update) !! k = Some v.
Proof. intros Hk H. apply merge_written_new; [now apply declared | exact H]. Qed.

Lemma merge_status (st update : dict F) (v : value F) :
  update !! "status" = Some v -> status_of (merge st (written G update)) = v.
Proof.
  intros H. unfold status_of. apply get_or_Some.
  apply merge_written_new; [|exact H]. apply declared. simpl. tauto.
Qed.

Lemma merge_recommendation (st update : dict F) (v : value F) :
  update !! "recommendation" = Some v ->
  merge st (written G update) !! "recommendation" = Some v.
Proof.
  intros H. apply merge_written_new; [|exact H]. apply declared. simpl. tauto.
Qed.

Lemma changes_only_user (n : node) (st st' : dict F) :
  changes_only (fields_of n) st st' ->
  get_or st' "user_id" VNone = get_or st "user_id" VNone.
Proof.
  intros [_ K]. unfold get_or. rewrite K; [reflexivity|].
  destruct n; simpl; intuition discriminate.
Qed.

Lemma step_arrives (n n' : node) (st st' : dict F) :
  arrives n st ->
  step G E N n st = Returned (n', st') ->
  arrives n' st'.
Proof.
  intros Ha H.
  destruct (node_eq_END n) as [-> | Hn].
  { unfold step in H. simpl in H. apply Returned_eq in H. injection H as <- <-.
    exact Ha. }
  pose proof (changes_only_user n st st' (step_changes G E N n n' st st' H)) as Hid.
  destruct (step_cases n n' st st' H Hn)
    as (f & update & Hf & Hu & [(Hne & -> & Hx) | (-> & r & Hr & _)]).
  2:{ apply route_after_emergency_fund_cases in Hr as [-> | ->]; exact I. }
  destruct n; try (now destruct Hn); simpl in Hf; injection Hf as <-; simpl in Hx;
    try (apply Returned_eq in Hx; subst n').
  - unfold unless_error. now destruct (negb _).
  - apply route_after_check_profile_cases in Hx as [-> | [-> | ->]]; exact I.
  - apply only_on_arrives; [exact I|]. intros Hs. right. left. split; [exact Hs|].
    unfold generate_fallback_recommendation in Hu.
    apply bound in Hu as (m & _ & Hu). apply Returned_eq in Hu. subst update.
    eexists. split; [|split].
    + apply merge_recommendation. rewrite lookup_insert_ne by discriminate.
      apply lookup_insert_eq.
    + apply lookup_insert_eq.
    + rewrite Hid. rewrite !lookup_insert_ne by discriminate. apply lookup_insert_eq.
  - unfold unless_error. now destruct (negb _).
  - apply only_on_arrives; [exact I | intros _; exact I].
  - apply only_on_arrives; [exact I | intros _; exact I].
  - apply only_on_arrives; [exact I | intros _; exact I].
  - apply only_on_arrives; [exact I | intros _; exact I].
  - apply only_on_arrives; [exact I | intros _; exact I].
  - apply only_on_arrives; [exact I|]. intros Hs.
    destruct (generate_final_recommendation_cases E N st update Hu)
      as [(st0 & e & _ & ->) | (st0 & r & _ & -> & Hr & Hru)].
    + rewrite (merge_status st _ (VStr "error")) in Hs; [discriminate|].
      apply lookup_insert_eq.
    + exists r. split; [|split; [exact Hr|now rewrite Hid]].
      apply merge_recommendation.
      rewrite lookup_insert_ne by discriminate. apply lookup_insert_eq.
  - apply only_on_arrives; [exact I|]. intros Hs. right. right. split; [exact Hs|].
    destruct Ha as (r & Hr & Hrs & Hru). exists r.
    split; [|split; [exact Hrs|now rewrite Hid]].
    rewrite <- Hr.
    apply (step_changes G E N _ _ _ _ H). simpl. intuition discriminate.
  - left. unfold handle_error in Hu. apply Returned_eq in Hu. subst update. split.
    + apply merge_status, lookup_insert_eq.
    + eexists. split; [|split].
      * apply merge_recommendation. rewrite lookup_insert_ne by discriminate.
        apply lookup_insert_eq.
      * apply lookup_insert_eq.
      * rewrite Hid. rewrite !lookup_insert_ne by discriminate.
        apply lookup_insert_eq.
Qed.

Lemma run_arrives (fuel : nat) (n : node) (st st' : dict F) :
  arrives n st ->
  run G E N fuel n st = Some (Returned st') ->
  ended st'.
Proof.
  intros Ha H. apply (run_invariant arrives step_arrives fuel n st st' Ha H).
Qed.

Lemma run_changes (fuel : nat) (n : node) (st st' : dict F) :
  run G E N fuel n st = Some (Returned st') ->
  (forall k, is_Some (st !! k) -> is_Some (st' !! k)) /\
  st' !! "user_id" = st !! "user_id".
Proof.
  apply (run_invariant
           (fun _ s => (forall k, is_Some (st !! k) -> is_Some (s !! k)) /\
                       s !! "user_id" = st !! "user_id")); [|now split].
  intros m m' s s' [K1 K2] Hs.
  destruct (step_changes G E N m m' s s' Hs) as [C1 C2]. split; [auto|].
  rewrite C2; [exact K2|]. destruct m; simpl; intuition discriminate.
Qed.

End Runs.

(** ** Sample answers of the language model *)

Definition finished {F} (o : option (outcome F (dict F))) : bool :=
  match o with Some (Returned _) => true | _ => false end.

Definition final_state {F} (o : option (outcome F (dict F))) : dict F :=
  match o with Some (Returned st) => st | _ => ∅ end.

Lemma finished_final_state {F} (o : option (outcome F (dict F))) :
  finished o = true -> o = Some (Returned (final_state o)).
Proof. destruct o as [[st|e|]|]; simpl; congruence. Qed.

Lemma declared_fields_declared : writes_declared declared_fields.
Proof.
  intros k Hk. simpl in Hk.
  repeat (destruct Hk as [<- | Hk]; [reflexivity|]). destruct Hk.
Qed.

Lemma every_field_declared : writes_declared every_field.
Proof. intros k _. reflexivity. Qed.

(** A model that answers with two stocks and a deposit, and a parser
    that reads its answer. *)
Module Answered.

Definition answer : string :=
  "Here you are: {suggested_instruments: two stocks, one deposit} Good luck!".

Definition parsed : value float :=
  VDict (<["suggested_instruments" :=
      VDict (<["stocks" :=
                VList [VDict (<["name" := VStr "TCS"]>
                             (<["allocation_percentage" := VFloat 60%float]> ∅));
                       VDict (<["name" := VStr "INFY"]>
                             (<["allocation_percentage" := VInt 40]> ∅))]]>
            (<["fixed_deposits" :=
                VList [VDict (<["bank" := VStr "SafeBank"]>
                             (<["tenure_months" := VInt 12]>
                             (<["rate_pct" := VFloat 6.5%float]>
                             (<["allocation_percentage" := VInt 100]> ∅))))]]> ∅))]> ∅).

Definition environment : env float := {|
  user_profile_tool_run := user_profile_tool_run Sample.environment;
  market_data_tool_run := market_data_tool_run Sample.environment;
  now_isoformat := now_isoformat Sample.environment;
  str_of := str_of Sample.environment;
  float_of_text := float_of_text Sample.environment;
  interpreter_text := interpreter_text Sample.environment;
  traceback_text := traceback_text Sample.environment;
  llm_content := Returned answer;
  json_loads := fun text =>
    if String.eqb text "{suggested_instruments: two stocks, one deposit}"
    then Some parsed else None;
  json_dumps := json_dumps Sample.environment;
  db_connect_error := None;
  db_insert_error := db_insert_error Sample.environment
|}.

End Answered.

(** ** select_investments *)

Section Suggestions.

Context {F : Type} {PF : PyFloat F}.

Definition classes : list string := ["stocks"; "mutual_funds"; "fixed_deposits"].

Lemma ensure_list_has (k : string) (d : dict F) : is_Some (ensure_list k d !! k).
Proof.
  unfold ensure_list. destruct (d !! k) eqn:Hk; [now rewrite Hk|].
  rewrite lookup_insert_eq. now eexists.
Qed.

Lemma ensure_list_keeps (k j : string) (d : dict F) :
  is_Some (d !! j) -> is_Some (ensure_list k d !! j).
Proof.
  intros H. unfold ensure_list. destruct (d !! k); [exact H|].
  apply lookup_insert_is_Some'. now right.
Qed.

(** Whatever the answer, what is left of it has the three classes, and
    every entry has a length. *)
Lemma parse_suggestions_classes (E : env F) (content k : string) :
  In k classes ->
  exists v, parse_suggestions E content !! k = Some v /\ has_len v = true.
Proof.
  intros Hk.
  assert (Hno : exists v, no_instruments (F := F) !! k = Some v /\ has_len v = true).
  { simpl in Hk. destruct Hk as [<- | [<- | [<- | []]]]; eexists; split; reflexivity. }
  unfold parse_suggestions.
  destruct (brace_span content) as [span|]; [|exact Hno].
  destruct (json_loads E span) as [[|b|z|f|t|l|result]|]; try exact Hno.
  destruct (get_or result _ _) as [|b|z|f|t|l|d]; try exact Hno.
  destruct (bool_decide _) eqn:Hall; [|exact Hno].
  apply bool_decide_eq_true in Hall.
  set (fixed := ensure_list "fixed_deposits" _) in *.
  assert (Hin : is_Some (fixed !! k)).
  { unfold fixed. simpl in Hk. destruct Hk as [<- | [<- | [<- | []]]].
    - apply ensure_list_keeps, ensure_list_keeps, ensure_list_has.
    - apply ensure_list_keeps, ensure_list_has.
    - apply ensure_list_has. }
  destruct Hin as (v & Hv). exists v. split; [exact Hv|].
  exact (Hall k v Hv).
Qed.

End Suggestions.

(** X11.  [select_investments] always leaves the three classes of
    instruments in the state, each with a length, whatever the model
    answered and whatever went wrong: on success the entries are what
    is left of the answer, [selected_products] repeats them with a
    total of zero, and the run goes on; on any failure the three
    classes are empty lists, the status is ["error"], and the run goes
    to [handle_error]. *)
Theorem select_investments_leaves_the_classes :
  forall (F : Type) (PF : PyFloat F) (E : env F) (st st' : dict F),
    select_investments E st = Returned st' ->
    exists instruments,
      st' !! "suggested_instruments" = Some (VDict instruments) /\
      (forall k, In k classes ->
         exists v, instruments !! k = Some v /\ has_len v = true) /\
      ((status_of st' = VStr "products_selected" /\
        next_node n_select_investment_products st' = Returned n_calculate_returns /\
        exists products,
          st' !! "selected_products" = Some (VDict products) /\
          products !! "total_allocated" = Some (VInt 0) /\
          forall k, In k classes -> products !! k = instruments !! k) \/
       (status_of st' = VStr "error" /\
        next_node n_select_investment_products st' = Returned n_handle_error /\
        instruments = no_instruments /\
        is_Some (st' !! "error"))).
Proof.
  intros F PF E st st' H.
  unfold select_investments in H.
  destruct (select_investments_body E st) as [r|e|] eqn:Hb; [| |discriminate].
  - apply Returned_eq in H. subst r.
    unfold select_investments_body in Hb.
    destruct (get_or st "profile" (VDict ∅)); try discriminate.
    destruct (negb _); [discriminate|].
    apply bound in Hb as (? & _ & Hb).
    destruct (st !! "asset_allocation") as [[| | | | | |a]|]; try discriminate.
    do 6 (apply bound in Hb as (? & _ & Hb)).
    apply bound in Hb as (content & Hc & Hb).
    apply Returned_eq in Hb. subst st'.
    exists (parse_suggestions E content).
    split. { rewrite !lookup_insert_ne by discriminate. apply lookup_insert_eq. }
    split. { intros k Hk. now apply parse_suggestions_classes. }
    left. split; [apply status_of_insert|].
    split. { simpl. unfold only_on. now rewrite status_of_insert. }
    eexists. split.
    { rewrite lookup_insert_ne by discriminate. apply lookup_insert_eq. }
    split. { rewrite !lookup_insert_ne by discriminate. apply lookup_insert_eq. }
    intros k Hk.
    destruct (parse_suggestions_classes E content k Hk) as (v & Hv & _).
    simpl in Hk. destruct Hk as [<- | [<- | [<- | []]]]; rewrite Hv.
    + rewrite lookup_insert_eq. unfold get_or. now rewrite Hv.
    + rewrite lookup_insert_ne by discriminate. rewrite lookup_insert_eq.
      unfold get_or. now rewrite Hv.
    + rewrite !lookup_insert_ne by discriminate. rewrite lookup_insert_eq.
      unfold get_or. now rewrite Hv.
  - apply Returned_eq in H. subst st'. exists no_instruments.
    split. { rewrite lookup_insert_ne by discriminate. apply lookup_insert_eq. }
    split.
    { intros k Hk. simpl in Hk.
      destruct Hk as [<- | [<- | [<- | []]]]; eexists; split; reflexivity. }
    right. split; [apply status_of_insert|].
    split. { simpl. unfold only_on. now rewrite status_of_insert. }
    split; [reflexivity|].
    rewrite !lookup_insert_ne by discriminate. rewrite lookup_insert_eq. now eexists.
Qed.

Lemma select_investments_leaves_the_classes_witness :
  let st := Pipeline.reached Answered.environment in
  let st' := result_or ∅ (select_investments Answered.environment st) in
  select_investments Answered.environment st = Returned st' /\
  exists instruments,
    st' !! "suggested_instruments" = Some (VDict instruments) /\
    (forall k, In k classes ->
       exists v, instruments !! k = Some v /\ has_len v = true) /\
    ((status_of st' = VStr "products_selected" /\
      next_node n_select_investment_products st' = Returned n_calculate_returns /\
      exists products,
        st' !! "selected_products" = Some (VDict products) /\
        products !! "total_allocated" = Some (VInt 0) /\
        forall k, In k classes -> products !! k = instruments !! k) \/
     (status_of st' = VStr "error" /\
      next_node n_select_investment_products st' = Returned n_handle_error /\
      instruments = no_instruments /\
      is_Some (st' !! "error"))).
Proof.
  intros st st'.
  assert (H : select_investments Answered.environment st = Returned st')
    by (apply returned_result_or; vm_compute; reflexivity).
  split; [exact H|].
  exact (select_investments_leaves_the_classes float binary64 Answered.environment
           st st' H).
Defined.

(** ** Runs without instruments *)

Section NoSource.

Context {F : Type} {PF : PyFloat F}.

Lemma any_value_false (d : dict F) :
  any_value d = false <-> forall k v, d !! k = Some v -> truthy v = false.
Proof.
  unfold any_value. split.
  - intros H k v Hk. destruct (truthy v) eqn:Hv; [|reflexivity].
    rewrite <- H. symmetry. apply existsb_exists. exists (k, v).
    split; [|exact Hv]. apply list_elem_of_In. now apply elem_of_map_to_list.
  - intros H. destruct (existsb _ _) eqn:Hx; [|reflexivity].
    apply existsb_exists in Hx as ([k v] & Hin & Hv).
    apply list_elem_of_In, elem_of_map_to_list in Hin.
    simpl in Hv. now rewrite (H k v Hin) in Hv.
Qed.

Lemma ensure_is_list_lookup (k j : string) (d : dict F) :
  ensure_is_list k d !! j
  = if decide (j = k) then Some (VList (listed d k)) else d !! j.
Proof.
  unfold ensure_is_list, listed.
  destruct (decide (j = k)) as [-> | Hj].
  - destruct (d !! k) as [[|b|z|f|s|l|x]|] eqn:Hk;
      try (now rewrite lookup_insert_eq). exact Hk.
  - destruct (d !! k) as [[|b|z|f|s|l|x]|] eqn:Hk;
      try (now rewrite lookup_insert_ne by congruence). reflexivity.
Qed.

Lemma listed_ensure_is_list (k j : string) (d : dict F) :
  listed (ensure_is_list k d) j = listed d j.
Proof.
  unfold listed at 1. rewrite ensure_is_list_lookup.
  destruct (decide (j = k)) as [-> | Hj]; reflexivity.
Qed.

Lemma with_three_lists_lookup (d : dict F) (j : string) :
  with_three_lists d !! j
  = if bool_decide (In j classes) then Some (VList (listed d j)) else d !! j.
Proof.
  unfold with_three_lists. rewrite !ensure_is_list_lookup.
  rewrite !listed_ensure_is_list. unfold classes.
  destruct (decide (j = "fixed_deposits")) as [-> | H1]; [reflexivity|].
  destruct (decide (j = "mutual_funds")) as [-> | H2]; [reflexivity|].
  destruct (decide (j = "stocks")) as [-> | H3]; [reflexivity|].
  rewrite bool_decide_eq_false_2; [reflexivity|].
  simpl. intuition congruence.
Qed.

(** The suggested instruments hold no instrument of any class and
    nothing else that counts as true. *)
Lemma any_value_with_three_lists (d : dict F) :
  any_value (with_three_lists d) = false <->
  (forall k, In k classes -> listed d k = []) /\
  (forall k v, ~ In k classes -> d !! k = Some v -> truthy v = false).
Proof.
  rewrite any_value_false. split.
  - intros H. split.
    + intros k Hk. specialize (H k (VList (listed d k))).
      rewrite with_three_lists_lookup, bool_decide_eq_true_2 in H by exact Hk.
      specialize (H eq_refl). simpl in H. now destruct (listed d k).
    + intros k v Hk Hv. apply (H k).
      now rewrite with_three_lists_lookup, bool_decide_eq_false_2.
  - intros [H1 H2] k v. rewrite with_three_lists_lookup.
    destruct (bool_decide (In k classes)) eqn:Hk.
    + apply bool_decide_eq_true in Hk. intros Hv. injection Hv as <-.
      now rewrite (H1 k Hk).
    + apply bool_decide_eq_false in Hk. now apply H2.
Qed.

(** What the final stage takes as suggested instruments holds
    nothing. *)
Definition no_source (st : dict F) : Prop :=
  exists d own,
    suggested_source st = Returned (VDict d, own) /\
    any_value (with_three_lists d) = false.

Lemma suggested_source_same (st st' : dict F) :
  st' !! "suggested_instruments" = st !! "suggested_instruments" ->
  st' !! "selected_products" = st !! "selected_products" ->
  suggested_source st' = suggested_source st.
Proof. intros H1 H2. unfold suggested_source. now rewrite H1, H2. Qed.

Lemma final_amounts_source (E : env F) (st : dict F) (source : value F * bool) :
  suggested_source st = Returned source ->
  (exists e, final_amounts E st = Raised e) \/
  (exists profile emergency_fund monthly_investment,
     final_amounts E st
       = Returned (profile, emergency_fund, monthly_investment, source)).
Proof.
  intros Hv. unfold final_amounts. rewrite Hv.
  destruct (get_or st "user_profile" (VDict ∅)) as [|b|z|f|s|l|profile];
    try (left; eexists; reflexivity).
  destruct (py_float E (get_or st "emergency_fund" (VInt 0))) as [ef|e|] eqn:H1;
    [|left; eexists; reflexivity|now destruct (py_float_modelled _ _ H1)].
  cbn [mbind outcome_bind bind].
  destruct (py_float E (get_or profile "monthly_investment" (VInt 0)))
    as [mi|e|] eqn:H2;
    [|left; eexists; reflexivity|now destruct (py_float_modelled _ _ H2)].
  cbn [mbind outcome_bind bind].
  destruct (is_le (f_cmp_int mi 0)); [|right; now eexists _, _, _].
  destruct (py_float E (get_or profile "monthly_income" (VInt 0)))
    as [a|e|] eqn:H3;
    [|left; eexists; reflexivity|now destruct (py_float_modelled _ _ H3)].
  cbn [mbind outcome_bind bind].
  destruct (py_float E (get_or profile "monthly_expenses" (VInt 0)))
    as [b|e|] eqn:H4;
    [|left; eexists; reflexivity|now destruct (py_float_modelled _ _ H4)].
  right. now eexists _, _, _.
Qed.

Lemma no_source_fails (E : env F) (N : number_formats F) (st : dict F) :
  no_source st ->
  exists st0 e, generate_final_recommendation E N st = Returned (final_failure E st0 e).
Proof.
  intros (d & own & Hs & Hany). unfold generate_final_recommendation.
  destruct (final_amounts_source E st _ Hs) as [(e & ->) | (p & ef & mi & ->)].
  - now exists st, e.
  - cbn [attempt]. unfold final_selection.
    match goal with
    | |- context [final_products E ?s mi ?a _] =>
        destruct (final_products_unbound E s mi a (with_three_lists d) Hany)
          as (e & ->)
    end.
    now eexists _, e.
Qed.

(** The model has given nothing to go on: it failed, or what is left
    of its answer holds no instrument. *)
Definition unanswered (E : env F) : Prop :=
  match llm_content E with
  | Returned content =>
      any_value (with_three_lists (parse_suggestions E content)) = false
  | _ => True
  end.

(** The engine writes neither of the two fields through which the
    instruments reach the final stage. *)
Definition passes_no_instruments (G : engine) : Prop :=
  writes G "suggested_instruments" = false /\
  writes G "selected_products" = false.

(** The products [select_investments] writes beside the suggested
    instruments give the final stage the same lists. *)
Lemma repeated_classes (parsed : dict F) :
  any_value (with_three_lists parsed) = false ->
  any_value
    (with_three_lists
       (<["stocks" := get_or parsed "stocks" (VList [])]>
       (<["mutual_funds" := get_or parsed "mutual_funds" (VList [])]>
       (<["fixed_deposits" := get_or parsed "fixed_deposits" (VList [])]> ∅))))
  = false.
Proof.
  rewrite !any_value_with_three_lists. intros [H1 _]. split.
  - intros k Hk. specialize (H1 k Hk). revert H1. unfold listed, get_or.
    simpl in Hk. destruct Hk as [<- | [<- | [<- | []]]];
      [rewrite lookup_insert_eq
      |rewrite lookup_insert_ne, lookup_insert_eq by discriminate
      |rewrite !lookup_insert_ne, lookup_insert_eq by discriminate];
      now destruct (parsed !! _) as [[|b|z|f|s|l|x]|].
  - intros k v Hk. simpl in Hk.
    rewrite !lookup_insert_ne by (intros <-; tauto). now rewrite lookup_empty.
Qed.

End NoSource.

Section Unanswered.

Context {F : Type} {PF : PyFloat F}.

Variable G : engine.
Variable E : env F.
Variable N : number_formats F.

Hypothesis declared : writes_declared G.
Hypothesis nothing : unanswered E \/ passes_no_instruments G.

Definition nothing_selected (st : dict F) : Prop :=
  st !! "suggested_instruments" = None /\ st !! "selected_products" = None.

Definition arrives_unanswered (n : node) (st : dict F) : Prop :=
  match n with
  | n_calculate_returns | n_generate_final_recommendation => no_source st
  | n_save_recommendation => False
  | END => status_of st <> VStr "recommendation_saved"
  | n_generate_fallback_recommendation | n_handle_error => True
  | _ => nothing_selected st
  end.

Lemma only_on_unanswered (s : string) (a : node) (st : dict F) :
  (status_of st = VStr s -> arrives_unanswered a st) ->
  arrives_unanswered (only_on s a st) st.
Proof.
  intros H. unfold only_on. destruct (eq_str _ _) eqn:Hs; [|exact I].
  apply H. now apply eq_str_true.
Qed.

Lemma unless_error_unanswered (a : node) (st : dict F) :
  arrives_unanswered a st -> arrives_unanswered (unless_error a st) st.
Proof. intros H. unfold unless_error. destruct (negb _); [exact H | exact I]. Qed.

(** The source of the final stage once [select_investments] has
    succeeded and the engine has written what it writes. *)
Lemma selected_no_source (st : dict F) (content : string) :
  nothing_selected st ->
  llm_content E = Returned content ->
  no_source
    (merge st (written G
       (<["status" := VStr "products_selected"]>
       (<["selected_products" :=
           VDict (<["stocks" :=
                     get_or (parse_suggestions E content) "stocks" (VList [])]>
                 (<["mutual_funds" :=
                     get_or (parse_suggestions E content) "mutual_funds"
                       (VList [])]>
                 (<["fixed_deposits" :=
                     get_or (parse_suggestions E content) "fixed_deposits"
                       (VList [])]>
                 (<["total_allocated" := VInt 0]> ∅))))]>
       (<["suggested_instruments" := VDict (parse_suggestions E content)]> st))))).
Proof.
  intros [Hsi Hsp] Hc. unfold no_source, suggested_source.
  rewrite !merge_written_lookup.
  rewrite !lookup_insert_ne by discriminate. rewrite lookup_insert_eq.
  rewrite (lookup_insert_ne _ "status" "selected_products") by discriminate.
  rewrite lookup_insert_eq. rewrite Hsi, Hsp.
  assert (Hun : writes G "suggested_instruments" = true \/
                writes G "selected_products" = true ->
                any_value (with_three_lists (parse_suggestions E content)) = false).
  { destruct nothing as [Hu | [H1 H2]].
    - intros _. unfold unanswered in Hu. now rewrite Hc in Hu.
    - rewrite H1, H2. intros [? | ?]; discriminate. }
  destruct (writes G "suggested_instruments").
  { eexists _, _. split; [reflexivity|]. apply Hun. now left. }
  destruct (writes G "selected_products").
  - eexists _, _. split; [reflexivity|].
    apply (repeated_classes (parse_suggestions E content)), Hun. now right.
  - eexists _, _. split; [reflexivity|]. reflexivity.
Qed.

Lemma step_unanswered (n n' : node) (st st' : dict F) :
  arrives_unanswered n st ->
  step G E N n st = Returned (n', st') ->
  arrives_unanswered n' st'.
Proof.
  intros Ha H.
  destruct (node_eq_END n) as [-> | Hn].
  { unfold step in H. simpl in H. apply Returned_eq in H. injection H as <- <-.
    exact Ha. }
  destruct (step_changes G E N n n' st st' H) as [_ K].
  assert (Hkeep : ~ In "suggested_instruments" (fields_of n) ->
                  ~ In "selected_products" (fields_of n) ->
                  nothing_selected st -> nothing_selected st').
  { intros H1 H2 [H3 H4]. split; [now rewrite (K _ H1) | now rewrite (K _ H2)]. }
  destruct (step_cases G E N n n' st st' H Hn)
    as (f & update & Hf & Hu & [(Hne & Hst & Hx) | (-> & r & Hr & _)]).
  2:{ apply route_after_emergency_fund_cases in Hr as [-> | ->]; try exact I.
      apply Hkeep; [simpl; intuition discriminate ..|exact Ha]. }
  destruct n; try (now destruct Hn); simpl in Hf; injection Hf as <-; simpl in Hx;
    try (apply Returned_eq in Hx; subst n').
  - apply unless_error_unanswered.
    apply Hkeep; [simpl; intuition discriminate ..|exact Ha].
  - apply route_after_check_profile_cases in Hx as [-> | [-> | ->]];
      try exact I.
    apply Hkeep; [simpl; intuition discriminate ..|exact Ha].
  - apply only_on_unanswered. intros Hs. simpl. now rewrite Hs.
  - apply unless_error_unanswered.
    apply Hkeep; [simpl; intuition discriminate ..|exact Ha].
  - apply only_on_unanswered. intros _.
    apply Hkeep; [simpl; intuition discriminate ..|exact Ha].
  - apply only_on_unanswered. intros _.
    apply Hkeep; [simpl; intuition discriminate ..|exact Ha].
  - apply only_on_unanswered. intros _.
    apply Hkeep; [simpl; intuition discriminate ..|exact Ha].
  - apply only_on_unanswered. intros Hs. subst st'.
    destruct (select_investments_cases E st update Hu)
      as [(e & ->) | (content & Hc & ->)].
    + rewrite (merge_status G declared st _ (VStr "error")) in Hs; [discriminate|].
      apply lookup_insert_eq.
    + now apply selected_no_source.
  - apply only_on_unanswered. intros _.
    destruct Ha as (d & own & Hd & Hany). exists d, own. split; [|exact Hany].
    rewrite <- Hd. apply suggested_source_same; apply K; simpl;
      intuition discriminate.
  - apply only_on_unanswered. intros Hs. subst st'.
    destruct (no_source_fails E N st Ha) as (st0 & e & Hf).
    rewrite Hf in Hu. apply Returned_eq in Hu. subst update.
    rewrite (merge_status G declared st _ (VStr "error")) in Hs; [discriminate|].
    apply lookup_insert_eq.
  - simpl. subst st'. unfold handle_error in Hu. apply Returned_eq in Hu.
    subst update.
    rewrite (merge_status G declared st _ (VStr "error_handled")); [discriminate|].
    apply lookup_insert_eq.
Qed.

Lemma invoke_unanswered (user_id : value F) (st' : dict F) :
  invoke G E N user_id = Some (Returned st') ->
  (status_of st' = VStr "error_handled" /\ recommends st' "error") \/
  (status_of st' = VStr "completed_with_fallback" /\ recommends st' "fallback").
Proof.
  intros H. rewrite invoke_run in H.
  pose proof (run_arrives G E N declared 13 n_fetch_user_profile _ st' I H) as He.
  assert (Hs : arrives_unanswered END st').
  { apply (run_invariant G E N arrives_unanswered step_unanswered) with (2 := H).
    split; reflexivity. }
  change (status_of st' <> VStr "recommendation_saved") in Hs.
  destruct He as [He | [He | [He _]]]; [now left | now right | contradiction].
Qed.

End Unanswered.

(** X12.  A run of the graph from its entry point needs no more than
    thirteen steps.  If no exception leaves it, it ends in one of three
    ways: [handle_error] has written a recommendation with status
    ["error"], the fallback one with status ["fallback"], or the
    recommendation with status ["success"] has been saved; and the
    state still has the [user_id] it was invoked with, which is the one
    in the recommendation.  This holds for every engine that writes at
    least the fields [GraphState] declares. *)
Theorem invoke_ends :
  forall (F : Type) (PF : PyFloat F) (G : engine) (E : env F)
         (N : number_formats F) (user_id : value F),
    writes_declared G ->
    exists o,
      invoke G E N user_id = Some o /\
      forall st', o = Returned st' ->
        ended st' /\ st' !! "user_id" = Some user_id.
Proof.
  intros F PF G E N user_id HG. rewrite invoke_run.
  destruct (run_enough G E N 13 n_fetch_user_profile (<["user_id" := user_id]> ∅))
    as (o & Ho); [simpl; lia|].
  exists o. split; [exact Ho|]. intros st' ->. split.
  - exact (run_arrives G E N HG 13 n_fetch_user_profile _ st' I Ho).
  - destruct (run_changes G E N 13 n_fetch_user_profile _ st' Ho) as [_ ->].
    apply lookup_insert_eq.
Qed.

Lemma invoke_ends_witness :
  writes_declared declared_fields /\
  exists o,
    invoke declared_fields Answered.environment Texts.plain (VInt 16) = Some o /\
    forall st', o = Returned st' ->
      ended st' /\ st' !! "user_id" = Some (VInt 16).
Proof.
  split; [exact declared_fields_declared|].
  exact (invoke_ends float binary64 declared_fields Answered.environment
           Texts.plain (VInt 16) declared_fields_declared).
Defined.

(** X13.  When the language model fails, or what is left of its answer
    holds no instrument, no run ends with a saved recommendation:
    [select_investments] reports success all the same, and the run is
    stopped two stages later, in [generate_final_recommendation]. *)
Theorem unanswered_runs_save_nothing :
  forall (F : Type) (PF : PyFloat F) (G : engine) (E : env F)
         (N : number_formats F) (user_id : value F) (st' : dict F),
    writes_declared G ->
    unanswered E ->
    invoke G E N user_id = Some (Returned st') ->
    (status_of st' = VStr "error_handled" /\ recommends st' "error") \/
    (status_of st' = VStr "completed_with_fallback" /\ recommends st' "fallback").
Proof.
  intros F PF G E N user_id st' HG Hllm H.
  exact (invoke_unanswered G E N HG (or_introl Hllm) user_id st' H).
Qed.

Lemma unanswered_runs_save_nothing_witness :
  let o := invoke every_field Sample.environment Texts.plain (VInt 16) in
  writes_declared every_field /\
  unanswered Sample.environment /\
  o = Some (Returned (final_state o)) /\
  ((status_of (final_state o) = VStr "error_handled" /\
    recommends (final_state o) "error") \/
   (status_of (final_state o) = VStr "completed_with_fallback" /\
    recommends (final_state o) "fallback")).
Proof.
  intros o.
  assert (H1 : unanswered Sample.environment) by (vm_compute; reflexivity).
  assert (H2 : o = Some (Returned (final_state o)))
    by (apply finished_final_state; vm_compute; reflexivity).
  split; [exact every_field_declared|]. split; [exact H1|]. split; [exact H2|].
  exact (unanswered_runs_save_nothing float binary64 every_field
           Sample.environment Texts.plain (VInt 16) (final_state o)
           every_field_declared H1 H2).
Defined.

(** X14.  The instruments reach the final stage through the fields
    [suggested_instruments] and [selected_products], which [GraphState]
    does not declare.  Under an engine that writes neither of them no
    run ends with a saved recommendation, whatever the model answers:
    the final stage finds no instruments and fails. *)
Theorem instruments_pass_through_undeclared_fields :
  forall (F : Type) (PF : PyFloat F) (G : engine) (E : env F)
         (N : number_formats F) (user_id : value F) (st' : dict F),
    writes_declared G ->
    writes G "suggested_instruments" = false ->
    writes G "selected_products" = false ->
    invoke G E N user_id = Some (Returned st') ->
    (status_of st' = VStr "error_handled" /\ recommends st' "error") \/
    (status_of st' = VStr "completed_with_fallback" /\ recommends st' "fallback").
Proof.
  intros F PF G E N user_id st' HG H1 H2 H.
  exact (invoke_unanswered G E N HG (or_intror (conj H1 H2)) user_id st' H).
Qed.

Lemma instruments_pass_through_undeclared_fields_witness :
  let o := invoke declared_fields Answered.environment Texts.plain (VInt 16) in
  writes_declared declared_fields /\
  writes declared_fields "suggested_instruments" = false /\
  writes declared_fields "selected_products" = false /\
  o = Some (Returned (final_state o)) /\
  ((status_of (final_state o) = VStr "error_handled" /\
    recommends (final_state o) "error") \/
   (status_of (final_state o) = VStr "completed_with_fallback" /\
    recommends (final_state o) "fallback")).
Proof.
  intros o.
  assert (H2 : o = Some (Returned (final_state o)))
    by (apply finished_final_state; vm_compute; reflexivity).
  split; [exact declared_fields_declared|].
  split; [reflexivity|]. split; [reflexivity|]. split; [exact H2|].
  exact (instruments_pass_through_undeclared_fields float binary64 declared_fields
           Answered.environment Texts.plain (VInt 16) (final_state o)
           declared_fields_declared eq_refl eq_refl H2).
Defined.

(** ** Sample runs of the graph *)

(** With the sample answer, and an engine that writes every field, the
    run goes all the way: the recommendation is generated and saved,
    with the mutual funds, which the answer left out, as an empty
    list. *)
Lemma answered_run_is_saved :
  let o := invoke every_field Answered.environment Texts.plain (VInt 16) in
  o = Some (Returned (final_state o)) /\
  status_of (final_state o) = VStr "recommendation_saved" /\
  py_get (get_or (final_state o) "recommendation" VNone) "status" VNone
    = Returned (VStr "success") /\
  py_get (get_or (final_state o) "suggested_instruments" VNone) "mutual_funds" VNone
    = Returned (VList []).
Proof.
  split; [apply finished_final_state; vm_compute; reflexivity|].
  repeat split; vm_compute; reflexivity.
Qed.

(** With the sample model, which fails, the run ends in [handle_error],
    with the message of the stage that failed. *)
Lemma unanswered_run_is_an_error :
  let o := invoke every_field Sample.environment Texts.plain (VInt 16) in
  status_of (final_state o) = VStr "error_handled" /\
  py_get (get_or (final_state o) "recommendation" VNone) "message" VNone
    = Returned (VStr "Error generating final recommendation: stocks").
Proof. split; vm_compute; reflexivity. Qed.

(** ** From the profile to the fallback *)

(** X15.  In a run of the graph the only field
    [check_profile_completeness] can report as missing is the investment
    horizon: [fetch_user_profile] has already turned a profile without
    an income, the expenses or a risk appetite into an error. *)
Theorem only_the_horizon_can_be_missing :
  forall (F : Type) (PF : PyFloat F) (G : engine) (E : env F)
         (st update st2 : dict F),
    writes_declared G ->
    fetch_user_profile E st = Returned update ->
    next_node n_fetch_user_profile (merge st (written G update))
      = Returned n_check_profile_completeness ->
    check_profile_completeness E (merge st (written G update)) = Returned st2 ->
    status_of st2 = VStr "profile_incomplete" ->
    st2 !! "missing_fields" = Some (VList [VStr "investment_horizon_years"]) /\
    st2 !! "error" = Some (VStr "Missing required fields: investment_horizon_years").
Proof.
  intros F PF G E st update st2 HG H1 Hn H2 Hs.
  assert (Hok : status_of update <> VStr "error").
  { intros Hst. simpl in Hn. unfold unless_error in Hn.
    rewrite (merge_status G HG st update _ (status_lookup _ _ Hst)) in Hn.
    discriminate. }
  destruct (fetch_user_profile_success E st update H1 Hok) as (data & -> & Hf).
  set (st1 := merge st (written G _)) in *.
  assert (Hp : st1 !! "user_profile" = Some (VDict data)).
  { unfold st1. apply (merge_declared G HG); [simpl; tauto|].
    rewrite lookup_insert_ne by discriminate. apply lookup_insert_eq. }
  unfold fetch_required_fields in Hf. cbn [List.filter] in Hf.
  destruct (absent_or_none data "monthly_income") eqn:Hi; [discriminate|].
  destruct (absent_or_none data "monthly_expenses") eqn:He; [discriminate|].
  destruct (absent_or_none data "risk_appetite") eqn:Hr; [discriminate|].
  destruct (absent_or_none data "investment_horizon_years") eqn:Hh.
  - assert (Hm : List.filter (absent_or_none data) required_fields
                 = ["investment_horizon_years"]).
    { unfold required_fields. cbn [List.filter]. now rewrite Hi, He, Hr, Hh. }
    rewrite (check_profile_completeness_missing E st1 data _ _ Hp Hm) in H2.
    apply Returned_eq in H2. subst st2. split.
    + rewrite lookup_insert_ne by discriminate. apply lookup_insert_eq.
    + apply lookup_insert_eq.
  - assert (Hm : List.filter (absent_or_none data) required_fields = []).
    { unfold required_fields. cbn [List.filter]. now rewrite Hi, He, Hr, Hh. }
    now destruct (check_profile_completeness_complete E st1 st2 data Hp Hm H2).
Qed.

Lemma only_the_horizon_can_be_missing_witness :
  let E := Sample.env_with (<["investment_horizon_years" := VNone]> Sample.profile) in
  let update := result_or ∅ (fetch_user_profile E Sample.initial) in
  let st1 := merge Sample.initial (written declared_fields update) in
  let st2 := result_or ∅ (check_profile_completeness E st1) in
  writes_declared declared_fields /\
  fetch_user_profile E Sample.initial = Returned update /\
  next_node n_fetch_user_profile st1 = Returned n_check_profile_completeness /\
  check_profile_completeness E st1 = Returned st2 /\
  status_of st2 = VStr "profile_incomplete" /\
  st2 !! "missing_fields" = Some (VList [VStr "investment_horizon_years"]) /\
  st2 !! "error" = Some (VStr "Missing required fields: investment_horizon_years").
Proof.
  intros E update st1 st2.
  assert (H1 : fetch_user_profile E Sample.initial = Returned update)
    by (apply returned_result_or; vm_compute; reflexivity).
  assert (H2 : next_node n_fetch_user_profile st1 = Returned n_check_profile_completeness)
    by (vm_compute; reflexivity).
  assert (H3 : check_profile_completeness E st1 = Returned st2)
    by (apply returned_result_or; vm_compute; reflexivity).
  assert (H4 : status_of st2 = VStr "profile_incomplete") by (vm_compute; reflexivity).
  split; [exact declared_fields_declared|].
  repeat (split; [assumption|]).
  exact (only_the_horizon_can_be_missing float binary64 declared_fields E
           Sample.initial update st2 declared_fields_declared H1 H2 H3 H4).
Defined.

Section FallbackText.

Context {F : Type} {PF : PyFloat F}.

(** What [generate_fallback_recommendation] returns once its message is
    known. *)
Lemma generate_fallback_recommendation_with (E : env F) (st : dict F)
    (message : value F) :
  fallback_message st = Returned message ->
  exists st2 recommendation,
    generate_fallback_recommendation E st = Returned st2 /\
    status_of st2 = VStr "completed_with_fallback" /\
    next_node n_generate_fallback_recommendation st2 = Returned END /\
    st2 !! "recommendation" = Some (VDict recommendation) /\
    recommendation !! "status" = Some (VStr "fallback") /\
    recommendation !! "user_id" = Some (get_or st "user_id" VNone) /\
    recommendation !! "message" = Some message.
Proof.
  intros Hm. unfold generate_fallback_recommendation. rewrite Hm.
  cbn [mbind outcome_bind bind]. eexists _, _. split; [reflexivity|].
  split; [apply status_of_insert|].
  split. { simpl. unfold only_on. now rewrite status_of_insert. }
  split. { rewrite lookup_insert_ne by discriminate. apply lookup_insert_eq. }
  split; [apply lookup_insert_eq|].
  split. { rewrite !lookup_insert_ne by discriminate. apply lookup_insert_eq. }
  rewrite lookup_insert_ne by discriminate. apply lookup_insert_eq.
Qed.

End FallbackText.

(** X16.  [generate_fallback_recommendation], which has no [try], does
    not raise in a run of the graph: whenever
    [check_profile_completeness] sends the run to it, it returns with
    status ["completed_with_fallback"], for which the edge is [END].
    After an invalid profile the message of its recommendation repeats
    the check's error.  After an incomplete one it lists the missing
    fields the check named when the engine has written
    [missing_fields], which [GraphState] does not declare, and is the
    general request to complete the profile when it has not. *)
Theorem fallback_after_check_returns :
  forall (F : Type) (PF : PyFloat F) (G : engine) (E : env F)
         (st update : dict F),
    writes_declared G ->
    st !! "missing_fields" = None ->
    check_profile_completeness E st = Returned update ->
    next_node n_check_profile_completeness (merge st (written G update))
      = Returned n_generate_fallback_recommendation ->
    exists st2 recommendation,
      generate_fallback_recommendation E (merge st (written G update))
        = Returned st2 /\
      status_of st2 = VStr "completed_with_fallback" /\
      next_node n_generate_fallback_recommendation st2 = Returned END /\
      st2 !! "recommendation" = Some (VDict recommendation) /\
      recommendation !! "status" = Some (VStr "fallback") /\
      recommendation !! "user_id" = Some (get_or st "user_id" VNone) /\
      ((exists fields,
          status_of update = VStr "profile_incomplete" /\
          update !! "error" = Some (VStr ("Missing required fields: " ++ fields)) /\
          recommendation !! "message"
            = Some (VStr
                (if writes G "missing_fields"
                 then "Please provide the following information: " ++ fields ++ "."
                 else "Please complete your profile to get personalized recommendations."))) \/
       (status_of update = VStr "profile_invalid" /\
        recommendation !! "message" = update !! "error")).
Proof.
  intros F PF G E st update HG Hmf H Hn.
  set (st1 := merge st (written G update)) in *.
  assert (Hid : get_or st1 "user_id" VNone = get_or st "user_id" VNone).
  { unfold get_or, st1. rewrite merge_written_same; [reflexivity|]. left.
    apply (check_profile_completeness_changes E st update H).
    simpl. intuition discriminate. }
  assert (Hst : forall s, status_of update = VStr s ->
                  get_or st1 "status" (VStr "profile_incomplete") = VStr s /\
                  get_or st1 "status" (VStr "error") = VStr s).
  { intros s Hs.
    pose proof (merge_declared G HG st update "status" (VStr s)
                  ltac:(simpl; tauto) (status_lookup _ _ Hs)) as Hl.
    fold st1 in Hl. split; now apply get_or_Some. }
  assert (Hmsg : exists message,
            fallback_message st1 = Returned message /\
            ((exists fields,
                status_of update = VStr "profile_incomplete" /\
                update !! "error"
                  = Some (VStr ("Missing required fields: " ++ fields)) /\
                message
                  = VStr
                      (if writes G "missing_fields"
                       then "Please provide the following information: "
                            ++ fields ++ "."
                       else "Please complete your profile to get personalized recommendations.")) \/
             (status_of update = VStr "profile_invalid" /\
              Some message = update !! "error"))).
  { destruct (check_profile_completeness_cases E st update H)
      as [Hu | [(f & fs & Hu) | Hh]].
    - exfalso. assert (Hs : status_of update = VStr "error")
        by (rewrite Hu; apply status_of_with_error).
      simpl in Hn. unfold route_after_check_profile in Hn.
      rewrite (proj2 (Hst _ Hs)) in Hn. discriminate.
    - assert (Hs : status_of update = VStr "profile_incomplete").
      { rewrite Hu. rewrite !status_of_insert_ne by discriminate.
        apply status_of_insert. }
      assert (Hg : get_or st1 "missing_fields" (VList [])
                   = if writes G "missing_fields" then VList (map VStr (f :: fs))
                     else VList []).
      { unfold get_or, st1. rewrite merge_written_lookup. rewrite Hu.
        rewrite lookup_insert_ne by discriminate. rewrite lookup_insert_eq, Hmf.
        now destruct (writes G "missing_fields"). }
      unfold fallback_message. rewrite (proj1 (Hst _ Hs)), Hg.
      cbn [eq_str String.eqb Ascii.eqb Bool.eqb].
      assert (He : update !! "error"
                   = Some (VStr ("Missing required fields: " ++ join ", " (f :: fs))))
        by (rewrite Hu; apply lookup_insert_eq).
      destruct (writes G "missing_fields").
      + cbn [map truthy]. unfold py_join. rewrite <- (map_cons VStr f fs).
        rewrite all_text_map_VStr. cbn [mbind outcome_bind bind].
        eexists. split; [reflexivity|]. left. exists (join ", " (f :: fs)).
        now repeat split.
      + cbn [truthy]. eexists. split; [reflexivity|]. left.
        exists (join ", " (f :: fs)). now repeat split.
    - assert (Hc : (exists st0 e, update = check_profile_handler E st0 e) \/
                   status_of update = VStr "profile_valid").
      { destruct Hh as [(e & ->) | [(p & e & ->) | (p & ->)]];
          [left; now eexists _, _ ..|].
        right. apply status_of_insert. }
      destruct Hc as [(st0 & e & Hu) | Hv].
      2:{ exfalso. simpl in Hn. unfold route_after_check_profile in Hn.
          rewrite (proj2 (Hst _ Hv)) in Hn. discriminate. }
      pose proof (check_profile_handler_status E st0 e) as Hs.
      pose proof (check_profile_handler_error E st0 e) as He.
      rewrite <- Hu in Hs, He.
      destruct (exn_cls e);
        try (exfalso; simpl in Hn; unfold route_after_check_profile in Hn;
             rewrite (proj2 (Hst _ Hs)) in Hn; discriminate).
      unfold fallback_message. rewrite (proj1 (Hst _ Hs)).
      cbn [eq_str String.eqb Ascii.eqb Bool.eqb].
      assert (Hl : st1 !! "error" = update !! "error").
      { rewrite He. apply (merge_declared G HG); [simpl; tauto | exact He]. }
      eexists. split; [reflexivity|]. right. split; [exact Hs|].
      rewrite <- Hl. rewrite He in Hl. unfold get_or. now rewrite Hl. }
  destruct Hmsg as (message & Hm & Hcases).
  destruct (generate_fallback_recommendation_with E st1 message Hm)
    as (st2 & r & R1 & R2 & R3 & R4 & R5 & R6 & R7).
  exists st2, r. rewrite Hid in R6.
  repeat (split; [assumption|]).
  destruct Hcases as [(fields & C1 & C2 & ->) | (C1 & C2)].
  - left. exists fields. now repeat split.
  - right. split; [exact C1|]. now rewrite R7.
Qed.

Lemma fallback_after_check_returns_witness :
  let profile := <["investment_horizon_years" := VNone]> Sample.profile in
  let st := <["user_profile" := VDict profile]> Sample.initial in
  let update := result_or ∅ (check_profile_completeness Sample.environment st) in
  let st1 := merge st (written declared_fields update) in
  writes_declared declared_fields /\
  st !! "missing_fields" = None /\
  check_profile_completeness Sample.environment st = Returned update /\
  next_node n_check_profile_completeness st1
    = Returned n_generate_fallback_recommendation /\
  exists st2 recommendation,
    generate_fallback_recommendation Sample.environment st1 = Returned st2 /\
    status_of st2 = VStr "completed_with_fallback" /\
    next_node n_generate_fallback_recommendation st2 = Returned END /\
    st2 !! "recommendation" = Some (VDict recommendation) /\
    recommendation !! "status" = Some (VStr "fallback") /\
    recommendation !! "user_id" = Some (get_or st "user_id" VNone) /\
    ((exists fields,
        status_of update = VStr "profile_incomplete" /\
        update !! "error" = Some (VStr ("Missing required fields: " ++ fields)) /\
        recommendation !! "message"
          = Some (VStr
              (if writes declared_fields "missing_fields"
               then "Please provide the following information: " ++ fields ++ "."
               else "Please complete your profile to get personalized recommendations."))) \/
     (status_of update = VStr "profile_invalid" /\
      recommendation !! "message" = update !! "error")).
Proof.
  intros profile st update st1.
  assert (H0 : st !! "missing_fields" = None) by reflexivity.
  assert (H1 : check_profile_completeness Sample.environment st = Returned update)
    by (apply returned_result_or; vm_compute; reflexivity).
  assert (H2 : next_node n_check_profile_completeness st1
               = Returned n_generate_fallback_recommendation)
    by (vm_compute; reflexivity).
  split; [exact declared_fields_declared|].
  split; [exact H0|]. split; [exact H1|]. split; [exact H2|].
  exact (fallback_after_check_returns float binary64 declared_fields
           Sample.environment st update declared_fields_declared H0 H1 H2).
Defined.

(** ** fetch_market_data and preprocess_market_data *)

Section LowRisk.

Context {F : Type} {PF : PyFloat F}.

(** [s.get("risk_level", "").lower() == "low"], where it has a value. *)
Definition is_low_risk (s : value F) : bool :=
  match s with
  | VDict d =>
      match get_or d "risk_level" (VStr "") with
      | VStr level => String.eqb (lower level) "low"
      | _ => false
      end
  | _ => false
  end.

Lemma low_risk_filter (stocks kept : list (value F)) :
  low_risk stocks = Returned kept -> kept = List.filter is_low_risk stocks.
Proof.
  revert kept. induction stocks as [|s stocks IH]; intros kept; simpl.
  - now intros [= <-].
  - intros H. apply bound in H as (level & Hl & H).
    apply bound in H as (lowered & Hw & H).
    apply bound in H as (rest & Hr & H).
    apply Returned_eq in H. subst kept. rewrite (IH rest Hr).
    destruct s as [|b|z|f|t|l|d]; try discriminate.
    simpl in Hl. apply Returned_eq in Hl. subst level.
    destruct (get_or d "risk_level" (VStr "")) as [|b|z|f|t|l|d'] eqn:Hg;
      try discriminate.
    simpl in Hw. apply Returned_eq in Hw. subst lowered.
    assert (Hlow : is_low_risk (VDict d) = String.eqb (lower t) "low").
    { unfold is_low_risk. now rewrite Hg. }
    cbn [List.filter]. now rewrite Hlow.
Qed.

End LowRisk.

(** X17.  What [preprocess_market_data] hands on when it succeeds: the
    mutual funds and the fixed deposits of the market data as they are,
    and the stocks as they are unless the risk appetite of the profile
    is low in any letter case; then only the stocks whose [risk_level]
    is low, in their order, so that stocks without a [risk_level] are
    all left out. *)
Theorem preprocess_filters_stocks_for_low_risk :
  forall (F : Type) (PF : PyFloat F) (E : env F)
         (st st' market profile : dict F) (appetite : string),
    st !! "market_data" = Some (VDict market) ->
    get_or st "user_profile" (VDict ∅) = VDict profile ->
    get_or profile "risk_appetite" (VStr "Medium") = VStr appetite ->
    preprocess_market_data E st = Returned st' ->
    status_of st' = VStr "market_data_processed" ->
    exists processed stocks,
      st' !! "processed_market_data" = Some (VDict processed) /\
      processed !! "mutual_funds" = Some (get_or market "mutual_funds" (VList [])) /\
      processed !! "fixed_deposits"
        = Some (get_or market "fixed_deposits" (VList [])) /\
      processed !! "stocks" = Some stocks /\
      (lower appetite <> "low" -> stocks = get_or market "stocks" (VList [])) /\
      (lower appetite = "low" ->
       forall l, get_or market "stocks" (VList []) = VList l ->
                 stocks = VList (List.filter is_low_risk l)).
Proof.
  intros F PF E st st' market profile appetite Hm Hp Ha H Hs.
  unfold preprocess_market_data in H.
  destruct (preprocess_market_data_body st) as [r|e|] eqn:Hb; [| |discriminate].
  2:{ apply Returned_eq in H. subst st'. now rewrite status_of_with_error in Hs. }
  apply Returned_eq in H. subst r.
  unfold preprocess_market_data_body in Hb.
  rewrite (get_or_Some _ _ _ _ Hm), Hp in Hb.
  destruct (negb _); [discriminate|].
  cbn [py_get mbind outcome_bind bind] in Hb. rewrite Ha in Hb.
  cbn [py_lower mbind outcome_bind bind] in Hb.
  apply bound in Hb as (stocks & Hst & Hb). apply Returned_eq in Hb. subst st'.
  eexists _, stocks.
  split. { rewrite lookup_insert_ne by discriminate. apply lookup_insert_eq. }
  split. { rewrite lookup_insert_ne by discriminate. apply lookup_insert_eq. }
  split. { rewrite !lookup_insert_ne by discriminate. apply lookup_insert_eq. }
  split; [apply lookup_insert_eq|].
  destruct (String.eqb (lower appetite) "low") eqn:Hlow.
  - apply String.eqb_eq in Hlow. split; [intros Hn; now destruct Hn|].
    intros _ l Hl. rewrite Hl in Hst. simpl in Hst.
    apply bound in Hst as (kept & Hk & Hst). apply Returned_eq in Hst. subst stocks.
    now rewrite (low_risk_filter l kept Hk).
  - apply String.eqb_neq in Hlow. split; [|intros Hn; now destruct Hlow].
    intros _. now apply Returned_eq in Hst.
Qed.

Module Cautious.

(** A market with three stocks, one of them of low risk and one
    without a risk level, for a user of low risk appetite. *)
Definition market : dict float :=
  <["stocks" :=
      VList [VDict (<["symbol" := VStr "TCS"]> (<["risk_level" := VStr "Low"]> ∅));
             VDict (<["symbol" := VStr "ZOMATO"]> (<["risk_level" := VStr "High"]> ∅));
             VDict (<["symbol" := VStr "INFY"]> ∅)]]>
  (<["mutual_funds" := VList [VDict (<["scheme_name" := VStr "Liquid Fund"]> ∅)]]> ∅).

Definition profile : dict float := <["risk_appetite" := VStr "Low"]> Sample.profile.

Definition fetched : dict float :=
  <["market_data" := VDict market]>
  (<["user_profile" := VDict profile]> Sample.initial).

End Cautious.

Lemma preprocess_filters_stocks_for_low_risk_witness :
  let st' := result_or ∅ (preprocess_market_data Sample.environment Cautious.fetched) in
  Cautious.fetched !! "market_data" = Some (VDict Cautious.market) /\
  get_or Cautious.fetched "user_profile" (VDict ∅) = VDict Cautious.profile /\
  get_or Cautious.profile "risk_appetite" (VStr "Medium") = VStr "Low" /\
  preprocess_market_data Sample.environment Cautious.fetched = Returned st' /\
  status_of st' = VStr "market_data_processed" /\
  exists processed stocks,
    st' !! "processed_market_data" = Some (VDict processed) /\
    processed !! "mutual_funds"
      = Some (get_or Cautious.market "mutual_funds" (VList [])) /\
    processed !! "fixed_deposits"
      = Some (get_or Cautious.market "fixed_deposits" (VList [])) /\
    processed !! "stocks" = Some stocks /\
    (lower "Low" <> "low" -> stocks = get_or Cautious.market "stocks" (VList [])) /\
    (lower "Low" = "low" ->
     forall l, get_or Cautious.market "stocks" (VList []) = VList l ->
               stocks = VList (List.filter is_low_risk l)).
Proof.
  intros st'.
  assert (H1 : Cautious.fetched !! "market_data" = Some (VDict Cautious.market))
    by reflexivity.
  assert (H2 : get_or Cautious.fetched "user_profile" (VDict ∅)
               = VDict Cautious.profile) by reflexivity.
  assert (H3 : get_or Cautious.profile "risk_appetite" (VStr "Medium") = VStr "Low")
    by reflexivity.
  assert (H4 : preprocess_market_data Sample.environment Cautious.fetched
               = Returned st')
    by (apply returned_result_or; vm_compute; reflexivity).
  assert (H5 : status_of st' = VStr "market_data_processed")
    by (vm_compute; reflexivity).
  repeat (split; [assumption|]).
  exact (preprocess_filters_stocks_for_low_risk float binary64 Sample.environment
           Cautious.fetched st' Cautious.market Cautious.profile "Low"
           H1 H2 H3 H4 H5).
Defined.

(** On that market the low-risk user is left with one stock. *)
Lemma cautious_stocks :
  List.filter is_low_risk
    [VDict (<["symbol" := VStr "TCS"]> (<["risk_level" := VStr "Low"]> ∅));
     VDict (<["symbol" := VStr "ZOMATO"]> (<["risk_level" := VStr "High"]> ∅));
     VDict (<["symbol" := VStr "INFY"]> (∅ : dict float))]
  = [VDict (<["symbol" := VStr "TCS"]> (<["risk_level" := VStr "Low"]> ∅))].
Proof. vm_compute. reflexivity. Qed.

(** X18.  A market file that holds an empty object passes
    [fetch_market_data], which reports ["market_data_fetched"], and is
    refused one stage later: [preprocess_market_data] reports an error
    for want of market data, and the run goes to [handle_error]. *)
Theorem empty_market_is_refused_late :
  forall (F : Type) (PF : PyFloat F) (G : engine) (E : env F) (st : dict F),
    writes_declared G ->
    market_data_tool_run E = VDict ∅ ->
    exists update st2,
      fetch_market_data E st = Returned update /\
      status_of update = VStr "market_data_fetched" /\
      next_node n_fetch_market_data (merge st (written G update))
        = Returned n_preprocess_market_data /\
      preprocess_market_data E (merge st (written G update)) = Returned st2 /\
      status_of st2 = VStr "error" /\
      st2 !! "error"
        = Some (VStr ("Error processing market data: "
                      ++ "No market data available for processing")) /\
      next_node n_preprocess_market_data st2 = Returned n_handle_error.
Proof.
  intros F PF G E st HG Hm.
  eexists _, _. split.
  { unfold fetch_market_data. rewrite Hm. rewrite lookup_empty. reflexivity. }
  split; [apply status_of_insert|].
  split.
  { simpl. unfold unless_error.
    rewrite (merge_status G HG st _ (VStr "market_data_fetched"))
      by apply lookup_insert_eq.
    reflexivity. }
  split.
  { unfold preprocess_market_data, preprocess_market_data_body.
    rewrite (get_or_Some _ "market_data" (VDict ∅)).
    2:{ apply (merge_declared G HG); [simpl; tauto|].
        rewrite lookup_insert_ne by discriminate. apply lookup_insert_eq. }
    simpl truthy. rewrite bool_decide_eq_true_2 by reflexivity. reflexivity. }
  split; [apply status_of_with_error|].
  split. { unfold with_error. rewrite lookup_insert_ne by discriminate.
           apply lookup_insert_eq. }
  simpl. unfold only_on. now rewrite status_of_with_error.
Qed.

Lemma empty_market_is_refused_late_witness :
  let E : env float := {|
    user_profile_tool_run := user_profile_tool_run Sample.environment;
    market_data_tool_run := VDict ∅;
    now_isoformat := now_isoformat Sample.environment;
    str_of := str_of Sample.environment;
    float_of_text := float_of_text Sample.environment;
    interpreter_text := interpreter_text Sample.environment;
    traceback_text := traceback_text Sample.environment;
    llm_content := llm_content Sample.environment;
    json_loads := json_loads Sample.environment;
    json_dumps := json_dumps Sample.environment;
    db_connect_error := None;
    db_insert_error := db_insert_error Sample.environment
  |} in
  writes_declared declared_fields /\
  market_data_tool_run E = VDict ∅ /\
  exists update st2,
    fetch_market_data E Sample.initial = Returned update /\
    status_of update = VStr "market_data_fetched" /\
    next_node n_fetch_market_data (merge Sample.initial (written declared_fields update))
      = Returned n_preprocess_market_data /\
    preprocess_market_data E (merge Sample.initial (written declared_fields update))
      = Returned st2 /\
    status_of st2 = VStr "error" /\
    st2 !! "error"
      = Some (VStr ("Error processing market data: "
                    ++ "No market data available for processing")) /\
    next_node n_preprocess_market_data st2 = Returned n_handle_error.
Proof.
  intros E.
  assert (H : market_data_tool_run E = VDict ∅) by reflexivity.
  split; [exact declared_fields_declared|]. split; [exact H|].
  exact (empty_market_is_refused_late float binary64 declared_fields E
           Sample.initial declared_fields_declared H).
Defined.

(** ** define_risk_based_allocation *)



(** ** calculate_emergency_fund *)

(** X20.  A profile that has neither an income nor the expenses is
    taken to have both at zero, and is refused with the words of the
    guard: the stage says that the expenses exceed or equal the income,
    and the run goes to [handle_error]. *)
Theorem missing_amounts_count_as_zero :
  forall (E : env float) (st profile : dict float),
    get_or st "user_profile" (VDict ∅) = VDict profile ->
    profile !! "monthly_income" = None ->
    profile !! "monthly_expenses" = None ->
    exists st',
      calculate_emergency_fund E st = Returned st' /\
      status_of st' = VStr "error" /\
      st' !! "error"
        = Some (VStr "Monthly expenses exceed or equal monthly income") /\
      st' !! "emergency_fund" = st !! "emergency_fund" /\
      next_node n_calculate_emergency_fund st' = Returned n_handle_error.
Proof.
  intros E st profile Hp Hi He.
  assert (Ha : amounts E st profile 0%float 0%float).
  { unfold amounts. rewrite Hp.
    rewrite (get_or_None _ _ _ Hi), (get_or_None _ _ _ He).
    repeat split; vm_compute; reflexivity. }
  exists (with_error st "Monthly expenses exceed or equal monthly income").
  split.
  { apply (calculate_emergency_fund_refused E st profile _ _ Ha).
    vm_compute. reflexivity. }
  split; [apply status_of_with_error|].
  split. { unfold with_error. rewrite lookup_insert_ne by discriminate.
           apply lookup_insert_eq. }
  split. { unfold with_error. now rewrite !lookup_insert_ne by discriminate. }
  apply route_after_emergency_fund_error.
Qed.

Lemma missing_amounts_count_as_zero_witness :
  get_or Sample.initial "user_profile" (VDict ∅) = VDict (∅ : dict float) /\
  (∅ : dict float) !! "monthly_income" = None /\
  (∅ : dict float) !! "monthly_expenses" = None /\
  exists st',
    calculate_emergency_fund Sample.environment Sample.initial = Returned st' /\
    status_of st' = VStr "error" /\
    st' !! "error"
      = Some (VStr "Monthly expenses exceed or equal monthly income") /\
    st' !! "emergency_fund" = Sample.initial !! "emergency_fund" /\
    next_node n_calculate_emergency_fund st' = Returned n_handle_error.
Proof.
  assert (H1 : get_or Sample.initial "user_profile" (VDict ∅)
               = VDict (∅ : dict float)) by reflexivity.
  assert (H2 : (∅ : dict float) !! "monthly_income" = None) by reflexivity.
  assert (H3 : (∅ : dict float) !! "monthly_expenses" = None) by reflexivity.
  split; [exact H1|]. split; [exact H2|]. split; [exact H3|].
  exact (missing_amounts_count_as_zero Sample.environment Sample.initial ∅ H1 H2 H3).
Defined.

(** ** Exceptions that leave a run *)

Section Protected.

Context {F : Type} {PF : PyFloat F}.

(** The stages whose body is a [try] return whatever happens. *)
Lemma fetch_user_profile_protected (E : env F) (st : dict F) (e : exn F) :
  fetch_user_profile E st <> Raised e.
Proof.
  unfold fetch_user_profile.
  repeat match goal with
         | |- context [match ?x with _ => _ end] => destruct x
         | |- context [if ?x then _ else _] => destruct x
         end; discriminate.
Qed.

Lemma check_profile_completeness_protected (E : env F) (st : dict F) (e : exn F) :
  check_profile_completeness E st <> Raised e.
Proof.
  intros H.
  unfold check_profile_completeness in H.
  destruct (get_or st "user_profile" (VDict ∅)); try discriminate.
  destruct (List.filter _ _); try discriminate.
  match type of H with
  | match ?m with _ => _ end = _ => destruct m; try discriminate
  end.
  cbv zeta in H. destruct (risk_mapping !! _); discriminate.
Qed.

Lemma fetch_market_data_protected (E : env F) (st : dict F) (e : exn F) :
  fetch_market_data E st <> Raised e.
Proof.
  unfold fetch_market_data.
  repeat match goal with
         | |- context [match ?x with _ => _ end] => destruct x
         end; discriminate.
Qed.

Lemma preprocess_market_data_protected (E : env F) (st : dict F) (e : exn F) :
  preprocess_market_data E st <> Raised e.
Proof.
  unfold preprocess_market_data. now destruct (preprocess_market_data_body st).
Qed.

Lemma calculate_emergency_fund_protected (E : env F) (st : dict F) (e : exn F) :
  calculate_emergency_fund E st <> Raised e.
Proof.
  unfold calculate_emergency_fund.
  destruct (calculate_emergency_fund_body E st) as [r|x|]; try discriminate.
  now destruct (exn_cls x).
Qed.

Lemma define_risk_based_allocation_protected (E : env F) (st : dict F) (e : exn F) :
  define_risk_based_allocation E st <> Raised e.
Proof.
  unfold define_risk_based_allocation.
  now destruct (define_risk_based_allocation_body E st).
Qed.

Lemma select_investments_protected (E : env F) (st : dict F) (e : exn F) :
  select_investments E st <> Raised e.
Proof. unfold select_investments. now destruct (select_investments_body E st). Qed.

Lemma calculate_returns_protected (E : env F) (st : dict F) (e : exn F) :
  calculate_returns E st <> Raised e.
Proof. unfold calculate_returns. now destruct (calculate_returns_body E st). Qed.

Lemma attempt_protected {A} (E : env F) (st : dict F) (m : outcome F A)
    (k : A -> outcome F (dict F)) (e : exn F) :
  (forall a, k a <> Raised e) -> attempt E st m k <> Raised e.
Proof. intros Hk. destruct m; simpl; [apply Hk | discriminate ..]. Qed.

Lemma generate_final_recommendation_protected (E : env F) (N : number_formats F)
    (st : dict F) (e : exn F) :
  generate_final_recommendation E N st <> Raised e.
Proof.
  assert (Hw : forall s x, final_write E N s x <> Raised e).
  { intros s x. apply attempt_protected. discriminate. }
  assert (Hr : forall s h x, final_returns E N s h x <> Raised e).
  { intros s h x. apply attempt_protected. intros [r w]. apply Hw. }
  assert (Hs : forall s p a b d, final_selection E N s p a b d <> Raised e).
  { intros s p a b d. apply attempt_protected. intros [[[x y] z] w]. apply Hr. }
  apply attempt_protected. intros [[[p a] b] [src own]].
  destruct src; apply Hs.
Qed.

Lemma save_recommendation_protected (E : env F) (st : dict F) (e : exn F) :
  save_recommendation E st <> Raised e.
Proof.
  unfold save_recommendation. destruct (negb _); [discriminate|].
  now destruct (save_recommendation_body _ _ _).
Qed.

End Protected.

(** ** What can leave a run *)

Section Horizon.

Context {F : Type} {PF : PyFloat F}.

Variable G : engine.
Variable E : env F.
Variable N : number_formats F.
Variable user_id : value F.

Hypothesis declared : writes_declared G.

(** The row the profile tool answers with in a run for [user_id]. *)
Definition fetched : dict F := user_profile_tool_run E user_id.

(** A profile that still has the horizon of that row. *)
Definition has_horizon (p : dict F) : Prop :=
  p !! "investment_horizon_years" = fetched !! "investment_horizon_years".

(** A state whose profile has passed the completeness check. *)
Definition checked (st : dict F) : Prop :=
  exists p a,
    st !! "user_profile" = Some (VDict p) /\
    has_horizon p /\
    p !! "risk_appetite" = Some (VStr a) /\
    absent_or_none p "investment_horizon_years" = false.

Definition on_arrival (n : node) (st : dict F) : Prop :=
  match n with
  | n_fetch_user_profile => st = <["user_id" := user_id]> ∅
  | n_check_profile_completeness =>
      (exists p, st !! "user_profile" = Some (VDict p) /\ has_horizon p) /\
      st !! "missing_fields" = None
  | n_generate_fallback_recommendation =>
      exists message, fallback_message st = Returned message
  | n_fetch_market_data | n_preprocess_market_data
  | n_calculate_emergency_fund | n_analyze_goals_and_risk => checked st
  | _ => True
  end.

Lemma checked_same (st st' : dict F) :
  st' !! "user_profile" = st !! "user_profile" -> checked st -> checked st'.
Proof. intros H (p & a & Hp & Hrest). exists p, a. now rewrite H. Qed.

(** [fetch_user_profile] hands on the row of the tool. *)
Lemma fetch_user_profile_row (st st1 : dict F) :
  fetch_user_profile E st = Returned st1 ->
  (status_of st1 = VStr "error") \/
  (status_of st1 = VStr "success" /\
   st1 !! "user_profile"
     = Some (VDict (user_profile_tool_run E (get_or st "user_id" VNone)))).
Proof.
  unfold fetch_user_profile.
  destruct (negb _).
  { intros H. apply Returned_eq in H. subst. left. apply status_of_with_error. }
  destruct (_ !! "error").
  { intros H. apply Returned_eq in H. subst. left. apply status_of_with_error. }
  destruct (List.filter _ _); intros H; apply Returned_eq in H; subst.
  - right. split; [apply status_of_insert|].
    rewrite lookup_insert_ne by discriminate. apply lookup_insert_eq.
  - left. apply status_of_with_error.
Qed.

Lemma filter_nil_absent (p : dict F) (k : string) :
  List.filter (absent_or_none p) required_fields = [] ->
  In k required_fields -> absent_or_none p k = false.
Proof.
  intros Hf Hk. destruct (absent_or_none p k) eqn:Ha; [|reflexivity].
  assert (Hin : In k (List.filter (absent_or_none p) required_fields))
    by (apply filter_In; now split).
  rewrite Hf in Hin. destruct Hin.
Qed.

Lemma absent_or_none_lookup (p q : dict F) (k : string) :
  q !! k = p !! k -> absent_or_none q k = absent_or_none p k.
Proof. unfold absent_or_none. now intros ->. Qed.

(** The profile of a state the check has passed as valid. *)
Lemma check_profile_completeness_passed (st st' p : dict F) :
  st !! "user_profile" = Some (VDict p) ->
  check_profile_completeness E st = Returned st' ->
  status_of st' = VStr "profile_valid" ->
  exists p' a,
    st' !! "user_profile" = Some (VDict p') /\
    p' !! "investment_horizon_years" = p !! "investment_horizon_years" /\
    p' !! "risk_appetite" = Some (VStr a) /\
    absent_or_none p' "investment_horizon_years" = false.
Proof.
  intros Hp H Hs. unfold check_profile_completeness in H.
  rewrite (get_or_Some _ _ _ _ Hp) in H.
  destruct (List.filter (absent_or_none p) required_fields) as [|f fs] eqn:Hf.
  2:{ apply Returned_eq in H. subst st'.
      rewrite !status_of_insert_ne in Hs by discriminate.
      now rewrite status_of_insert in Hs. }
  assert (Hh : absent_or_none p "investment_horizon_years" = false).
  { apply filter_nil_absent; [exact Hf|]. simpl. tauto. }
  destruct (py_item p "monthly_income") as [vi|e|] eqn:Hi; cbn [mbind outcome_bind bind] in H.
  2:{ apply Returned_eq in H. subst st'. rewrite check_profile_handler_status in Hs.
      now destruct (exn_cls e). }
  2:{ discriminate. }
  destruct (py_float E vi) as [a|e|] eqn:Ha; cbn [mbind outcome_bind bind] in H.
  2:{ apply Returned_eq in H. subst st'. rewrite check_profile_handler_status in Hs.
      now destruct (exn_cls e). }
  2:{ discriminate. }
  destruct (py_item p "monthly_expenses") as [ve|e|] eqn:He;
    cbn [mbind outcome_bind bind] in H.
  2:{ apply Returned_eq in H. subst st'. rewrite check_profile_handler_status in Hs.
      now destruct (exn_cls e). }
  2:{ discriminate. }
  destruct (py_float E ve) as [b|e|] eqn:Hb; cbn [mbind outcome_bind bind] in H.
  2:{ apply Returned_eq in H. subst st'. rewrite check_profile_handler_status in Hs.
      now destruct (exn_cls e). }
  2:{ discriminate. }
  rewrite calculate_savings_floats in H. rewrite savings_truthy in H.
  fold (profile_with_savings p a b) in H. cbv zeta in H.
  destruct (risk_mapping !! _) as [tier|].
  2:{ apply Returned_eq in H. subst st'. rewrite check_profile_handler_status in Hs.
      discriminate. }
  apply Returned_eq in H. subst st'.
  assert (Hl : profile_with_savings p a b !! "investment_horizon_years"
               = p !! "investment_horizon_years").
  { unfold profile_with_savings.
    assert (Hu : (savings a b ∪ p) !! "investment_horizon_years"
                 = p !! "investment_horizon_years").
    { apply lookup_union_r. reflexivity. }
    destruct (negb _); [|exact Hu].
    rewrite lookup_insert_ne by discriminate. exact Hu. }
  eexists _, tier.
  split. { rewrite lookup_insert_ne by discriminate. apply lookup_insert_eq. }
  split. { rewrite lookup_insert_ne by discriminate. exact Hl. }
  split; [apply lookup_insert_eq|].
  etransitivity; [|exact Hh]. apply absent_or_none_lookup.
  rewrite lookup_insert_ne by discriminate. exact Hl.
Qed.

(** [generate_fallback_recommendation] has its message after the check
    has sent the run to it, whether or not the engine has written the
    missing fields. *)
Lemma fallback_message_after_check (st update : dict F) :
  st !! "missing_fields" = None ->
  check_profile_completeness E st = Returned update ->
  status_of (merge st (written G update)) = VStr "profile_incomplete" \/
  status_of (merge st (written G update)) = VStr "profile_invalid" ->
  exists message, fallback_message (merge st (written G update)) = Returned message.
Proof.
  intros Hmf H Hs.
  assert (Hm : forall v, update !! "status" = Some v ->
                 get_or (merge st (written G update)) "status"
                   (VStr "profile_incomplete") = v).
  { intros v Hv. apply get_or_Some. apply (merge_declared G declared); [simpl; tauto | exact Hv]. }
  destruct (check_profile_completeness_cases E st update H)
    as [-> | [(f & fs & ->) | Hh]].
  - rewrite (merge_status G declared st _ (VStr "error")) in Hs
      by apply lookup_insert_eq.
    destruct Hs; discriminate.
  - set (update := <["error" := _]> _) in *.
    assert (Hg : get_or (merge st (written G update)) "missing_fields" (VList [])
                 = if writes G "missing_fields" then VList (map VStr (f :: fs))
                   else VList []).
    { unfold get_or. rewrite merge_written_lookup. unfold update.
      rewrite lookup_insert_ne by discriminate. rewrite lookup_insert_eq, Hmf.
      now destruct (writes G "missing_fields"). }
    unfold fallback_message.
    rewrite (Hm (VStr "profile_incomplete"))
      by (unfold update; rewrite !lookup_insert_ne by discriminate;
          apply lookup_insert_eq).
    rewrite Hg. cbn [eq_str String.eqb Ascii.eqb Bool.eqb].
    destruct (writes G "missing_fields"); [|now eexists].
    cbn [map truthy].
    unfold py_join. rewrite <- (map_cons VStr f fs). rewrite all_text_map_VStr.
    now eexists.
  - assert (Hst : (exists st0 e, update = check_profile_handler E st0 e) \/
                  status_of update = VStr "profile_valid").
    { destruct Hh as [(e & ->) | [(p & e & ->) | (p & ->)]];
        [left; now eexists _, _ ..|].
      right. apply status_of_insert. }
    destruct Hst as [(st0 & e & ->) | Hv].
    2:{ rewrite (merge_status G declared st _ _ (status_lookup _ _ Hv)) in Hs.
        destruct Hs; discriminate. }
    pose proof (check_profile_handler_status E st0 e) as Hu.
    rewrite (merge_status G declared st _ _ (status_lookup _ _ Hu)) in Hs.
    unfold fallback_message. rewrite (Hm _ (status_lookup _ _ Hu)).
    destruct (exn_cls e); try (destruct Hs; discriminate).
    cbn [eq_str String.eqb Ascii.eqb Bool.eqb]. now eexists.
Qed.

End Horizon.

Section LeavingARun.

Context {F : Type} {PF : PyFloat F}.

Variable G : engine.
Variable E : env F.
Variable N : number_formats F.
Variable user_id : value F.

Hypothesis declared : writes_declared G.

Lemma step_on_arrival (n n' : node) (st st' : dict F) :
  on_arrival E user_id n st ->
  step G E N n st = Returned (n', st') ->
  on_arrival E user_id n' st'.
Proof.
  intros Ha H.
  destruct (node_eq_END n) as [-> | Hn].
  { unfold step in H. simpl in H. apply Returned_eq in H. injection H as <- <-.
    exact I. }
  destruct (step_changes G E N n n' st st' H) as [_ K].
  destruct (step_cases G E N n n' st st' H Hn)
    as (f & update & Hf & Hu & [(Hne & Hst & Hx) | (-> & r & Hr & Hst)]).
  - destruct n; try (now destruct Hn); simpl in Hf; injection Hf as <-; simpl in Hx;
      try (apply Returned_eq in Hx; subst n');
      try (unfold only_on; destruct (eq_str _ _); exact I); try exact I.
    + (* fetch_user_profile *)
      unfold unless_error. destruct (negb _) eqn:Hs; [|exact I].
      apply negb_true_iff, eq_str_false in Hs.
      simpl in Ha. split.
      2:{ rewrite K by (simpl; intuition discriminate). now rewrite Ha. }
      destruct (fetch_user_profile_row E st update Hu) as [He | [He Hp]].
      * destruct Hs. subst st'.
        rewrite (merge_status G declared st update (VStr "error")); [reflexivity|].
        now apply status_lookup.
      * subst st'. rewrite Ha in Hp.
        rewrite (get_or_Some _ _ _ _ (lookup_insert_eq _ _ _)) in Hp.
        eexists. split.
        -- apply (merge_declared G declared); [simpl; tauto | exact Hp].
        -- reflexivity.
    + (* check_profile_completeness *)
      destruct Ha as [(p & Hp & Hh) Hmf]. subst st'.
      destruct (check_profile_completeness_status E st update Hu) as (s & Hin & Hs).
      pose proof (merge_status G declared st update (VStr s) (status_lookup _ _ Hs))
        as Hms.
      unfold route_after_check_profile in Hx. rewrite (route_key _ _ Hms) in Hx.
      simpl in Hin. destruct Hin as [<- | [<- | [<- | [<- | []]]]]; simpl in Hx;
        apply Returned_eq in Hx; subst n'.
      * destruct (check_profile_completeness_passed E st update p Hp Hu Hs)
          as (p' & a & Hp' & Hh' & Ha' & Hn').
        exists p', a.
        split; [apply (merge_declared G declared); [simpl; tauto | exact Hp']|].
        split; [unfold has_horizon in *; congruence|]. now split.
      * apply (fallback_message_after_check G E declared st update Hmf Hu).
        now left.
      * apply (fallback_message_after_check G E declared st update Hmf Hu).
        now right.
      * exact I.
    + (* fetch_market_data *)
      unfold unless_error. destruct (negb _); [|exact I].
      apply (checked_same E user_id st); [|exact Ha].
      apply K. simpl. intuition discriminate.
    + (* preprocess_market_data *)
      unfold only_on. destruct (eq_str _ _); [|exact I].
      apply (checked_same E user_id st); [|exact Ha].
      apply K. simpl. intuition discriminate.
  - (* calculate_emergency_fund *)
    simpl in Hf. injection Hf as <-.
    pose proof Hr as Hc. apply route_after_emergency_fund_cases in Hc as [-> | ->];
      try exact I.
    destruct Ha as (p & a & Hp & Hh & Hra & Hn').
    unfold route_after_emergency_fund in Hr.
    destruct (negb _) eqn:Hs; [apply Returned_eq in Hr; discriminate|].
    apply negb_false_iff, eq_str_true in Hs.
    destruct (calculate_emergency_fund_cases E st update Hu)
      as [(m & ->) | (profile & d & Hg & ->)].
    { rewrite (merge_status G declared st _ (VStr "error")) in Hs; [discriminate|].
      apply lookup_insert_eq. }
    rewrite (get_or_Some _ _ _ _ Hp) in Hg. injection Hg as <-.
    assert (Hup : merge st (written G (funded st p d)) !! "user_profile"
                  = Some (VDict (<["monthly_investment" :=
                                     VFloat (f_round2 (f_mul d (f_dec 95 (-2))))]>
                                (<["emergency_fund" :=
                                     VFloat (f_round2 (f_mul d (f_dec 5 (-2))))]> p)))).
    { apply (merge_declared G declared); [simpl; tauto|]. unfold funded.
      rewrite !lookup_insert_ne by discriminate. apply lookup_insert_eq. }
    assert (Hro : r !! "user_profile"
                  = merge st (written G (funded st p d)) !! "user_profile").
    { destruct (_ !! "monthly_investment").
      - apply Returned_eq in Hr. now injection Hr as <-.
      - apply bound in Hr as (v & _ & Hr). apply Returned_eq in Hr.
        injection Hr as <-. now rewrite lookup_insert_ne by discriminate. }
    assert (Hst' : st' !! "user_profile"
                   = merge st (written G (funded st p d)) !! "user_profile").
    { subst st'. now destruct (keeps_routed G). }
    eexists _, a. split; [rewrite Hst'; exact Hup|].
    split. { unfold has_horizon in *. now rewrite !lookup_insert_ne by discriminate. }
    split. { now rewrite !lookup_insert_ne by discriminate. }
    etransitivity; [|exact Hn']. apply absent_or_none_lookup.
    now rewrite !lookup_insert_ne by discriminate.
Qed.

Lemma route_after_emergency_fund_protected (st update : dict F) (e : exn F) :
  calculate_emergency_fund E st = Returned update ->
  route_after_emergency_fund (merge st (written G update)) <> Raised e.
Proof.
  intros Hu. unfold route_after_emergency_fund.
  destruct (calculate_emergency_fund_cases E st update Hu)
    as [(m & ->) | (profile & d & _ & ->)].
  - rewrite (merge_status G declared st _ (VStr "error")) by apply lookup_insert_eq.
    discriminate.
  - destruct (negb _); [discriminate|].
    destruct (_ !! "monthly_investment"); [discriminate|].
    unfold get_or.
    rewrite (merge_declared G declared st _ "user_profile"
               (VDict (<["monthly_investment" :=
                           VFloat (f_round2 (f_mul d (f_dec 95 (-2))))]>
                      (<["emergency_fund" :=
                           VFloat (f_round2 (f_mul d (f_dec 5 (-2))))]> profile)))).
    + discriminate.
    + simpl. tauto.
    + unfold funded. rewrite !lookup_insert_ne by discriminate.
      apply lookup_insert_eq.
Qed.

(** What [analyze_goals_and_risk] can raise on a checked profile. *)
Lemma analyze_goals_and_risk_raised (st : dict F) (e : exn F) :
  checked E user_id st ->
  analyze_goals_and_risk st = Raised e ->
  exists h,
    fetched E user_id !! "investment_horizon_years" = Some h /\
    py_int h = Raised e.
Proof.
  intros (p & a & Hp & Hh & Ha & Hn) H.
  unfold analyze_goals_and_risk in H.
  rewrite (get_or_Some _ _ _ _ Hp) in H. cbn [py_get mbind outcome_bind bind] in H.
  rewrite (get_or_Some _ _ _ _ Ha) in H. cbn [py_lower mbind outcome_bind bind] in H.
  destruct (absent_or_none_false p _ Hn) as (h & Hl & _).
  rewrite (get_or_Some _ _ _ _ Hl) in H.
  exists h. split; [unfold has_horizon in Hh; congruence|].
  destruct (py_int h) as [z|x|]; simpl in H; congruence.
Qed.

(** The one exception that leaves a step of a run. *)
Lemma step_raised (n : node) (st : dict F) (e : exn F) :
  on_arrival E user_id n st ->
  step G E N n st = Raised e ->
  exists h,
    fetched E user_id !! "investment_horizon_years" = Some h /\
    py_int h = Raised e.
Proof.
  intros Ha H. unfold step in H.
  destruct (node_function E N n) as [f|] eqn:Hf; [|discriminate].
  destruct (f st) as [update|x|] eqn:Hu; cbn [mbind outcome_bind bind] in H;
    [| |discriminate].
  - (* the edge *)
    exfalso.
    destruct n; simpl in Hf; try discriminate; injection Hf as <-;
      simpl in H; try discriminate.
    + destruct (check_profile_completeness_status E st update Hu) as (s & Hin & Hs).
      pose proof (merge_status G declared st update (VStr s) (status_lookup _ _ Hs))
        as Hms.
      unfold route_after_check_profile in H. rewrite (route_key _ _ Hms) in H.
      simpl in Hin. destruct Hin as [<- | [<- | [<- | [<- | []]]]]; discriminate.
    + destruct (route_after_emergency_fund (merge st (written G update)))
        as [r|y|] eqn:Hr;
        simpl in H; try discriminate.
      now destruct (route_after_emergency_fund_protected st update y Hu).
  - (* the function *)
    assert (Hx : x = e) by congruence. subst x.
    destruct n; simpl in Hf; try discriminate; injection Hf as <-.
    + now destruct (fetch_user_profile_protected E st e).
    + now destruct (check_profile_completeness_protected E st e).
    + exfalso. destruct Ha as (m & Hm).
      unfold generate_fallback_recommendation in Hu. rewrite Hm in Hu. discriminate.
    + now destruct (fetch_market_data_protected E st e).
    + now destruct (preprocess_market_data_protected E st e).
    + now destruct (calculate_emergency_fund_protected E st e).
    + exact (analyze_goals_and_risk_raised st e Ha Hu).
    + now destruct (define_risk_based_allocation_protected E st e).
    + now destruct (select_investments_protected E st e).
    + now destruct (calculate_returns_protected E st e).
    + now destruct (generate_final_recommendation_protected E N st e).
    + now destruct (save_recommendation_protected E st e).
    + discriminate.
Qed.

Lemma run_raised (fuel : nat) (n : node) (st : dict F) (e : exn F) :
  on_arrival E user_id n st ->
  run G E N fuel n st = Some (Raised e) ->
  exists h,
    fetched E user_id !! "investment_horizon_years" = Some h /\
    py_int h = Raised e.
Proof.
  revert n st. induction fuel as [|fuel IH]; intros n st Ha H.
  - destruct n; discriminate.
  - destruct (node_eq_END n) as [-> | Hn]; [discriminate|].
    rewrite (run_step G E N fuel n st Hn) in H.
    destruct (step G E N n st) as [[n' st1]|x|] eqn:Hs; try discriminate.
    + apply (IH n' st1); [|exact H]. now apply (step_on_arrival n n' st st1).
    + injection H as ->. now apply (step_raised n st e).
Qed.

End LeavingARun.

(** X21.  Every stage but two catches what it raises, the fallback has
    what it needs whenever the check sends a run to it, and by the time
    a run reaches [analyze_goals_and_risk] the risk appetite of the
    profile is text: the only exception that can leave a run of the
    graph is the one [int] raises on the investment horizon of the
    profile the tool has answered with.  This holds for every engine
    that writes at least the fields [GraphState] declares. *)
Theorem runs_are_left_by_the_horizon_alone :
  forall (F : Type) (PF : PyFloat F) (G : engine) (E : env F)
         (N : number_formats F) (user_id : value F) (e : exn F),
    writes_declared G ->
    invoke G E N user_id = Some (Raised e) ->
    exists h,
      user_profile_tool_run E user_id !! "investment_horizon_years" = Some h /\
      py_int h = Raised e.
Proof.
  intros F PF G E N user_id e HG H. rewrite invoke_run in H.
  exact (run_raised G E N user_id HG 13 n_fetch_user_profile _ e eq_refl H).
Qed.

Lemma runs_are_left_by_the_horizon_alone_witness :
  let E := Sample.env_with
             (<["investment_horizon_years" := VStr "ten years"]> Sample.profile) in
  let e := Exn ValueError (FromInterpreter "int" [VStr "ten years"]) in
  writes_declared declared_fields /\
  invoke declared_fields E Texts.plain (VInt 16) = Some (Raised e) /\
  exists h,
    user_profile_tool_run E (VInt 16) !! "investment_horizon_years" = Some h /\
    py_int h = Raised e.
Proof.
  intros E e.
  assert (H : invoke declared_fields E Texts.plain (VInt 16) = Some (Raised e))
    by (vm_compute; reflexivity).
  split; [exact declared_fields_declared|]. split; [exact H|].
  exact (runs_are_left_by_the_horizon_alone float binary64 declared_fields E
           Texts.plain (VInt 16) e declared_fields_declared H).
Defined.
